(** * Instance construction and generation post-processing of gpt2_finetune

    A shallow embedding of [gpt2_finetune/data_utils.py] and of the
    instance-building / post-processing part of
    [gpt2_finetune/inference_utils.py], together with the properties the
    specification states about them.

    Conventions of the embedding:
    - Python integers are [Z]; [len] is [Z.of_nat (length _)].
    - one-dimensional integer arrays and Python lists are [list Z];
    - string-keyed dictionaries holding integers (the dataset configuration)
      are [gmap string Z], a missing key raises [KeyError];
    - exceptions are the [Raise] branch of [result];
    - attributes an object only gets in a later method ([self.sentence],
      [self.label], ...) are [option] fields, reading one that was never
      assigned raises [AttributeError];
    - the module-level pseudo-random generator is an explicit [RandomState]
      threaded through the functions that draw from it. *)

From Stdlib Require Import ZArith QArith Lia Ascii String.
From stdpp Require Import base option list strings gmap.

Local Open Scope string_scope.
Local Open Scope list_scope.
Local Open Scope Z_scope.

(** ** Exceptions *)

Inductive exn : Type :=
| AssertionError
| ValueError
| KeyError
| IndexError
| AttributeError
| TypeError
| ZeroDivisionError
| OverflowError.

Inductive result (A : Type) : Type :=
| Ok (a : A)
| Raise (e : exn).

Arguments Ok {A} a.
Arguments Raise {A} e.

#[global] Instance result_ret : MRet result := fun A a => Ok a.
#[global] Instance result_bind : MBind result :=
  fun A B f r => match r with Ok a => f a | Raise e => Raise e end.
#[global] Instance result_fmap : FMap result :=
  fun A B f r => match r with Ok a => Ok (f a) | Raise e => Raise e end.

(** [assert c] *)
Definition py_assert (c : bool) : result unit :=
  if c then Ok tt else Raise AssertionError.

(** [d[k]] on a dictionary *)
Definition getitem (d : gmap string Z) (k : string) : result Z :=
  match d !! k with
  | Some v => Ok v
  | None => Raise KeyError
  end.

(** [obj.attr] for an attribute that is assigned after construction *)
Definition getattr {A : Type} (o : option A) : result A :=
  match o with
  | Some v => Ok v
  | None => Raise AttributeError
  end.

(** ** Python sequences *)

Definition len {A : Type} (l : list A) : Z := Z.of_nat (length l).

(** [l[:n]]: a negative bound counts from the end. *)
Definition slice_to {A : Type} (l : list A) (n : Z) : list A :=
  if 0 <=? n then take (Z.to_nat n) l else take (Z.to_nat (len l + n)) l.

(** [l[n:]] *)
Definition slice_from {A : Type} (l : list A) (n : Z) : list A :=
  if 0 <=? n then drop (Z.to_nat n) l else drop (Z.to_nat (len l + n)) l.

(** [l[i]] for a non-negative literal index *)
Definition index_at {A : Type} (l : list A) (i : nat) : result A :=
  match l !! i with
  | Some v => Ok v
  | None => Raise IndexError
  end.

(** [l[-1]] *)
Definition last_item {A : Type} (l : list A) : result A :=
  match last l with
  | Some v => Ok v
  | None => Raise IndexError
  end.

(** [[e for _ in range(n)]]: [e] is evaluated once per element, so not at
    all when there is none. *)
Definition comprehension {A : Type} (n : nat) (e : result A) : result (list A) :=
  match n with
  | O => Ok []
  | S _ => v ← e; Ok (replicate n v)
  end.

(** [l.index(x)]: position of the first occurrence, on a list that has one *)
Fixpoint list_index (x : Z) (l : list Z) : nat :=
  match l with
  | [] => O
  | y :: l' => if Z.eqb y x then O else S (list_index x l')
  end.

(** [x in l] *)
Definition list_mem (x : Z) (l : list Z) : bool := existsb (Z.eqb x) l.

(** [np.pad(data, (before, after), constant_values=v)] on a one-dimensional
    array; a negative width is rejected by NumPy with a [ValueError]. *)
Definition np_pad (data : list Z) (before after : Z) (v : Z) : result (list Z) :=
  if (before <? 0) || (after <? 0) then Raise ValueError
  else Ok (replicate (Z.to_nat before) v ++ data ++ replicate (Z.to_nat after) v).

(** C integer conversion to [np.int32]: values wrap around modulo 2^32. *)
Definition wrap_int32 (z : Z) : Z := (z + 2 ^ 31) mod 2 ^ 32 - 2 ^ 31.

(** [a.astype(np.int32)] on an array: a C cast of every element *)
Definition np_int32 (l : list Z) : list Z := map wrap_int32 l.

Definition in_int32 (z : Z) : Prop := - 2 ^ 31 <= z < 2 ^ 31.

Definition in_int32b (z : Z) : bool := (- 2 ^ 31 <=? z) && (z <? 2 ^ 31).

(** [np.array(l, dtype=np.int32)] on a list of Python integers: NumPy keeps
    the integers that fit [np.int32] as they are and raises [OverflowError]
    for one that does not. *)
Definition np_array_int32 (l : list Z) : result (list Z) :=
  if forallb in_int32b l then Ok l else Raise OverflowError.

(** ** Python strings *)

(** [s.startswith(p)] *)
Definition startswith (p s : string) : bool := String.prefix p s.

(** [s.endswith(p)] *)
Fixpoint endswith (p s : string) : bool :=
  String.eqb s p ||
  match s with
  | EmptyString => false
  | String _ s' => endswith p s'
  end.

(** [p in s] *)
Fixpoint contains (p s : string) : bool :=
  String.prefix p s ||
  match s with
  | EmptyString => false
  | String _ s' => contains p s'
  end.

(** [s.split(sep)] for a one-character separator: never empty, keeps empty
    fields. *)
Fixpoint split_on (sep : ascii) (s : string) : list string :=
  match s with
  | EmptyString => [EmptyString]
  | String c s' =>
      if Ascii.eqb c sep then EmptyString :: split_on sep s'
      else match split_on sep s' with
           | w :: ws => String c w :: ws
           | [] => [String c EmptyString]
           end
  end.

(** ASCII characters for which [str.isspace] holds *)
Definition is_space (c : ascii) : bool :=
  let n := nat_of_ascii c in
  ((9 <=? n) && (n <=? 13) || (28 <=? n) && (n <=? 32))%nat.

(** [s.split()]: fields separated by runs of whitespace, no empty field *)
Fixpoint split_ws (s : string) : list string :=
  match s with
  | EmptyString => []
  | String c s' =>
      if is_space c then split_ws s'
      else match s' with
           | EmptyString => [String c EmptyString]
           | String c' _ =>
               if is_space c' then String c EmptyString :: split_ws s'
               else match split_ws s' with
                    | w :: ws => String c w :: ws
                    | [] => [String c EmptyString]
                    end
           end
  end.

Fixpoint lstrip (s : string) : string :=
  match s with
  | EmptyString => EmptyString
  | String c s' => if is_space c then lstrip s' else s
  end.

Fixpoint rstrip (s : string) : string :=
  match s with
  | EmptyString => EmptyString
  | String c s' =>
      match rstrip s' with
      | EmptyString => if is_space c then EmptyString else String c EmptyString
      | r => String c r
      end
  end.

Definition is_digit (c : ascii) : bool :=
  let n := nat_of_ascii c in ((48 <=? n) && (n <=? 57))%nat.

Definition digit_value (c : ascii) : Z := Z.of_nat (nat_of_ascii c) - 48.

(** Decimal digits, with single underscores allowed between digits. *)
Fixpoint parse_digits (acc : Z) (after_digit : bool) (s : string) : option Z :=
  match s with
  | EmptyString => if after_digit then Some acc else None
  | String c s' =>
      if is_digit c then parse_digits (10 * acc + digit_value c) true s'
      else if Ascii.eqb c "_"%char && after_digit then parse_digits acc false s'
      else None
  end.

(** The whitespace [int] skips around the digits of ASCII text: space and
    the characters 9 to 13, not the separators 28 to 31 that [str.isspace]
    also accepts. *)
Definition is_int_space (c : ascii) : bool :=
  let n := nat_of_ascii c in ((9 <=? n) && (n <=? 13) || (n =? 32))%nat.

Fixpoint int_lstrip (s : string) : string :=
  match s with
  | EmptyString => EmptyString
  | String c s' => if is_int_space c then int_lstrip s' else s
  end.

Fixpoint int_rstrip (s : string) : string :=
  match s with
  | EmptyString => EmptyString
  | String c s' =>
      match int_rstrip s' with
      | EmptyString => if is_int_space c then EmptyString else String c EmptyString
      | r => String c r
      end
  end.

(** The number of digits of a text of digits and underscores. *)
Fixpoint count_digits (s : string) : nat :=
  match s with
  | EmptyString => O
  | String c s' => if is_digit c then S (count_digits s') else count_digits s'
  end.

(** The default limit of the interpreter on the digits [int] converts. *)
Definition MAX_STR_DIGITS : nat := 4300.

(** [int(s)] on ASCII text: surrounding whitespace, an optional sign, decimal
    digits, no more of them than the interpreter's limit; anything else is a
    [ValueError]. *)
Definition py_int (s : string) : result Z :=
  let t := int_rstrip (int_lstrip s) in
  let d :=
    match t with
    | String "+"%char d => d
    | String "-"%char d => d
    | _ => t
    end in
  let r :=
    match t with
    | String "-"%char _ => Z.opp <$> parse_digits 0 false d
    | _ => parse_digits 0 false d
    end in
  match r with
  | Some z => if (MAX_STR_DIGITS <? count_digits d)%nat then Raise ValueError else Ok z
  | None => Raise ValueError
  end.

(** [[f(x) for x in l]] with an [f] that may raise *)
Fixpoint map_result {A B : Type} (f : A -> result B) (l : list A) : result (list B) :=
  match l with
  | [] => Ok []
  | x :: l' => y ← f x; ys ← map_result f l'; Ok (y :: ys)
  end.

(** ** External collaborators *)

(** The tokenizer capability the pipeline consumes.  [convert_tokens_to_ids]
    maps a list of tokens to the list of their ids, one per token. *)
Record Tokenizer : Type := {
  pad_token_id : Z;
  bos_token_id : Z;
  eos_token_id : Z;
  additional_special_tokens_ids : list Z;
  tokenize : string -> list string;
  convert_token_to_id : string -> Z;
  decode : list Z -> string
}.

Definition convert_tokens_to_ids (tokenizer : Tokenizer) (tokens : list string) : list Z :=
  map (convert_token_to_id tokenizer) tokens.

(** The run arguments read by the code. *)
Record Args : Type := {
  context_input_type : string;
  global_dense_feature_list : string;
  content_aggregation : Z;
  upper_length : string
}.

(** The module-level generator of [random]: the stream of values
    [random.random()] will return (floats of [0, 1), which are rationals) and
    how many were drawn so far. *)
Record RandomState : Type := {
  stream : nat -> Q;
  position : nat
}.

(** [random.random()] *)
Definition random (g : RandomState) : Q * RandomState :=
  (stream g (position g), {| stream := stream g; position := S (position g) |}).

(** ** data_utils.py *)

Definition MAX_ROBERTA_LENGTH : Z := 502.

Definition left_padding (data : list Z) (pad_token total_length : Z) : result (list Z) :=
  let tokens_to_pad := total_length - len data in
  np_pad data tokens_to_pad 0 pad_token.

Definition right_padding (data : list Z) (pad_token total_length : Z) : result (list Z) :=
  let tokens_to_pad := total_length - len data in
  np_pad data 0 tokens_to_pad pad_token.

Definition string_to_ids (text : string) (tokenizer : Tokenizer) : list Z :=
  convert_tokens_to_ids tokenizer (tokenize tokenizer text).

(** [range(n)] *)
Definition py_range (n : Z) : list Z := map Z.of_nat (seq 0 (Z.to_nat n)).

(** [a % b] *)
Definition py_mod (a b : Z) : result Z :=
  if b =? 0 then Raise ZeroDivisionError else Ok (a mod b).

(** [[x for x in l if p(x)]] with a condition that may raise *)
Fixpoint filter_result {A : Type} (p : A -> result bool) (l : list A) : result (list A) :=
  match l with
  | [] => Ok []
  | x :: l' =>
      b ← p x;
      r ← filter_result p l';
      Ok (if b : bool then x :: r else r)
  end.

(** [global_dense_length] as [update_config] derives it from the arguments *)
Definition global_dense_length_of (args : Args) : Z :=
  if negb (String.eqb (global_dense_feature_list args) "none")
  then len (split_on ","%char (global_dense_feature_list args))
  else 0.

Definition update_config (args : Args) (config : gmap string Z) : result (gmap string Z) :=
  let config :=
    if endswith "_no_srl_input" (context_input_type args)
    then <["max_prefix_length" := 0]> config
    else config in
  let global_dense_length := global_dense_length_of args in
  roberta_dense_length ←
    (if content_aggregation args >? MAX_ROBERTA_LENGTH then Ok 0
     else len <$> filter_result
                    (fun i => r ← py_mod i (content_aggregation args); Ok (r =? 0))
                    (py_range (MAX_ROBERTA_LENGTH - 1)));
  max_dense_length ← getitem config "max_dense_length";
  _ ← py_assert (global_dense_length <=? max_dense_length);
  Ok (<["roberta_dense_length" := roberta_dense_length]>
        (<["global_dense_length" := global_dense_length]> config)).

(** The raw example an [Instance] is built from. *)
Record InstanceDict : Type := {
  d_sent1_tokens : list Z;
  d_sent2_tokens : list Z
}.

(** The object state of class [Instance]. *)
Record Instance : Type := mkInstance {
  args : Args;
  config : gmap string Z;
  truncated : bool;
  sent1_tokens : list Z;
  sent1_tokens_tags : option (list string);
  sent2_tokens : list Z;
  init_context_size : Z;
  sent_prefix : option (list Z);
  sent_suffix : option (list Z);
  sentence : option (list Z);
  label_suffix : option (list Z);
  label : option (list Z);
  segment : option (list Z)
}.

(** Attribute assignments *)
Definition set_truncated (v : bool) (self : Instance) : Instance :=
  mkInstance (args self) (config self) v (sent1_tokens self) (sent1_tokens_tags self)
    (sent2_tokens self) (init_context_size self) (sent_prefix self) (sent_suffix self)
    (sentence self) (label_suffix self) (label self) (segment self).

Definition set_sent1_tokens (v : list Z) (self : Instance) : Instance :=
  mkInstance (args self) (config self) (truncated self) v (sent1_tokens_tags self)
    (sent2_tokens self) (init_context_size self) (sent_prefix self) (sent_suffix self)
    (sentence self) (label_suffix self) (label self) (segment self).

Definition set_sent2_tokens (v : list Z) (self : Instance) : Instance :=
  mkInstance (args self) (config self) (truncated self) (sent1_tokens self)
    (sent1_tokens_tags self) v (init_context_size self) (sent_prefix self)
    (sent_suffix self) (sentence self) (label_suffix self) (label self) (segment self).

Definition set_sentence (p s w : list Z) (self : Instance) : Instance :=
  mkInstance (args self) (config self) (truncated self) (sent1_tokens self)
    (sent1_tokens_tags self) (sent2_tokens self) (init_context_size self) (Some p)
    (Some s) (Some w) (label_suffix self) (label self) (segment self).

Definition set_label (ls l : list Z) (self : Instance) : Instance :=
  mkInstance (args self) (config self) (truncated self) (sent1_tokens self)
    (sent1_tokens_tags self) (sent2_tokens self) (init_context_size self)
    (sent_prefix self) (sent_suffix self) (sentence self) (Some ls) (Some l)
    (segment self).

Definition set_segment (v : list Z) (self : Instance) : Instance :=
  mkInstance (args self) (config self) (truncated self) (sent1_tokens self)
    (sent1_tokens_tags self) (sent2_tokens self) (init_context_size self)
    (sent_prefix self) (sent_suffix self) (sentence self) (label_suffix self)
    (label self) (Some v).

(** [Instance.__init__] *)
Definition Instance_init (a : Args) (c : gmap string Z) (instance_dict : InstanceDict)
  : result Instance :=
  sent1 ← np_array_int32 (d_sent1_tokens instance_dict);
  sent2 ← np_array_int32 (d_sent2_tokens instance_dict);
  max_prefix_length ← getitem c "max_prefix_length";
  Ok {| args := a; config := c; truncated := false;
        sent1_tokens := sent1;
        sent1_tokens_tags := None;
        sent2_tokens := sent2;
        init_context_size := max_prefix_length + 1;
        sent_prefix := None; sent_suffix := None; sentence := None;
        label_suffix := None; label := None; segment := None |}.

Definition truncate (self : Instance) : result Instance :=
  max_prefix_length ← getitem (config self) "max_prefix_length";
  max_suffix_length ← getitem (config self) "max_suffix_length";
  let self :=
    if len (sent1_tokens self) >? max_prefix_length
    then set_sent1_tokens (slice_to (sent1_tokens self) max_prefix_length)
           (set_truncated true self)
    else self in
  let self :=
    if len (sent2_tokens self) >? max_suffix_length
    then set_sent2_tokens (slice_to (sent2_tokens self) max_suffix_length)
           (set_truncated true self)
    else self in
  Ok self.

(** [self.sent1_tokens, self.sent2_tokens = self.sent2_tokens, self.sent1_tokens] *)
Definition swap_tokens (self : Instance) : Instance :=
  set_sent2_tokens (sent1_tokens self) (set_sent1_tokens (sent2_tokens self) self).

Definition shuffle_prefix_suffix (self : Instance) (g : RandomState)
  : Instance * RandomState :=
  if contains "_shuffle_" (context_input_type (args self)) then
    let (x, g') := random g in
    if Qle_bool x (1 # 2) then (swap_tokens self, g') else (self, g')
  else if contains "_reverse_" (context_input_type (args self)) then
    (swap_tokens self, g)
  else (self, g).

Definition build_sentence (tokenizer : Tokenizer) (self : Instance) : result Instance :=
  prefix ←
    (if endswith "_no_srl_input" (context_input_type (args self)) then Ok []
     else max_prefix_length ← getitem (config self) "max_prefix_length";
          left_padding (sent1_tokens self) (pad_token_id tokenizer) max_prefix_length);
  max_suffix_length ← getitem (config self) "max_suffix_length";
  suffix ← right_padding (sent2_tokens self ++ [eos_token_id tokenizer])
             (pad_token_id tokenizer) (max_suffix_length + 1);
  Ok (set_sentence prefix suffix (prefix ++ [bos_token_id tokenizer] ++ suffix) self).

(** [self.config["global_dense_length"] + self.config["roberta_dense_length"]] *)
Definition dense_length_of (c : gmap string Z) : result Z :=
  g ← getitem c "global_dense_length";
  r ← getitem c "roberta_dense_length";
  Ok (g + r).

Definition build_label (tokenizer : Tokenizer) (self : Instance) : result Instance :=
  dense_length ← dense_length_of (config self);
  max_suffix_length ← getitem (config self) "max_suffix_length";
  lsuffix ← right_padding (sent2_tokens self ++ [eos_token_id tokenizer]) (-1)
              (max_suffix_length + 1);
  prefix ← getattr (sent_prefix self);
  Ok (set_label lsuffix
        (replicate (Z.to_nat dense_length) (-1) ++ replicate (length prefix) (-1)
           ++ [-1] ++ lsuffix)
        self).

Definition build_segment (tokenizer : Tokenizer) (self : Instance) : result Instance :=
  let special := index_at (additional_special_tokens_ids tokenizer) in
  dense_length ← dense_length_of (config self);
  '(prefix_segment, suffix_segment_tag) ←
    match sent1_tokens_tags self with
    | Some tags =>
        max_prefix_length ← getitem (config self) "max_prefix_length";
        p ← left_padding (convert_tokens_to_ids tokenizer tags)
              (pad_token_id tokenizer) max_prefix_length;
        t ← special 1%nat;
        Ok (p, t)
    | None =>
        prefix ← getattr (sent_prefix self);
        p ← comprehension (length prefix) (special 1%nat);
        t ← special 2%nat;
        Ok (p, t)
    end;
  dense ← comprehension (Z.to_nat dense_length) (special 0%nat);
  suffix ← getattr (sent_suffix self);
  Ok (set_segment
        (dense ++ prefix_segment ++ [suffix_segment_tag]
           ++ replicate (length suffix) suffix_segment_tag)
        self).

Definition check_constraints (self : Instance) : result unit :=
  dense_length ← dense_length_of (config self);
  s ← getattr (sentence self);
  l ← getattr (label self);
  _ ← py_assert (len s =? len l - dense_length);
  g ← getattr (segment self);
  py_assert (len s =? len g - dense_length).

Definition preprocess (tokenizer : Tokenizer) (self : Instance) (g : RandomState)
  : result (Instance * RandomState) :=
  self ← truncate self;
  let (self, g) := shuffle_prefix_suffix self g in
  self ← build_sentence tokenizer self;
  self ← build_label tokenizer self;
  self ← build_segment tokenizer self;
  _ ← check_constraints self;
  Ok (self, g).

(** *** HPInstance *)

(** [instance_dict["roberta_sentence"]] is either text or a tensor of ids. *)
Inductive RobertaSentence : Type :=
| RobertaStr (s : string)
| RobertaTensor (t : list Z).

Record HPInstanceDict : Type := {
  d_sentence : list Z;
  d_roberta_sentence : RobertaSentence;
  d_author_tag_str : list string;
  d_author_tag_ids : list string;
  d_author_target : Z;
  d_original_target : Z;
  d_roberta_author_target : option Z
}.

(** The state [HPInstance] adds to the one it inherits. *)
Record HPInstance : Type := mkHPInstance {
  base : Instance;
  original_sentence : list Z;
  roberta_sentence : list Z;
  author_tag_str : list string;
  author_tag_ids : list string;
  author_target : Z;
  original_author_target : Z;
  roberta_author_target : Z
}.

(** The first statement of [preprocess_roberta]: the ids as an int32 array,
    built of the parsed fields of a text and cast from a tensor. *)
Definition roberta_array (roberta_sentence : RobertaSentence) : result (list Z) :=
  match roberta_sentence with
  | RobertaStr s => ids ← map_result py_int (split_ws s); np_array_int32 ids
  | RobertaTensor t => Ok (np_int32 t)
  end.

Definition preprocess_roberta (roberta_sentence : RobertaSentence) : result (list Z) :=
  roberta_sentence ← roberta_array roberta_sentence;
  roberta_sentence ←
    (if len roberta_sentence <? MAX_ROBERTA_LENGTH
     then right_padding roberta_sentence 1 MAX_ROBERTA_LENGTH
     else Ok (slice_to roberta_sentence MAX_ROBERTA_LENGTH));
  _ ← py_assert (len roberta_sentence =? MAX_ROBERTA_LENGTH);
  Ok roberta_sentence.

(** Returns [(sent1_tokens, sent1_tokens_tags)]. *)
Definition decide_sent1_tokens (a : Args) (d : HPInstanceDict)
  : result (list Z * option (list string)) :=
  if endswith "_no_srl_input" (context_input_type a) then Ok ([], None)
  else if endswith "_roberta_input" (context_input_type a) then
    match d_roberta_sentence d with
    | RobertaStr s =>
        ids ← map_result py_int (split_ws s);
        sent1 ← np_array_int32 ids;
        Ok (sent1, None)
    | RobertaTensor _ => Raise TypeError
    end
  else
    ids ← map_result py_int (d_author_tag_str d);
    sent1 ← np_array_int32 ids;
    Ok (sent1, Some (d_author_tag_ids d)).

(** [HPInstance.__init__] *)
Definition HPInstance_init (a : Args) (c : gmap string Z) (d : HPInstanceDict)
  : result HPInstance :=
  max_prefix_length ← getitem c "max_prefix_length";
  '(s1, tags) ← decide_sent1_tokens a d;
  s2 ← np_array_int32 (d_sentence d);
  rs ← preprocess_roberta (d_roberta_sentence d);
  Ok {| base :=
          {| args := a; config := c; truncated := false;
             sent1_tokens := s1; sent1_tokens_tags := tags;
             sent2_tokens := s2;
             init_context_size := max_prefix_length + 1;
             sent_prefix := None; sent_suffix := None; sentence := None;
             label_suffix := None; label := None; segment := None |};
        original_sentence := d_sentence d;
        roberta_sentence := rs;
        author_tag_str := d_author_tag_str d;
        author_tag_ids := d_author_tag_ids d;
        author_target := d_author_target d;
        original_author_target := d_original_target d;
        roberta_author_target :=
          default (d_author_target d) (d_roberta_author_target d) |}.

(** ** inference_utils.py *)

Record GPT2Generator : Type := {
  gen_args : Args;
  gen_config : gmap string Z;
  gen_tokenizer : Tokenizer
}.

(** [modify_args], on the fields the embedding keeps *)
Definition modify_args (a : Args) (upper : string) : Args :=
  {| context_input_type := context_input_type a;
     global_dense_feature_list := global_dense_feature_list a;
     content_aggregation := content_aggregation a;
     upper_length := upper |}.

(** [GPT2Generator.__init__]: the stored training arguments, the dataset
    configuration selected by [get_config] and the tokenizer returned by
    [init_roberta_gpt2] are inputs. *)
Definition GPT2Generator_init (training_args : Args) (dataset_config : gmap string Z)
    (tokenizer : Tokenizer) (upper : string) : result GPT2Generator :=
  let a := modify_args training_args upper in
  c ← update_config a dataset_config;
  Ok {| gen_args := a; gen_config := c; gen_tokenizer := tokenizer |}.

(** [if eos in curr_out: curr_out = curr_out[:curr_out.index(eos)]] *)
Definition cut_at_eos (eos : Z) (curr_out : list Z) : list Z :=
  if list_mem eos curr_out then slice_to curr_out (Z.of_nat (list_index eos curr_out))
  else curr_out.

Section Generate.
(** Type of the per-example dense-feature selectors. *)
Context {Selector : Type}.

(** The generation capability: from the batch of instances (their
    [sentence], [segment] and dense vectors) to the rows of output ids. *)
Variable engine : list Instance -> list (option Selector) -> list (list Z).

Variable self : GPT2Generator.

(** First loop of [generate_batch]: one preprocessed [Instance] per
    [(context, gdf)] pair, drawing from the shared generator in order.  The
    float vector [instance.gdv] attached to each instance is not part of the
    embedding; the selectors are handed to the engine as they are. *)
Fixpoint build_instances (pairs : list (string * option Selector)) (g : RandomState)
  : result (list Instance * RandomState) :=
  match pairs with
  | [] => Ok ([], g)
  | (context, _) :: rest =>
      let tokenizer := gen_tokenizer self in
      let context_ids := convert_tokens_to_ids tokenizer (tokenize tokenizer context) in
      instance ← Instance_init (gen_args self) (gen_config self)
                   {| d_sent1_tokens := context_ids; d_sent2_tokens := context_ids |};
      '(instance, g) ← preprocess tokenizer instance g;
      '(instances, g) ← build_instances rest g;
      Ok (instance :: instances, g)
  end.

(** Body of the second loop, up to the ids handed to [tokenizer.decode]. *)
Definition postprocess_row (instance : Instance) (row : list Z) : result (list Z) :=
  let curr_out := slice_from row (init_context_size instance) in
  let curr_out := cut_at_eos (eos_token_id (gen_tokenizer self)) curr_out in
  if startswith "same" (upper_length (gen_args self)) then
    piece ← last_item (split_on "_"%char (upper_length (gen_args self)));
    extra ← py_int piece;
    Ok (slice_to curr_out (len (sent1_tokens instance) + extra))
  else Ok curr_out.

(** [for out_num in range(len(output))], from [out_num] on *)
Fixpoint postprocess_rows (instances : list Instance) (out_num : nat)
    (output : list (list Z)) : result (list (list Z)) :=
  match output with
  | [] => Ok []
  | row :: rows =>
      instance ← index_at instances out_num;
      curr_out ← postprocess_row instance row;
      rest ← postprocess_rows instances (S out_num) rows;
      Ok (curr_out :: rest)
  end.

(** [generate_batch] up to decoding: the id lists that are decoded. *)
Definition generate_batch_ids (contexts : list string)
    (global_dense_features : option (list (option Selector))) (g : RandomState)
  : result (list (list Z) * RandomState) :=
  let global_dense_features :=
    match global_dense_features with
    | None => map (fun _ => None) contexts
    | Some l => l
    end in
  '(instances, g) ← build_instances (zip contexts global_dense_features) g;
  _ ← index_at instances 0;
  let output := engine instances global_dense_features in
  all_output ← postprocess_rows instances 0 output;
  Ok (all_output, g).

Definition generate_batch (contexts : list string)
    (global_dense_features : option (list (option Selector))) (g : RandomState)
  : result (list string * RandomState) :=
  '(ids, g) ← generate_batch_ids contexts global_dense_features g;
  Ok (map (decode (gen_tokenizer self)) ids, g).
End Generate.

(** ** The rest of data_utils.py *)

(** [np.insert(array, 0, value)] *)
Definition np_prepend (array : list Z) (value : Z) : list Z := value :: array.

(** [l[i]], a negative index counting from the end *)
Definition py_index {A : Type} (l : list A) (i : Z) : result A :=
  if (i <? - len l) || (len l <=? i) then Raise IndexError
  else match l !! Z.to_nat (if i <? 0 then i + len l else i) with
       | Some v => Ok v
       | None => Raise IndexError
       end.

(** [limit_examples] is [None] or an integer; [None] and 0 are falsy. *)
Definition limit_dataset_size {A : Type} (dataset : list A) (limit_examples : option Z)
  : list A :=
  match limit_examples with
  | Some n => if n =? 0 then dataset else slice_to dataset n
  | None => dataset
  end.

(** The dataset is a list of raw instance dictionaries, read at
    ["author_target"]; [reverse_author_target_dict] names the authors. *)
Definition limit_authors (dataset : list HPInstanceDict) (specific_author_train : string)
    (split : string) (reverse_author_target_dict : gmap Z string)
  : result (list HPInstanceDict) :=
  specific_author_train ←
    map_result py_int (split_on ","%char specific_author_train);
  if (String.eqb split "train" || String.eqb split "test")
     && negb (list_mem (-1) specific_author_train)
  then
    _ ← map_result
          (fun x => match reverse_author_target_dict !! x with
                    | Some name => Ok name
                    | None => Raise KeyError
                    end)
          specific_author_train;
    Ok (filter (fun x => list_mem (d_author_target x) specific_author_train = true)
          dataset)
  else Ok dataset.

(** One entry of [config["keys"]]. *)
Record KeySpec : Type := {
  ks_key : string;
  ks_position : Z;
  ks_tokenize : bool;
  ks_metadata : bool
}.

(** What an instance dictionary holds under a key: text, or a list (of token
    ids; [+=] with text appends its characters to a list). *)
Inductive Item : Type :=
| IInt (z : Z)
| IChar (c : ascii).

Inductive Value : Type :=
| VStr (s : string)
| VList (l : list Item).

Fixpoint str_take (n : nat) (s : string) : string :=
  match n, s with
  | S n', String c s' => String c (str_take n' s')
  | _, _ => EmptyString
  end.

(** [s[:n]] on text *)
Definition str_slice_to (s : string) (n : Z) : string :=
  if 0 <=? n then str_take (Z.to_nat n) s
  else str_take (Z.to_nat (Z.of_nat (String.length s) + n)) s.

(** [v += s] *)
Definition value_iadd (v : Value) (s : string) : Value :=
  match v with
  | VStr t => VStr (t +:+ s)
  | VList l => VList (l ++ map IChar (list_ascii_of_string s))
  end.

(** [v[:n]] *)
Definition value_slice_to (v : Value) (n : Z) : Value :=
  match v with
  | VStr t => VStr (str_slice_to t n)
  | VList l => VList (slice_to l n)
  end.

(** ["%s = %s, " % (key, str(element_value))] *)
Definition metadata_entry (key element_value : string) : string :=
  key +:+ " = " +:+ element_value +:+ ", ".

(** The loop of [datum_to_dict] over [config["keys"]]. *)
Fixpoint datum_to_dict_keys (tokenizer : Tokenizer) (datum : list string)
    (keys : list KeySpec) (instance_dict : gmap string Value)
  : result (gmap string Value) :=
  match keys with
  | [] => Ok instance_dict
  | key :: rest =>
      element_value ← py_index datum (ks_position key);
      let instance_dict :=
        <[ks_key key :=
            if ks_tokenize key
            then VList (map IInt (string_to_ids element_value tokenizer))
            else VStr element_value]> instance_dict in
      instance_dict ←
        (if ks_metadata key then
           match instance_dict !! "metadata" with
           | Some m =>
               Ok (<["metadata" :=
                       value_iadd m (metadata_entry (ks_key key) element_value)]>
                     instance_dict)
           | None => Raise KeyError
           end
         else Ok instance_dict);
      datum_to_dict_keys tokenizer datum rest instance_dict
  end.

(** [datum_to_dict(config, datum, tokenizer)], with [config["keys"]] as the
    list [keys]. *)
Definition datum_to_dict (keys : list KeySpec) (datum : list string)
    (tokenizer : Tokenizer) : result (gmap string Value) :=
  instance_dict ← datum_to_dict_keys tokenizer datum keys {["metadata" := VStr ""]};
  match instance_dict !! "metadata" with
  | Some m => Ok (<["metadata" := value_slice_to m (-2)]> instance_dict)
  | None => Raise KeyError
  end.

(** [content_vectors] has shape (batch, [seq_len], hidden): a list of rows of
    [seq_len] vectors each; [seq_len] is [content_vectors.shape[1]]. *)
Definition aggregate_content_information {V : Type} (seq_len : Z)
    (content_vectors : list (list V)) (content_aggregation : Z)
  : result (list (list V)) :=
  content_agg_indices ←
    filter_result (fun i => r ← py_mod i content_aggregation; Ok (r =? 0))
      (py_range seq_len);
  map_result (fun row => map_result (py_index row) content_agg_indices)
    content_vectors.

(** ** The rest of inference_utils.py *)

(** [get_config]; the table [DATASET_CONFIG] of [gpt2_finetune.dataset_config]
    is taken as the list of its items, in order. *)
Definition get_config {V : Type} (DATASET_CONFIG : list (string * V)) (data_dir : string)
  : result V :=
  let valid_configs :=
    map snd (filter (fun kv => endswith (fst kv) data_dir = true) DATASET_CONFIG) in
  _ ← py_assert (len valid_configs =? 1);
  index_at valid_configs 0.

(** The dictionary comprehension over the enumerated lines of [dict.txt], from
    line [i] on. *)
Fixpoint author_targets_from (i : nat) (lines : list string) (d : gmap string Z)
  : result (gmap string Z) :=
  match lines with
  | [] => Ok d
  | x :: rest =>
      if startswith "madeupword" x then author_targets_from (S i) rest d
      else
        name ← index_at (split_ws x) 0;
        author_targets_from (S i) rest (<[name := Z.of_nat i]> d)
  end.

(** [author_target_dict] of [GPT2Generator.__init__], from the text of
    [dict.txt]. *)
Definition read_author_target_dict (content : string) : result (gmap string Z) :=
  author_targets_from 0 (split_on (ascii_of_nat 10) (rstrip (lstrip content))) ∅.

(** [{v: k for k, v in author_target_dict.items()}] *)
Definition reverse_dict (d : gmap string Z) : gmap Z string :=
  list_to_map (map (fun kv => (snd kv, fst kv)) (map_to_list d)).

Section GenerateOne.
Context {Selector : Type}.
Variable engine : list Instance -> list (option Selector) -> list (list Z).
Variable self : GPT2Generator.

(** [generate]: the batch form on a batch of one, and its first text. *)
Definition generate (context : string) (global_dense_features : option Selector)
    (g : RandomState) : result (string * RandomState) :=
  '(all_output, g) ← generate_batch engine self [context]
                       (Some [global_dense_features]) g;
  out ← index_at all_output 0;
  Ok (out, g).
End GenerateOne.

(** * Reference definitions *)

(** The number of indices [i] of [[0, 500]] with [i mod stride = 0]. *)
Definition multiples_upto_500 (stride : Z) : Z :=
  len (filter (fun i => i mod stride = 0) (seqZ 0 501)).

(** [roberta_dense_length] in the words of the specification: 0 when the
    stride exceeds 501, else the number of multiples of the stride in
    [[0, 500]]. *)
Definition spec_roberta_dense_length (stride : Z) : Z :=
  if stride >? 501 then 0 else multiples_upto_500 stride.

(** The configuration [update_config] goes on with after its first statement. *)
Definition no_srl_config (a : Args) (c : gmap string Z) : gmap string Z :=
  if endswith "_no_srl_input" (context_input_type a)
  then <["max_prefix_length" := 0]> c else c.

(** The test [args.context_input_type.endswith("_no_srl_input")] on an
    instance. *)
Definition no_srl (self : Instance) : bool :=
  endswith "_no_srl_input" (context_input_type (args self)).

(** The test that sends [shuffle_prefix_suffix] into one of its two
    branches. *)
Definition may_swap (self : Instance) : bool :=
  contains "_shuffle_" (context_input_type (args self))
  || contains "_reverse_" (context_input_type (args self)).

(** A context whose ids [truncate] treats alike as prefix and as suffix: no
    more of them than either limit, or two equal limits. *)
Definition same_truncation (tokenizer : Tokenizer)
    (max_prefix_length max_suffix_length : Z) (context : string) : Prop :=
  (len (string_to_ids context tokenizer) <= max_prefix_length /\
   len (string_to_ids context tokenizer) <= max_suffix_length) \/
  max_prefix_length = max_suffix_length.

(** The number of occurrences of a character in a text. *)
Fixpoint count_char (c : ascii) (s : string) : nat :=
  match s with
  | EmptyString => O
  | String c' s' => if Ascii.eqb c' c then S (count_char c s') else count_char c s'
  end.

(** Whether a call returned. *)
Definition is_ok {A : Type} (r : result A) : bool :=
  match r with
  | Ok _ => true
  | Raise _ => false
  end.

(** [sep.join(l)] *)
Fixpoint join (sep : string) (l : list string) : string :=
  match l with
  | [] => EmptyString
  | [x] => x
  | x :: rest => x +:+ sep +:+ join sep rest
  end.

(** What [datum_to_dict] stores under a key for the element it read. *)
Definition stored_value (tokenizer : Tokenizer) (key : KeySpec) (element_value : string)
  : Value :=
  if ks_tokenize key
  then VList (map IInt (string_to_ids element_value tokenizer))
  else VStr element_value.

(** The texts [key = value] of the keys flagged as metadata, in order. *)
Fixpoint metadata_entries (keys : list KeySpec) (values : list string) : list string :=
  match keys, values with
  | key :: keys', v :: values' =>
      if ks_metadata key
      then (ks_key key +:+ " = " +:+ v) :: metadata_entries keys' values'
      else metadata_entries keys' values'
  | _, _ => []
  end.

(** * Concrete inputs

    Small configurations, tokenizers and instances on which the definitions
    above are evaluated further down. *)

(** A concrete run: limits 2 and 3, sequences of four and two ids. *)
Definition demo_args : Args :=
  {| context_input_type := "srl_input"; global_dense_feature_list := "none";
     content_aggregation := 1000; upper_length := "same_2" |}.

Definition demo_config : gmap string Z :=
  <["roberta_dense_length" := 0]> (<["global_dense_length" := 2]>
    (<["max_dense_length" := 2]> (<["max_suffix_length" := 3]>
      (<["max_prefix_length" := 2]> ∅)))).

Definition demo_instance : Instance :=
  {| args := demo_args; config := demo_config; truncated := false;
     sent1_tokens := [11; 12; 13; 14]; sent1_tokens_tags := None;
     sent2_tokens := [21; 22]; init_context_size := 3;
     sent_prefix := None; sent_suffix := None; sentence := None;
     label_suffix := None; label := None; segment := None |}.

(** A mode string that carries both markers, and two generator states: one
    whose draws are all 3/4, one whose draws are all 1/4. *)
Definition mixed_marker_args : Args :=
  {| context_input_type := "srl_shuffle_reverse_input";
     global_dense_feature_list := "none";
     content_aggregation := 1000; upper_length := "eos" |}.

Definition mixed_marker_instance : Instance :=
  {| args := mixed_marker_args; config := demo_config; truncated := false;
     sent1_tokens := [11; 12]; sent1_tokens_tags := None;
     sent2_tokens := [21; 22]; init_context_size := 3;
     sent_prefix := None; sent_suffix := None; sentence := None;
     label_suffix := None; label := None; segment := None |}.

Definition high_draws : RandomState := {| stream := fun _ => 3 # 4; position := 0 |}.
Definition low_draws : RandomState := {| stream := fun _ => 1 # 4; position := 0 |}.

(** A toy tokenizer: whitespace tokens, the id of a token is 100 plus its
    length; pad, bos and eos are 0, 1 and 2. *)
Definition demo_tokenizer : Tokenizer :=
  {| pad_token_id := 0; bos_token_id := 1; eos_token_id := 2;
     additional_special_tokens_ids := [3; 4; 5];
     tokenize := split_ws;
     convert_token_to_id := fun t => 100 + Z.of_nat (String.length t);
     decode := fun _ => "" |}.

(** [demo_instance] as [build_sentence] would leave it after truncation. *)
Definition sentence_built : Instance :=
  {| args := demo_args; config := demo_config; truncated := true;
     sent1_tokens := [11; 12]; sent1_tokens_tags := None;
     sent2_tokens := [21; 22]; init_context_size := 3;
     sent_prefix := Some [11; 12]; sent_suffix := Some [21; 22; 2; 0];
     sentence := Some [11; 12; 1; 21; 22; 2; 0];
     label_suffix := None; label := None; segment := None |}.

(** A run configured with an aggregation stride of exactly 502. *)
Definition stride_502_args : Args :=
  {| context_input_type := "srl_input"; global_dense_feature_list := "none";
     content_aggregation := 502; upper_length := "eos" |}.

(** The dataset configuration before [update_config]. *)
Definition dataset_config : gmap string Z :=
  <["max_dense_length" := 2]> (<["max_suffix_length" := 3]>
    (<["max_prefix_length" := 2]> ∅)).

(** Tag-input mode with the reverse marker: two tags for the prefix. *)
Definition tagged_reverse_instance : Instance :=
  {| args := {| context_input_type := "srl_reverse_input";
                global_dense_feature_list := "a,b";
                content_aggregation := 1000; upper_length := "eos" |};
     config := demo_config; truncated := false;
     sent1_tokens := [11; 12; 13; 14]; sent1_tokens_tags := Some ["x"; "yy"];
     sent2_tokens := [21; 22]; init_context_size := 3;
     sent_prefix := None; sent_suffix := None; sentence := None;
     label_suffix := None; label := None; segment := None |}.

(** A no-SRL run: the stored arguments and the raw example of one context. *)
Definition no_srl_args : Args :=
  {| context_input_type := "x_no_srl_input"; global_dense_feature_list := "a,b";
     content_aggregation := 1000; upper_length := "same_2" |}.

Definition context_dict : InstanceDict :=
  {| d_sent1_tokens := [21; 22; 23]; d_sent2_tokens := [21; 22; 23] |}.

(** The configuration [update_config] makes of [dataset_config] for
    [no_srl_args], the instance [__init__] builds on it from [context_dict],
    and that instance after [preprocess]. *)
Definition no_srl_config_updated : gmap string Z :=
  <["roberta_dense_length" := 0]> (<["global_dense_length" := 2]>
    (<["max_prefix_length" := 0]> dataset_config)).

Definition no_srl_instance : Instance :=
  {| args := no_srl_args; config := no_srl_config_updated; truncated := false;
     sent1_tokens := [21; 22; 23]; sent1_tokens_tags := None;
     sent2_tokens := [21; 22; 23]; init_context_size := 1;
     sent_prefix := None; sent_suffix := None; sentence := None;
     label_suffix := None; label := None; segment := None |}.

Definition no_srl_preprocessed : Instance :=
  {| args := no_srl_args; config := no_srl_config_updated; truncated := true;
     sent1_tokens := []; sent1_tokens_tags := None;
     sent2_tokens := [21; 22; 23]; init_context_size := 1;
     sent_prefix := Some []; sent_suffix := Some [21; 22; 23; 2];
     sentence := Some [1; 21; 22; 23; 2];
     label_suffix := Some [21; 22; 23; 2];
     label := Some [-1; -1; -1; 21; 22; 23; 2];
     segment := Some [3; 3; 5; 5; 5; 5; 5] |}.

(** A generator under the policy [same_2], and an engine that answers every
    instance with the same row: three context positions, seven ids 9, the eos
    id, and one more id. *)
Definition demo_generator : GPT2Generator :=
  {| gen_args := demo_args; gen_config := demo_config; gen_tokenizer := demo_tokenizer |}.

Definition demo_engine (instances : list Instance) (selectors : list (option nat))
  : list (list Z) :=
  map (fun _ => [0; 0; 1; 9; 9; 9; 9; 9; 9; 9; 2; 9]) instances.

(** A run whose mode has the shuffle marker and ends with the no-SRL
    marker, the generator [GPT2Generator.__init__] makes of it, and a batch
    of one context of two tokens. *)
Definition shuffle_no_srl_args : Args :=
  {| context_input_type := "x_shuffle_no_srl_input";
     global_dense_feature_list := "a,b";
     content_aggregation := 1000; upper_length := "eos" |}.

Definition shuffle_generator : GPT2Generator :=
  {| gen_args := shuffle_no_srl_args; gen_config := no_srl_config_updated;
     gen_tokenizer := demo_tokenizer |}.

Definition one_context : list (string * option nat) := [("aa b", None)].

(** The instance [shuffle_generator] builds of the context of [one_context]
    when the draw is above one half. *)
Definition shuffle_preprocessed : Instance :=
  {| args := shuffle_no_srl_args; config := no_srl_config_updated; truncated := true;
     sent1_tokens := []; sent1_tokens_tags := None;
     sent2_tokens := [102; 101]; init_context_size := 1;
     sent_prefix := Some []; sent_suffix := Some [102; 101; 2; 0];
     sentence := Some [1; 102; 101; 2; 0];
     label_suffix := Some [102; 101; 2; -1];
     label := Some [-1; -1; -1; 102; 101; 2; -1];
     segment := Some [3; 3; 5; 5; 5; 5; 5] |}.

Definition two_contexts : list (string * option nat) := [("a", None); ("bb c", None)].

(** A generator whose mode has the shuffle marker and keeps the prefix,
    with the limits 2 and 3. *)
Definition shuffle_srl_args : Args :=
  {| context_input_type := "srl_shuffle_input"; global_dense_feature_list := "none";
     content_aggregation := 1000; upper_length := "eos" |}.

Definition shuffle_srl_generator : GPT2Generator :=
  {| gen_args := shuffle_srl_args; gen_config := demo_config;
     gen_tokenizer := demo_tokenizer |}.

(** A run whose mode reads the prefix from the secondary sentence. *)
Definition roberta_mode_args : Args :=
  {| context_input_type := "x_roberta_input"; global_dense_feature_list := "none";
     content_aggregation := 1000; upper_length := "eos" |}.

(** A run configured with an aggregation stride of 7. *)
Definition stride_7_args : Args :=
  {| context_input_type := "srl_input"; global_dense_feature_list := "a,b";
     content_aggregation := 7; upper_length := "eos" |}.

(** Raw examples that differ in their author only, and the names of the
    authors 0 and 1. *)
Definition raw_example (author : Z) : HPInstanceDict :=
  {| d_sentence := [7; 8]; d_roberta_sentence := RobertaStr "7 8";
     d_author_tag_str := ["3"]; d_author_tag_ids := ["x"];
     d_author_target := author; d_original_target := author;
     d_roberta_author_target := None |}.

Definition raw_dataset : list HPInstanceDict :=
  [raw_example 0; raw_example 1; raw_example 0; raw_example 2].

Definition author_names : gmap Z string := <[1 := "joyce"]> (<[0 := "shakespeare"]> ∅).

(** Two keys of a dataset configuration, the second one tokenized, both
    reported in the metadata. *)
Definition demo_keys : list KeySpec :=
  [ {| ks_key := "author"; ks_position := 0; ks_tokenize := false; ks_metadata := true |};
    {| ks_key := "sent2_tokens"; ks_position := -1; ks_tokenize := true;
       ks_metadata := true |} ].

(** The text of a [dict.txt]: two authors and a filler line. *)
Definition dict_txt : string :=
  String.concat (String (ascii_of_nat 10) "")
    ["shakespeare 120"; "joyce 80"; "madeupword0000 0"].

(** * Properties *)

(** ** The error monad *)

Lemma bind_Ok {A B : Type} (f : A -> result B) (r : result A) (b : B) :
  r ≫= f = Ok b <-> exists a, r = Ok a /\ f a = Ok b.
Proof.
  destruct r as [a|e]; simpl; split.
  - intros H. exists a. auto.
  - intros (a' & Ha & H). congruence.
  - discriminate.
  - intros (a' & Ha & _). discriminate.
Qed.

Lemma getitem_Ok (d : gmap string Z) (k : string) (v : Z) :
  getitem d k = Ok v <-> d !! k = Some v.
Proof. unfold getitem. destruct (d !! k); split; congruence. Qed.

Lemma py_assert_Ok (c : bool) (u : unit) : py_assert c = Ok u <-> c = true.
Proof. destruct c, u; simpl; split; congruence. Qed.

(** Splits a hypothesis [x ← r; k = Ok b] into the two successful steps. *)
Ltac bind_inv H :=
  let x := fresh "x" in
  let E := fresh "E" in
  apply bind_Ok in H as (x & E & H).

Tactic Notation "bind_split" hyp(H) "as" ident(x) ident(E) :=
  apply bind_Ok in H as (x & E & H).

(** ** Python primitives on examples *)

Example split_on_ex : split_on ","%char "a,b,c" = ["a"; "b"; "c"].
Proof. reflexivity. Qed.

Example split_on_empty : split_on ","%char "" = [""].
Proof. reflexivity. Qed.

Example split_ws_ex : split_ws "  12  7 5 " = ["12"; "7"; "5"].
Proof. reflexivity. Qed.

Example py_int_ex :
  py_int " 42 " = Ok 42 /\ py_int "-7" = Ok (-7) /\ py_int "1_000" = Ok 1000 /\
  py_int "" = Raise ValueError /\ py_int "same" = Raise ValueError.
Proof. repeat split; reflexivity. Qed.

(** [int] does not skip the separators 28 to 31, which [str.split] treats as
    whitespace; an integer that does not fit [np.int32] is refused when an
    array is built of a list, and wraps around in a cast. *)
Example py_int_separator :
  py_int (String (ascii_of_nat 28) "1") = Raise ValueError /\
  split_ws (String (ascii_of_nat 28) "1") = ["1"].
Proof. split; reflexivity. Qed.

Example np_array_int32_ex :
  np_array_int32 [5; 2147483647; -2147483648] = Ok [5; 2147483647; -2147483648] /\
  np_array_int32 [5; 2147483648] = Raise OverflowError /\
  np_int32 [5; 2147483648] = [5; -2147483648].
Proof. repeat split; reflexivity. Qed.

Example slice_ex :
  slice_to [1; 2; 3; 4] 2 = [1; 2] /\ slice_to [1; 2; 3; 4] (-1) = [1; 2; 3] /\
  slice_from [1; 2; 3; 4] 3 = [4] /\ slice_from [1; 2; 3; 4] 9 = [].
Proof. repeat split; reflexivity. Qed.

(** ** Sequences *)

Lemma len_nonneg {A : Type} (l : list A) : 0 <= len l.
Proof. unfold len. lia. Qed.

Lemma len_app {A : Type} (l k : list A) : len (l ++ k) = len l + len k.
Proof. unfold len. rewrite length_app. lia. Qed.

Lemma len_replicate {A : Type} (n : nat) (x : A) : len (replicate n x) = Z.of_nat n.
Proof. unfold len. now rewrite length_replicate. Qed.

Lemma len_np_int32 (l : list Z) : len (np_int32 l) = len l.
Proof. unfold len, np_int32. now rewrite length_map. Qed.

Lemma in_int32b_spec (z : Z) : in_int32b z = true <-> in_int32 z.
Proof. unfold in_int32b, in_int32. rewrite andb_true_iff. lia. Qed.

Lemma forallb_in_int32 (l : list Z) : forallb in_int32b l = true <-> Forall in_int32 l.
Proof.
  induction l as [|z l IH]; cbn [forallb].
  - split; [constructor | reflexivity].
  - rewrite andb_true_iff, Forall_cons, IH, in_int32b_spec. reflexivity.
Qed.

(** [np.array(l, dtype=np.int32)] returns the list itself, exactly when all
    of it fits; its only error is [OverflowError]. *)
Lemma np_array_int32_Ok (l arr : list Z) :
  np_array_int32 l = Ok arr <-> arr = l /\ Forall in_int32 l.
Proof.
  unfold np_array_int32. rewrite <- forallb_in_int32.
  destruct (forallb in_int32b l).
  - split; [intros [= <-]; now split | intros [-> _]; reflexivity].
  - split; [discriminate | intros [_ H]; discriminate H].
Qed.

Lemma np_array_int32_error (l : list Z) (e : exn) :
  np_array_int32 l = Raise e -> e = OverflowError /\ ~ Forall in_int32 l.
Proof.
  intros He. split.
  - unfold np_array_int32 in He. destruct (forallb in_int32b l); congruence.
  - intros Hl. assert (np_array_int32 l = Ok l) by now apply np_array_int32_Ok.
    congruence.
Qed.

Lemma slice_to_nonneg {A : Type} (l : list A) (n : Z) :
  0 <= n -> slice_to l n = take (Z.to_nat n) l.
Proof. intros H. unfold slice_to. now rewrite (proj2 (Z.leb_le 0 n) H). Qed.

Lemma slice_to_length_le {A : Type} (l : list A) (n : Z) :
  (length (slice_to l n) <= length l)%nat.
Proof. unfold slice_to. destruct (0 <=? n); rewrite length_take; lia. Qed.

Lemma len_slice_to {A : Type} (l : list A) (n : Z) :
  0 <= n -> len (slice_to l n) = Z.min n (len l).
Proof.
  intros H. rewrite slice_to_nonneg by exact H. unfold len.
  rewrite length_take. lia.
Qed.

Lemma slice_to_all {A : Type} (l : list A) (n : Z) :
  len l <= n -> slice_to l n = l.
Proof.
  intros H. pose proof (len_nonneg l). rewrite slice_to_nonneg by lia.
  apply take_ge. unfold len in *. lia.
Qed.

Lemma np_pad_Ok (data : list Z) (before after v : Z) (r : list Z) :
  np_pad data before after v = Ok r <->
  0 <= before /\ 0 <= after /\
  r = replicate (Z.to_nat before) v ++ data ++ replicate (Z.to_nat after) v.
Proof.
  unfold np_pad.
  destruct (before <? 0) eqn:Hb, (after <? 0) eqn:Ha; simpl;
    first [apply Z.ltb_lt in Hb | apply Z.ltb_ge in Hb];
    first [apply Z.ltb_lt in Ha | apply Z.ltb_ge in Ha];
    split; try discriminate; try (intros (? & ? & _); lia).
  - intros [= <-]. auto.
  - intros (_ & _ & ->). reflexivity.
Qed.

Lemma left_padding_Ok (data : list Z) (pad total : Z) (r : list Z) :
  left_padding data pad total = Ok r <->
  len data <= total /\ r = replicate (Z.to_nat (total - len data)) pad ++ data.
Proof.
  unfold left_padding. rewrite np_pad_Ok. simpl. rewrite app_nil_r.
  split; [intros (? & _ & ->) | intros (? & ->)]; repeat split; auto; lia.
Qed.

Lemma right_padding_Ok (data : list Z) (pad total : Z) (r : list Z) :
  right_padding data pad total = Ok r <->
  len data <= total /\ r = data ++ replicate (Z.to_nat (total - len data)) pad.
Proof.
  unfold right_padding. rewrite np_pad_Ok. simpl.
  split; [intros (_ & ? & ->) | intros (? & ->)]; repeat split; auto; lia.
Qed.

Lemma left_padding_len (data : list Z) (pad total : Z) (r : list Z) :
  left_padding data pad total = Ok r -> len r = total.
Proof.
  intros (H & ->)%left_padding_Ok. pose proof (len_nonneg data).
  rewrite len_app, len_replicate. lia.
Qed.

Lemma right_padding_len (data : list Z) (pad total : Z) (r : list Z) :
  right_padding data pad total = Ok r -> len r = total.
Proof.
  intros (H & ->)%right_padding_Ok. pose proof (len_nonneg data).
  rewrite len_app, len_replicate. lia.
Qed.

Lemma comprehension_len {A : Type} (n : nat) (e : result A) (r : list A) :
  comprehension n e = Ok r -> length r = n.
Proof.
  destruct n; simpl.
  - now intros [= <-].
  - intros H. bind_inv H. injection H as <-. simpl. now rewrite length_replicate.
Qed.

(** ** Truncation *)

Section Truncate.
Variable self : Instance.
Variables max_prefix_length max_suffix_length : Z.
Hypothesis Hprefix : config self !! "max_prefix_length" = Some max_prefix_length.
Hypothesis Hsuffix : config self !! "max_suffix_length" = Some max_suffix_length.

(** What [truncate] computes, field by field, once the two limits are read. *)
Lemma truncate_fields :
  exists self',
    truncate self = Ok self' /\
    sent1_tokens self' =
      (if len (sent1_tokens self) >? max_prefix_length
       then slice_to (sent1_tokens self) max_prefix_length else sent1_tokens self) /\
    sent2_tokens self' =
      (if len (sent2_tokens self) >? max_suffix_length
       then slice_to (sent2_tokens self) max_suffix_length else sent2_tokens self) /\
    truncated self' =
      (truncated self || (len (sent1_tokens self) >? max_prefix_length)
                      || (len (sent2_tokens self) >? max_suffix_length)) /\
    args self' = args self /\ config self' = config self /\
    sent1_tokens_tags self' = sent1_tokens_tags self /\
    init_context_size self' = init_context_size self.
Proof.
  unfold truncate, getitem. rewrite Hprefix, Hsuffix. simpl.
  destruct (len (sent1_tokens self) >? max_prefix_length); simpl;
    destruct (len (sent2_tokens self) >? max_suffix_length); simpl;
    eexists; (split; [reflexivity|]); simpl;
    rewrite ?orb_true_r, ?orb_false_r; repeat split; reflexivity.
Qed.
End Truncate.

(** C5.  On an instance whose [truncated] flag is still the [False] of
    [__init__] and whose limits are lengths (not negative), [truncate]
    returns, and: a [sent1_tokens] longer than [max_prefix_length] becomes its
    first [max_prefix_length] ids and sets the flag; likewise [sent2_tokens]
    with [max_suffix_length]; when neither is too long both are unchanged and
    the flag stays [False]; the flag is [True] exactly when one of the two
    sequences got shorter. *)
Theorem truncate_spec (self : Instance) (max_prefix_length max_suffix_length : Z) :
  config self !! "max_prefix_length" = Some max_prefix_length ->
  config self !! "max_suffix_length" = Some max_suffix_length ->
  0 <= max_prefix_length ->
  0 <= max_suffix_length ->
  truncated self = false ->
  exists self',
    truncate self = Ok self' /\
    (len (sent1_tokens self) > max_prefix_length ->
       sent1_tokens self' = take (Z.to_nat max_prefix_length) (sent1_tokens self) /\
       len (sent1_tokens self') = max_prefix_length /\
       truncated self' = true) /\
    (len (sent2_tokens self) > max_suffix_length ->
       sent2_tokens self' = take (Z.to_nat max_suffix_length) (sent2_tokens self) /\
       len (sent2_tokens self') = max_suffix_length /\
       truncated self' = true) /\
    (len (sent1_tokens self) <= max_prefix_length ->
       sent1_tokens self' = sent1_tokens self) /\
    (len (sent2_tokens self) <= max_suffix_length ->
       sent2_tokens self' = sent2_tokens self) /\
    (len (sent1_tokens self) <= max_prefix_length ->
     len (sent2_tokens self) <= max_suffix_length ->
       sent1_tokens self' = sent1_tokens self /\
       sent2_tokens self' = sent2_tokens self /\
       truncated self' = false) /\
    (truncated self' = true <->
       len (sent1_tokens self') < len (sent1_tokens self) \/
       len (sent2_tokens self') < len (sent2_tokens self)).
Proof.
  intros Hp Hs Hp0 Hs0 Hfresh.
  destruct (truncate_fields self _ _ Hp Hs)
    as (self' & Hrun & H1 & H2 & Ht & _).
  exists self'. split; [exact Hrun|].
  rewrite H1, H2, Ht, Hfresh. clear H1 H2 Ht Hrun.
  destruct (Z.gtb_spec (len (sent1_tokens self)) max_prefix_length) as [L1|L1];
    destruct (Z.gtb_spec (len (sent2_tokens self)) max_suffix_length) as [L2|L2];
    simpl; rewrite ?len_slice_to by assumption;
    rewrite ?slice_to_nonneg by assumption;
    repeat split; intros; try reflexivity; try lia; try discriminate.
Qed.

Lemma truncate_spec_witness :
  exists self',
    truncate demo_instance = Ok self' /\
    sent1_tokens self' = [11; 12] /\ sent2_tokens self' = [21; 22] /\
    truncated self' = true.
Proof.
  destruct (truncate_spec demo_instance 2 3) as (self' & Hrun & H1 & _ & _ & H2 & _);
    [reflexivity | reflexivity | lia | lia | reflexivity |].
  exists self'. split; [exact Hrun|].
  destruct H1 as (E1 & _ & Et); [vm_compute; reflexivity|].
  rewrite E1, Et, H2 by (vm_compute; discriminate).
  repeat split; reflexivity.
Defined.

(** ** Shuffle / reverse *)

Lemma swap_tokens_fields (self : Instance) :
  sent1_tokens (swap_tokens self) = sent2_tokens self /\
  sent2_tokens (swap_tokens self) = sent1_tokens self /\
  args (swap_tokens self) = args self /\
  config (swap_tokens self) = config self /\
  truncated (swap_tokens self) = truncated self /\
  sent1_tokens_tags (swap_tokens self) = sent1_tokens_tags self /\
  init_context_size (swap_tokens self) = init_context_size self.
Proof. repeat split; reflexivity. Qed.

(** When both arrays hold the same ids the exchange changes nothing. *)
Lemma swap_tokens_same (self : Instance) :
  sent1_tokens self = sent2_tokens self -> swap_tokens self = self.
Proof. destruct self; unfold swap_tokens; simpl; intros ->; reflexivity. Qed.

(** Whatever the mode and the draw, step 2 returns the instance or its swap. *)
Lemma shuffle_prefix_suffix_cases (self : Instance) (g : RandomState) :
  fst (shuffle_prefix_suffix self g) = self \/
  fst (shuffle_prefix_suffix self g) = swap_tokens self.
Proof.
  unfold shuffle_prefix_suffix.
  destruct (contains "_shuffle_" _).
  - simpl. destruct (Qle_bool _ _); auto.
  - destruct (contains "_reverse_" _); auto.
Qed.

(** Without the shuffle marker no value is drawn. *)
Lemma shuffle_prefix_suffix_no_draw (self : Instance) (g : RandomState) :
  contains "_shuffle_" (context_input_type (args self)) = false ->
  snd (shuffle_prefix_suffix self g) = g /\
  forall g2, fst (shuffle_prefix_suffix self g2) = fst (shuffle_prefix_suffix self g).
Proof.
  intros H. unfold shuffle_prefix_suffix. rewrite H.
  destruct (contains "_reverse_" _); auto.
Qed.

(** C3 (amended).  When the mode has the reverse marker and no shuffle marker,
    step 2 exchanges [sent1_tokens] and [sent2_tokens], whatever the state of
    the random generator, and leaves that state as it was. *)
Theorem shuffle_prefix_suffix_reverse (self : Instance) (g : RandomState) :
  contains "_reverse_" (context_input_type (args self)) = true ->
  contains "_shuffle_" (context_input_type (args self)) = false ->
  exists self',
    shuffle_prefix_suffix self g = (self', g) /\
    sent1_tokens self' = sent2_tokens self /\
    sent2_tokens self' = sent1_tokens self /\
    forall g2, fst (shuffle_prefix_suffix self g2) = self'.
Proof.
  intros Hrev Hshuf. exists (swap_tokens self).
  unfold shuffle_prefix_suffix. rewrite Hshuf, Hrev. repeat split.
Qed.

Lemma shuffle_prefix_suffix_reverse_witness :
  exists self',
    shuffle_prefix_suffix
      {| args := {| context_input_type := "srl_reverse_input";
                    global_dense_feature_list := "none";
                    content_aggregation := 1000; upper_length := "eos" |};
         config := demo_config; truncated := false;
         sent1_tokens := [11; 12]; sent1_tokens_tags := None;
         sent2_tokens := [21; 22]; init_context_size := 3;
         sent_prefix := None; sent_suffix := None; sentence := None;
         label_suffix := None; label := None; segment := None |}
      high_draws = (self', high_draws) /\
    sent1_tokens self' = [21; 22] /\ sent2_tokens self' = [11; 12].
Proof.
  edestruct shuffle_prefix_suffix_reverse as (self' & Hrun & H1 & H2 & _);
    [ | | exists self'; split; [exact Hrun|]; split; [exact H1 | exact H2]];
    reflexivity.
Defined.

(** C3 as stated fails on a mode with both markers: the shuffle branch is
    taken, a value is drawn from the generator, and with a draw above 1/2 the
    two arrays stay where they were; with a draw below they are exchanged. *)
Lemma shuffle_prefix_suffix_reverse_counterexample :
  contains "_reverse_" (context_input_type (args mixed_marker_instance)) = true /\
  shuffle_prefix_suffix mixed_marker_instance high_draws =
    (mixed_marker_instance, {| stream := stream high_draws; position := 1 |}) /\
  sent1_tokens mixed_marker_instance <> sent2_tokens mixed_marker_instance /\
  fst (shuffle_prefix_suffix mixed_marker_instance low_draws) =
    swap_tokens mixed_marker_instance /\
  fst (shuffle_prefix_suffix mixed_marker_instance high_draws) <>
    fst (shuffle_prefix_suffix mixed_marker_instance low_draws).
Proof. repeat split; try reflexivity; vm_compute; discriminate. Qed.

(** ** Labels *)

(** The masked part of a label is [n] copies of -1 in front of the suffix. *)
Lemma label_layout (a b : nat) (suffix : list Z) :
  replicate a (-1) ++ replicate b (-1) ++ (-1) :: suffix =
  replicate (a + b + 1) (-1) ++ suffix.
Proof.
  rewrite !replicate_add. simpl. rewrite <- !app_assoc. reflexivity.
Qed.

Lemma build_label_fields (tokenizer : Tokenizer) (self self' : Instance) :
  build_label tokenizer self = Ok self' ->
  args self' = args self /\ config self' = config self /\
  truncated self' = truncated self /\
  sent1_tokens self' = sent1_tokens self /\
  sent1_tokens_tags self' = sent1_tokens_tags self /\
  sent2_tokens self' = sent2_tokens self /\
  init_context_size self' = init_context_size self /\
  sent_prefix self' = sent_prefix self /\ sent_suffix self' = sent_suffix self /\
  sentence self' = sentence self /\ segment self' = segment self.
Proof.
  unfold build_label. intros H. do 4 bind_inv H.
  injection H as <-. repeat split; reflexivity.
Qed.

(** C6.  When [build_label] can run (both dense lengths and
    [max_suffix_length] are configured, [build_sentence] has set
    [sent_prefix], and [sent2_tokens] fits its limit) it returns, and the
    label it stores is -1 at every position before the suffix region (dense
    slots, prefix positions, bos slot), while the suffix region is exactly
    [sent2_tokens ++ [eos]] right-padded with -1 to [max_suffix_length + 1]. *)
Theorem build_label_masking (tokenizer : Tokenizer) (self : Instance)
    (dense_length max_suffix_length : Z) (prefix : list Z) :
  dense_length_of (config self) = Ok dense_length ->
  config self !! "max_suffix_length" = Some max_suffix_length ->
  sent_prefix self = Some prefix ->
  len (sent2_tokens self) <= max_suffix_length ->
  exists self' lab,
    build_label tokenizer self = Ok self' /\
    label self' = Some lab /\
    sent2_tokens self' = sent2_tokens self /\
    let region := (Z.to_nat dense_length + length prefix + 1)%nat in
    (forall i, (i < region)%nat -> lab !! i = Some (-1)) /\
    right_padding (sent2_tokens self ++ [eos_token_id tokenizer]) (-1)
      (max_suffix_length + 1) = Ok (drop region lab) /\
    drop region lab =
      sent2_tokens self ++ [eos_token_id tokenizer]
        ++ replicate (Z.to_nat (max_suffix_length - len (sent2_tokens self))) (-1) /\
    len (drop region lab) = max_suffix_length + 1.
Proof.
  intros Hdense Hms Hprefix Hfit.
  assert (Hpad : right_padding (sent2_tokens self ++ [eos_token_id tokenizer]) (-1)
                   (max_suffix_length + 1)
                 = Ok ((sent2_tokens self ++ [eos_token_id tokenizer]) ++
                       replicate (Z.to_nat (max_suffix_length + 1
                          - len (sent2_tokens self ++ [eos_token_id tokenizer]))) (-1))).
  { apply right_padding_Ok. split; [|reflexivity].
    rewrite len_app. unfold len at 2. simpl. lia. }
  unfold build_label, getitem. rewrite Hdense, Hms. simpl.
  rewrite Hpad, Hprefix. simpl.
  eexists _, _. split; [reflexivity|]. split; [reflexivity|].
  split; [reflexivity|]. simpl.
  rewrite !(label_layout (Z.to_nat dense_length) (length prefix)).
  set (region := (Z.to_nat dense_length + length prefix + 1)%nat).
  rewrite drop_app_length' by (now rewrite length_replicate).
  split; [|split; [|split]].
  - intros i Hi. rewrite lookup_app_l by (now rewrite length_replicate).
    now apply lookup_replicate_2.
  - reflexivity.
  - rewrite <- app_assoc. do 3 f_equal.
    rewrite len_app. unfold len at 2. simpl. lia.
  - apply right_padding_len in Hpad. exact Hpad.
Qed.

Lemma build_label_masking_witness :
  exists self',
    build_label demo_tokenizer sentence_built = Ok self' /\
    label self' = Some [-1; -1; -1; -1; -1; 21; 22; 2; -1].
Proof.
  destruct (build_label_masking demo_tokenizer sentence_built 2 3 [11; 12])
    as (self' & lab & Hrun & Hlab & _);
    [reflexivity | reflexivity | reflexivity | vm_compute; discriminate |].
  exists self'. split; [exact Hrun|].
  assert (E : build_label demo_tokenizer sentence_built
              = Ok (set_label [21; 22; 2; -1] [-1; -1; -1; -1; -1; 21; 22; 2; -1]
                      sentence_built)) by reflexivity.
  rewrite E in Hrun. injection Hrun as <-. reflexivity.
Defined.

(** ** update_config *)

(** Two different dictionary keys. *)
Ltac key_ne := let H := fresh in intros H; discriminate H.

Lemma py_range_500 : py_range (MAX_ROBERTA_LENGTH - 1) = seqZ 0 501.
Proof. vm_compute. reflexivity. Qed.

(** With a stride that is not zero the comprehension of [update_config] never
    raises and is the plain filter. *)
Lemma filter_result_mod (stride : Z) (l : list Z) :
  stride <> 0 ->
  filter_result (fun i => r ← py_mod i stride; Ok (r =? 0)) l =
  Ok (filter (fun i => i mod stride = 0) l).
Proof.
  intros Hs. induction l as [|i l IH]; [reflexivity|].
  cbn [filter_result]. rewrite IH. unfold py_mod.
  rewrite (proj2 (Z.eqb_neq stride 0) Hs). simpl.
  rewrite filter_cons. destruct (Z.eqb_spec (i mod stride) 0) as [E|E];
    destruct (decide (i mod stride = 0)); try contradiction; reflexivity.
Qed.

(** A stride of zero divides by zero on the first index. *)
Lemma update_config_zero_stride (a : Args) (c : gmap string Z) :
  content_aggregation a = 0 -> update_config a c = Raise ZeroDivisionError.
Proof. intros H. unfold update_config. rewrite H. reflexivity. Qed.

Lemma no_srl_config_dense (a : Args) (c : gmap string Z) :
  no_srl_config a c !! "max_dense_length" = c !! "max_dense_length".
Proof.
  unfold no_srl_config. destruct (endswith _ _); [|reflexivity].
  rewrite lookup_insert_ne by key_ne. reflexivity.
Qed.

(** The outcome of [update_config] for every stride but zero. *)
Lemma update_config_outcome (a : Args) (c : gmap string Z) (max_dense_length : Z) :
  content_aggregation a <> 0 ->
  c !! "max_dense_length" = Some max_dense_length ->
  update_config a c =
    if global_dense_length_of a <=? max_dense_length
    then Ok (<["roberta_dense_length" :=
                 if content_aggregation a >? 502 then 0
                 else multiples_upto_500 (content_aggregation a)]>
               (<["global_dense_length" := global_dense_length_of a]>
                  (no_srl_config a c)))
    else Raise AssertionError.
Proof.
  intros Hs Hm. unfold update_config. fold (no_srl_config a c).
  unfold getitem. rewrite no_srl_config_dense, Hm.
  rewrite filter_result_mod by exact Hs. rewrite py_range_500.
  fold (multiples_upto_500 (content_aggregation a)).
  change MAX_ROBERTA_LENGTH with 502.
  destruct (content_aggregation a >? 502);
    cbn [mbind result_bind fmap result_fmap];
    destruct (global_dense_length_of a <=? max_dense_length); reflexivity.
Qed.

(** In no-SRL mode a configuration that went through [update_config] has a
    prefix limit of 0, and both dense lengths are set and not negative. *)
Lemma update_config_post (a : Args) (c c' : gmap string Z) :
  update_config a c = Ok c' ->
  (endswith "_no_srl_input" (context_input_type a) = true ->
     c' !! "max_prefix_length" = Some 0) /\
  exists dense, dense_length_of c' = Ok dense /\ 0 <= dense.
Proof.
  intros H.
  destruct (Z.eq_dec (content_aggregation a) 0) as [Z0|NZ].
  { rewrite update_config_zero_stride in H by exact Z0. discriminate. }
  destruct (c !! "max_dense_length") as [m|] eqn:Hm.
  2:{ unfold update_config in H. bind_inv H. bind_inv H.
      apply getitem_Ok in E0. fold (no_srl_config a c) in E0.
      rewrite no_srl_config_dense, Hm in E0. discriminate. }
  rewrite (update_config_outcome a c m NZ Hm) in H.
  destruct (global_dense_length_of a <=? m); [|discriminate].
  injection H as <-. split.
  - intros Hmode. rewrite !lookup_insert_ne by key_ne.
    unfold no_srl_config. rewrite Hmode. apply lookup_insert_eq.
  - eexists. unfold dense_length_of, getitem.
    rewrite (lookup_insert_ne _ "roberta_dense_length" "global_dense_length")
      by key_ne.
    rewrite !lookup_insert_eq. simpl. split; [reflexivity|].
    assert (0 <= global_dense_length_of a).
    { unfold global_dense_length_of. destruct (negb _); [apply len_nonneg | lia]. }
    destruct (content_aggregation a >? 502); [lia|].
    unfold multiples_upto_500. pose proof (len_nonneg
      (filter (fun i => i mod content_aggregation a = 0) (seqZ 0 501))). lia.
Qed.

Lemma filter_agree_on {A : Type} (P Q : A -> Prop)
    `{!forall x, Decision (P x), !forall x, Decision (Q x)} (l : list A) :
  (forall x, x ∈ l -> P x <-> Q x) -> filter P l = filter Q l.
Proof.
  induction l as [|x l IH]; intros Hl; [reflexivity|].
  rewrite !filter_cons.
  assert (Hx : P x <-> Q x) by (apply Hl; left).
  rewrite IH by (intros y Hy; apply Hl; now right).
  destruct (decide (P x)), (decide (Q x)); tauto.
Qed.

(** Beyond 500 the only multiple of the stride in [[0, 500]] is 0. *)
Lemma multiples_upto_500_large (stride : Z) :
  500 < stride -> multiples_upto_500 stride = 1.
Proof.
  intros H. unfold multiples_upto_500.
  rewrite (filter_agree_on _ (fun i => i = 0)).
  - vm_compute. reflexivity.
  - intros i Hi%elem_of_seqZ. rewrite Z.mod_small by lia. reflexivity.
Qed.

(** C8.  With a stride that is not zero and [max_dense_length] configured,
    [update_config] raises [AssertionError] exactly when the derived
    [global_dense_length] exceeds [max_dense_length]; otherwise it returns the
    configuration with [global_dense_length] and [roberta_dense_length]
    written into it (and nothing else changed but the prefix limit of no-SRL
    mode). *)
Theorem update_config_assertion (a : Args) (c : gmap string Z) (max_dense_length : Z) :
  content_aggregation a <> 0 ->
  c !! "max_dense_length" = Some max_dense_length ->
  (update_config a c = Raise AssertionError <->
     global_dense_length_of a > max_dense_length) /\
  (global_dense_length_of a <= max_dense_length ->
     exists c' r,
       update_config a c = Ok c' /\
       c' = <["roberta_dense_length" := r]>
              (<["global_dense_length" := global_dense_length_of a]>
                 (no_srl_config a c)) /\
       c' !! "global_dense_length" = Some (global_dense_length_of a) /\
       c' !! "roberta_dense_length" = Some r) /\
  (forall e, update_config a c = Raise e -> e = AssertionError).
Proof.
  intros Hs Hm. rewrite (update_config_outcome a c max_dense_length Hs Hm).
  destruct (Z.leb_spec (global_dense_length_of a) max_dense_length) as [L|L].
  - split; [split; [discriminate | lia]|]. split; [|discriminate].
    intros _. eexists _, _. split; [reflexivity|]. split; [reflexivity|].
    rewrite lookup_insert_ne by key_ne. rewrite !lookup_insert_eq. auto.
  - split; [split; [lia | reflexivity]|]. split; [lia|].
    intros e [= <-]. reflexivity.
Qed.

Lemma update_config_assertion_witness :
  update_config
    {| context_input_type := "srl_input"; global_dense_feature_list := "a,b,c";
       content_aggregation := 5; upper_length := "eos" |} dataset_config
  = Raise AssertionError.
Proof.
  apply (update_config_assertion
           {| context_input_type := "srl_input"; global_dense_feature_list := "a,b,c";
              content_aggregation := 5; upper_length := "eos" |} dataset_config 2);
    [discriminate | reflexivity | reflexivity].
Defined.

(** C2 (amended).  For a positive stride, once the assertion on
    [global_dense_length] passes, [update_config] stores as
    [roberta_dense_length] 0 when the stride exceeds 502 and otherwise the
    number of indices of [[0, 500]] the stride divides; that is the value the
    specification describes for every stride but 502, where 1 is stored; a
    stride of 1000 gives 0. *)
Theorem update_config_roberta_dense_length (a : Args) (c : gmap string Z)
    (max_dense_length : Z) :
  0 < content_aggregation a ->
  c !! "max_dense_length" = Some max_dense_length ->
  global_dense_length_of a <= max_dense_length ->
  exists c',
    update_config a c = Ok c' /\
    c' !! "roberta_dense_length" =
      Some (if content_aggregation a >? 502 then 0
            else multiples_upto_500 (content_aggregation a)) /\
    (content_aggregation a <> 502 ->
       c' !! "roberta_dense_length" =
         Some (spec_roberta_dense_length (content_aggregation a))) /\
    (content_aggregation a = 502 -> c' !! "roberta_dense_length" = Some 1) /\
    (content_aggregation a = 1000 -> c' !! "roberta_dense_length" = Some 0).
Proof.
  intros Hs Hm Hg.
  rewrite (update_config_outcome a c max_dense_length) by (lia || exact Hm).
  rewrite (proj2 (Z.leb_le _ _) Hg).
  eexists. split; [reflexivity|]. rewrite lookup_insert_eq.
  split; [reflexivity|]. unfold spec_roberta_dense_length.
  split; [|split].
  - intros Hne.
    destruct (Z.gtb_spec (content_aggregation a) 502) as [G|G];
      destruct (Z.gtb_spec (content_aggregation a) 501) as [G'|G'];
      try reflexivity; lia.
  - intros ->. simpl. now rewrite multiples_upto_500_large.
  - intros ->. reflexivity.
Qed.

Lemma update_config_roberta_dense_length_witness :
  exists c',
    update_config
      {| context_input_type := "srl_input"; global_dense_feature_list := "a,b";
         content_aggregation := 5; upper_length := "eos" |} dataset_config = Ok c' /\
    c' !! "roberta_dense_length" = Some 101.
Proof.
  destruct (update_config_roberta_dense_length
              {| context_input_type := "srl_input"; global_dense_feature_list := "a,b";
                 content_aggregation := 5; upper_length := "eos" |} dataset_config 2)
    as (c' & Hrun & Hr & _); [reflexivity | reflexivity | vm_compute; discriminate |].
  exists c'. split; [exact Hrun|]. rewrite Hr. vm_compute. reflexivity.
Defined.

(** C2 as stated fails at stride 502: the specification's value is 0, the
    configuration gets 1 (index 0 is a multiple of 502). *)
Lemma update_config_stride_502_counterexample :
  content_aggregation stride_502_args = 502 /\
  (c' ← update_config stride_502_args dataset_config;
   getitem c' "roberta_dense_length") = Ok 1 /\
  spec_roberta_dense_length 502 = 0.
Proof. repeat split; vm_compute; reflexivity. Qed.

(** ** The secondary encoding *)

(** The padding / truncation step of [preprocess_roberta] on an array. *)
Lemma roberta_normalise (ids : list Z) :
  exists out,
    (if len ids <? MAX_ROBERTA_LENGTH
     then right_padding ids 1 MAX_ROBERTA_LENGTH
     else Ok (slice_to ids MAX_ROBERTA_LENGTH)) = Ok out /\
    len out = MAX_ROBERTA_LENGTH /\
    (len ids < 502 -> out = ids ++ replicate (Z.to_nat (502 - len ids)) 1) /\
    (502 <= len ids -> out = take 502 ids).
Proof.
  change MAX_ROBERTA_LENGTH with 502.
  destruct (Z.ltb_spec (len ids) 502) as [L|L].
  - exists (ids ++ replicate (Z.to_nat (502 - len ids)) 1).
    assert (E : right_padding ids 1 502
                = Ok (ids ++ replicate (Z.to_nat (502 - len ids)) 1))
      by (apply right_padding_Ok; split; [lia | reflexivity]).
    split; [exact E|]. split; [exact (right_padding_len _ _ _ _ E)|].
    split; [reflexivity | lia].
  - exists (take 502 ids). rewrite slice_to_nonneg by lia.
    split; [reflexivity|]. split; [|split; [lia | reflexivity]].
    unfold len in *. rewrite length_take. lia.
Qed.

(** [int] raises nothing but [ValueError]. *)
Lemma py_int_error (s : string) (e : exn) : py_int s = Raise e -> e = ValueError.
Proof.
  unfold py_int. cbv zeta.
  match goal with
  | |- context [match ?r with Some _ => _ | None => _ end] => destruct r
  end; [destruct (_ <? _)%nat|]; congruence.
Qed.

(** Parsing the text form can only fail on a field that is not an integer. *)
Lemma map_result_py_int_error (fields : list string) (e : exn) :
  map_result py_int fields = Raise e -> e = ValueError.
Proof.
  induction fields as [|f fields IH]; cbn [map_result]; [discriminate|].
  destruct (py_int f) as [z|e1] eqn:Hf; cbn [mbind result_bind].
  - destruct (map_result py_int fields) as [zs|e2]; cbn [mbind result_bind].
    + discriminate.
    + intros [= <-]. now apply IH.
  - intros [= <-]. now apply (py_int_error f).
Qed.

(** Reading the ids of a text: the parsed fields, when all of them fit
    [np.int32]. *)
Lemma roberta_array_text (s : string) :
  match map_result py_int (split_ws s) with
  | Ok ids =>
      (Forall in_int32 ids -> roberta_array (RobertaStr s) = Ok ids) /\
      (~ Forall in_int32 ids -> roberta_array (RobertaStr s) = Raise OverflowError)
  | Raise e => roberta_array (RobertaStr s) = Raise ValueError
  end.
Proof.
  unfold roberta_array.
  destruct (map_result py_int (split_ws s)) as [ids|e] eqn:Hm; cbn [mbind result_bind].
  - split; intros Hids.
    + now apply np_array_int32_Ok.
    + destruct (np_array_int32 ids) as [arr|e] eqn:Harr.
      * apply np_array_int32_Ok in Harr as [_ Hall]. contradiction.
      * apply np_array_int32_error in Harr as [-> _]. reflexivity.
  - f_equal. exact (map_result_py_int_error _ _ Hm).
Qed.

(** C7 (amended).  [preprocess_roberta] never fails its assertion.  Whenever
    the input yields an array of ids (always for a tensor; for text, when
    every whitespace-separated field is an integer and every one of these
    integers fits [np.int32]) it returns a sequence of length exactly 502:
    the ids followed by as many 1s as are missing when there are fewer than
    502, the first 502 ids otherwise.  Text with a field that is not an
    integer raises [ValueError]; text of integers one of which does not fit
    [np.int32] raises [OverflowError]. *)
Theorem preprocess_roberta_length (rs : RobertaSentence) :
  preprocess_roberta rs <> Raise AssertionError /\
  (forall ids, roberta_array rs = Ok ids ->
     exists out,
       preprocess_roberta rs = Ok out /\
       len out = 502 /\
       (len ids < 502 -> out = ids ++ replicate (Z.to_nat (502 - len ids)) 1) /\
       (502 <= len ids -> out = take 502 ids)) /\
  (forall t, roberta_array (RobertaTensor t) = Ok (np_int32 t)) /\
  (forall s ids,
     rs = RobertaStr s -> map_result py_int (split_ws s) = Ok ids ->
     (Forall in_int32 ids -> roberta_array rs = Ok ids) /\
     (~ Forall in_int32 ids -> preprocess_roberta rs = Raise OverflowError)) /\
  (forall s e,
     rs = RobertaStr s -> map_result py_int (split_ws s) = Raise e ->
     preprocess_roberta rs = Raise ValueError) /\
  (forall e, roberta_array rs = Raise e ->
     preprocess_roberta rs = Raise e /\ (e = ValueError \/ e = OverflowError)).
Proof.
  assert (Hok : forall ids, roberta_array rs = Ok ids ->
            exists out,
              preprocess_roberta rs = Ok out /\ len out = 502 /\
              (len ids < 502 -> out = ids ++ replicate (Z.to_nat (502 - len ids)) 1) /\
              (502 <= len ids -> out = take 502 ids)).
  { intros ids Hids. unfold preprocess_roberta. rewrite Hids.
    cbn [mbind result_bind].
    destruct (roberta_normalise ids) as (out & -> & Hlen & Hpad & Hcut).
    cbn [mbind result_bind]. rewrite Hlen, Z.eqb_refl.
    exists out. repeat split; assumption. }
  assert (Hraise : forall e, roberta_array rs = Raise e ->
            preprocess_roberta rs = Raise e).
  { intros e He. unfold preprocess_roberta. now rewrite He. }
  assert (Herr : forall e, roberta_array rs = Raise e ->
            e = ValueError \/ e = OverflowError).
  { intros e He. destruct rs as [s|t]; [|discriminate He].
    pose proof (roberta_array_text s) as Ht.
    destruct (map_result py_int (split_ws s)) as [ids|e'].
    - right. destruct (np_array_int32 ids) as [arr|e''] eqn:Harr.
      + apply np_array_int32_Ok in Harr as [_ Hall].
        rewrite (proj1 Ht Hall) in He. discriminate He.
      + apply np_array_int32_error in Harr as [_ Hall].
        rewrite (proj2 Ht Hall) in He. congruence.
    - left. congruence. }
  split; [|split; [exact Hok | split; [reflexivity | split; [|split]]]].
  - destruct (roberta_array rs) as [ids|e] eqn:Hrs.
    + destruct (Hok ids eq_refl) as (out & -> & _). discriminate.
    + rewrite (Hraise e eq_refl). destruct (Herr e eq_refl) as [-> | ->]; discriminate.
  - intros s ids -> Hm. pose proof (roberta_array_text s) as Ht. rewrite Hm in Ht.
    split; [exact (proj1 Ht)|]. intros Hall. apply Hraise, (proj2 Ht Hall).
  - intros s e -> Hm. pose proof (roberta_array_text s) as Ht. rewrite Hm in Ht.
    apply Hraise, Ht.
  - intros e He. split; [exact (Hraise e He) | exact (Herr e He)].
Qed.

Lemma preprocess_roberta_length_witness :
  exists out,
    preprocess_roberta (RobertaStr "5 6  7") = Ok out /\
    len out = 502 /\ out = [5; 6; 7] ++ replicate 499 1.
Proof.
  destruct (proj1 (proj2 (preprocess_roberta_length (RobertaStr "5 6  7")))
              [5; 6; 7] eq_refl) as (out & Hrun & Hlen & Hpad & _).
  exists out. split; [exact Hrun|]. split; [exact Hlen|].
  apply Hpad. vm_compute. reflexivity.
Defined.

(** C7 as stated fails on a text of integers one of which does not fit
    [np.int32]: no sequence of length 502 is produced, building the array
    raises [OverflowError]. *)
Lemma preprocess_roberta_overflow_counterexample :
  map_result py_int (split_ws "5 9223372036854775808") = Ok [5; 9223372036854775808] /\
  preprocess_roberta (RobertaStr "5 9223372036854775808") = Raise OverflowError.
Proof. split; vm_compute; reflexivity. Qed.

(** The four lengths the specification singles out, as tensors. *)
Example preprocess_roberta_lengths :
  len <$> preprocess_roberta (RobertaTensor []) = Ok 502 /\
  len <$> preprocess_roberta (RobertaStr "") = Ok 502 /\
  len <$> preprocess_roberta (RobertaTensor (replicate 501 7)) = Ok 502 /\
  len <$> preprocess_roberta (RobertaTensor (replicate 502 7)) = Ok 502 /\
  len <$> preprocess_roberta (RobertaTensor (replicate 600 7)) = Ok 502 /\
  preprocess_roberta (RobertaTensor (replicate 600 7)) = Ok (replicate 502 7) /\
  preprocess_roberta (RobertaTensor []) = Ok (replicate 502 1).
Proof. repeat split; vm_compute; reflexivity. Qed.

(** ** The pipeline, step by step *)

(** [build_sentence] returns as soon as both limits are configured and the two
    arrays fit them; the prefix is empty in no-SRL mode. *)
Lemma build_sentence_total (tokenizer : Tokenizer) (self : Instance)
    (max_prefix_length max_suffix_length : Z) :
  config self !! "max_prefix_length" = Some max_prefix_length ->
  config self !! "max_suffix_length" = Some max_suffix_length ->
  no_srl self = true \/ len (sent1_tokens self) <= max_prefix_length ->
  len (sent2_tokens self) <= max_suffix_length ->
  exists p s,
    build_sentence tokenizer self =
      Ok (set_sentence p s (p ++ [bos_token_id tokenizer] ++ s) self) /\
    len p = (if no_srl self then 0 else max_prefix_length) /\
    len s = max_suffix_length + 1.
Proof.
  intros Hmp Hms Hfit1 Hfit2. unfold build_sentence, getitem, no_srl in *.
  rewrite Hms.
  assert (Hs : exists s,
             right_padding (sent2_tokens self ++ [eos_token_id tokenizer])
               (pad_token_id tokenizer) (max_suffix_length + 1) = Ok s).
  { eexists. apply right_padding_Ok. split; [|reflexivity].
    rewrite len_app. unfold len at 2. simpl. lia. }
  destruct Hs as (s & Hs). pose proof (right_padding_len _ _ _ _ Hs) as Ls.
  destruct (endswith "_no_srl_input" (context_input_type (args self))).
  - exists [], s. cbn [mbind result_bind]. rewrite Hs. cbn [mbind result_bind].
    split; [reflexivity|]. split; [reflexivity | exact Ls].
  - destruct Hfit1 as [?|Hfit1]; [discriminate|].
    rewrite Hmp. cbn [mbind result_bind].
    assert (Hp : exists p, left_padding (sent1_tokens self) (pad_token_id tokenizer)
                             max_prefix_length = Ok p).
    { eexists. apply left_padding_Ok. split; [exact Hfit1 | reflexivity]. }
    destruct Hp as (p & Hp). rewrite Hp. cbn [mbind result_bind].
    rewrite Hs. cbn [mbind result_bind]. exists p, s.
    split; [reflexivity|].
    split; [exact (left_padding_len _ _ _ _ Hp) | exact Ls].
Qed.

Lemma build_label_total (tokenizer : Tokenizer) (self : Instance)
    (dense_length max_suffix_length : Z) (p : list Z) :
  dense_length_of (config self) = Ok dense_length ->
  config self !! "max_suffix_length" = Some max_suffix_length ->
  sent_prefix self = Some p ->
  len (sent2_tokens self) <= max_suffix_length ->
  exists ls,
    build_label tokenizer self =
      Ok (set_label ls
            (replicate (Z.to_nat dense_length) (-1) ++ replicate (length p) (-1)
               ++ [-1] ++ ls) self) /\
    len ls = max_suffix_length + 1.
Proof.
  intros Hd Hms Hp Hfit. unfold build_label, getitem.
  rewrite Hd, Hms. cbn [mbind result_bind].
  assert (Hs : exists ls,
             right_padding (sent2_tokens self ++ [eos_token_id tokenizer]) (-1)
               (max_suffix_length + 1) = Ok ls).
  { eexists. apply right_padding_Ok. split; [|reflexivity].
    rewrite len_app. unfold len at 2. simpl. lia. }
  destruct Hs as (ls & Hs). rewrite Hs, Hp. cbn [mbind result_bind getattr].
  exists ls. split; [reflexivity | exact (right_padding_len _ _ _ _ Hs)].
Qed.

Lemma comprehension_total {A : Type} (n : nat) (v : A) :
  comprehension n (Ok v) = Ok (replicate n v).
Proof. destruct n; reflexivity. Qed.

Lemma index_at_total {A : Type} (l : list A) (i : nat) :
  (i < length l)%nat -> exists v, index_at l i = Ok v.
Proof.
  intros H. unfold index_at. destruct (lookup_lt_is_Some_2 l i H) as (v & ->).
  now exists v.
Qed.

(** [build_segment] returns when the three special ids exist and, in tag-input
    mode, the tags fit the prefix limit; the segment has one tag per dense
    slot, per prefix-segment position, for the separator and per suffix
    position. *)
Lemma build_segment_total (tokenizer : Tokenizer) (self : Instance)
    (dense_length max_prefix_length : Z) (p s : list Z) :
  dense_length_of (config self) = Ok dense_length ->
  config self !! "max_prefix_length" = Some max_prefix_length ->
  sent_prefix self = Some p ->
  sent_suffix self = Some s ->
  (3 <= length (additional_special_tokens_ids tokenizer))%nat ->
  (forall tags, sent1_tokens_tags self = Some tags ->
                len tags <= max_prefix_length) ->
  exists sg,
    build_segment tokenizer self = Ok (set_segment sg self) /\
    len sg = Z.of_nat (Z.to_nat dense_length)
             + (match sent1_tokens_tags self with
                | Some _ => max_prefix_length
                | None => len p
                end) + 1 + len s.
Proof.
  intros Hd Hmp Hp Hs Hsp Htags. unfold build_segment, getitem.
  rewrite Hd, Hmp, Hp, Hs.
  destruct (index_at_total (additional_special_tokens_ids tokenizer) 0 ltac:(lia))
    as (t0 & H0).
  destruct (index_at_total (additional_special_tokens_ids tokenizer) 1 ltac:(lia))
    as (t1 & H1).
  destruct (index_at_total (additional_special_tokens_ids tokenizer) 2 ltac:(lia))
    as (t2 & H2).
  rewrite H0, H1, H2. cbn [mbind result_bind getattr].
  rewrite !comprehension_total.
  destruct (sent1_tokens_tags self) as [tags|].
  - cbn [mbind result_bind].
    assert (Hl : exists ps, left_padding (convert_tokens_to_ids tokenizer tags)
                              (pad_token_id tokenizer) max_prefix_length = Ok ps).
    { eexists. apply left_padding_Ok. split; [|reflexivity].
      unfold convert_tokens_to_ids, len. rewrite length_map.
      apply (Htags tags eq_refl). }
    destruct Hl as (ps & Hl). rewrite Hl. cbn [mbind result_bind].
    eexists. split; [reflexivity|].
    rewrite !len_app, !len_replicate, (left_padding_len _ _ _ _ Hl).
    unfold len. cbn [length]. lia.
  - cbn [mbind result_bind]. eexists. split; [reflexivity|].
    rewrite !len_app, !len_replicate. unfold len. cbn [length]. lia.
Qed.

(** Reduces the attribute reads on updated instances, and nothing else. *)
Ltac attrs :=
  cbn [args config truncated sent1_tokens sent1_tokens_tags sent2_tokens
       init_context_size sent_prefix sent_suffix sentence label_suffix label
       segment set_truncated set_sent1_tokens set_sent2_tokens set_sentence
       set_label set_segment swap_tokens] in *.

(** Step 2 exchanges the arrays only under one of the two markers. *)
Lemma shuffle_prefix_suffix_marker (self : Instance) (g : RandomState) :
  fst (shuffle_prefix_suffix self g) = self \/
  may_swap self = true /\ fst (shuffle_prefix_suffix self g) = swap_tokens self.
Proof.
  unfold shuffle_prefix_suffix, may_swap.
  destruct (contains "_shuffle_" _).
  - cbn [random]. destruct (Qle_bool _ _); auto.
  - destruct (contains "_reverse_" _); auto.
Qed.

Lemma len_truncated (l : list Z) (limit : Z) :
  0 <= limit ->
  len (if len l >? limit then slice_to l limit else l) = Z.min (len l) limit.
Proof.
  intros H. destruct (Z.gtb_spec (len l) limit) as [L|L].
  - rewrite len_slice_to by exact H. lia.
  - lia.
Qed.

(** The closing check on an instance all three arrays of which are built. *)
Lemma check_constraints_pass (self : Instance) (dense_length : Z) (s l sg : list Z) :
  dense_length_of (config self) = Ok dense_length ->
  sentence self = Some s -> label self = Some l -> segment self = Some sg ->
  len s = len l - dense_length ->
  len s = len sg - dense_length ->
  check_constraints self = Ok tt.
Proof.
  intros Hd Hs Hl Hsg E1 E2. unfold check_constraints.
  rewrite Hd, Hs, Hl, Hsg. cbn [mbind result_bind getattr].
  rewrite (proj2 (Z.eqb_eq _ _) E1). cbn [mbind result_bind py_assert].
  rewrite (proj2 (Z.eqb_eq _ _) E2). reflexivity.
Qed.

(** C1.  Under the configuration preconditions (both limits configured and
    not negative; both dense lengths configured with a sum that is not
    negative; the three special ids published; in tag-input mode no more tags
    than [max_prefix_length]; in no-SRL mode no tags or a prefix limit of 0,
    which is what [update_config] sets; under a shuffle or reverse marker the
    truncated arrays fit each other's limit) [preprocess] runs to the end:
    [check_constraints] is reached and passes, and the three arrays it leaves
    satisfy [len(sentence) == len(label) - dense_length] and
    [len(sentence) == len(segment) - dense_length]. *)
Theorem preprocess_check_constraints (tokenizer : Tokenizer) (self : Instance)
    (g : RandomState) (max_prefix_length max_suffix_length dense_length : Z) :
  config self !! "max_prefix_length" = Some max_prefix_length ->
  config self !! "max_suffix_length" = Some max_suffix_length ->
  0 <= max_prefix_length ->
  0 <= max_suffix_length ->
  dense_length_of (config self) = Ok dense_length ->
  0 <= dense_length ->
  (3 <= length (additional_special_tokens_ids tokenizer))%nat ->
  (forall tags, sent1_tokens_tags self = Some tags ->
                len tags <= max_prefix_length) ->
  (no_srl self = true -> sent1_tokens_tags self = None \/ max_prefix_length = 0) ->
  (may_swap self = true ->
     Z.min (len (sent1_tokens self)) max_prefix_length <= max_suffix_length /\
     (no_srl self = true \/
      Z.min (len (sent2_tokens self)) max_suffix_length <= max_prefix_length)) ->
  exists self' g' s l sg,
    preprocess tokenizer self g = Ok (self', g') /\
    sentence self' = Some s /\ label self' = Some l /\ segment self' = Some sg /\
    len s = len l - dense_length /\
    len s = len sg - dense_length /\
    check_constraints self' = Ok tt.
Proof.
  intros Hmp Hms Hmp0 Hms0 Hd Hd0 Hsp Htags Hnosrl Hswap.
  destruct (truncate_fields self _ _ Hmp Hms)
    as (self1 & Htr & T1 & T2 & _ & Ta & Tc & Tt & _).
  pose proof (len_truncated (sent1_tokens self) _ Hmp0) as L1.
  pose proof (len_truncated (sent2_tokens self) _ Hms0) as L2.
  rewrite <- T1 in L1. rewrite <- T2 in L2.
  unfold preprocess. rewrite Htr. cbn [mbind result_bind].
  destruct (shuffle_prefix_suffix self1 g) as [self2 g2] eqn:Hsh.
  assert (Hcase : self2 = self1 \/ may_swap self1 = true /\ self2 = swap_tokens self1).
  { pose proof (shuffle_prefix_suffix_marker self1 g) as H.
    rewrite Hsh in H. exact H. }
  assert (F2 : args self2 = args self /\ config self2 = config self /\
               sent1_tokens_tags self2 = sent1_tokens_tags self /\
               (no_srl self = true \/ len (sent1_tokens self2) <= max_prefix_length) /\
               len (sent2_tokens self2) <= max_suffix_length).
  { destruct Hcase as [->|[Hm ->]].
    - repeat split; try assumption. right. lia. lia.
    - unfold may_swap in Hm. rewrite Ta in Hm. destruct (Hswap Hm) as [S1 S2].
      attrs. repeat split; try assumption.
      + destruct S2 as [S2|S2]; [left; exact S2 | right; lia].
      + lia. }
  destruct F2 as (A2 & C2 & G2 & Fit1 & Fit2).
  assert (N2 : no_srl self2 = no_srl self) by (unfold no_srl; now rewrite A2).
  destruct (build_sentence_total tokenizer self2 max_prefix_length max_suffix_length)
    as (p & s & Hbs & Lp & Ls);
    [now rewrite C2 | now rewrite C2 | now rewrite N2 | exact Fit2 |].
  rewrite Hbs. cbn [mbind result_bind].
  set (self3 := set_sentence p s (p ++ [bos_token_id tokenizer] ++ s) self2) in *.
  destruct (build_label_total tokenizer self3 dense_length max_suffix_length p)
    as (ls & Hbl & Lls);
    [subst self3; attrs; now rewrite C2 | subst self3; attrs; now rewrite C2
    | reflexivity | exact Fit2 |].
  rewrite Hbl. cbn [mbind result_bind].
  set (lab := replicate (Z.to_nat dense_length) (-1) ++ replicate (length p) (-1)
                ++ [-1] ++ ls) in *.
  set (self4 := set_label ls lab self3) in *.
  destruct (build_segment_total tokenizer self4 dense_length max_prefix_length p s)
    as (sg & Hsg & Lsg);
    [subst self4 self3; attrs; now rewrite C2 | subst self4 self3; attrs; now rewrite C2
    | reflexivity | reflexivity | exact Hsp
    | subst self4 self3; attrs; rewrite G2; exact Htags |].
  rewrite Hsg. cbn [mbind result_bind].
  assert (E1 : len (p ++ [bos_token_id tokenizer] ++ s) = len lab - dense_length).
  { subst lab. rewrite !len_app, !len_replicate. unfold len in *.
    cbn [length]. lia. }
  assert (E2 : len (p ++ [bos_token_id tokenizer] ++ s) = len sg - dense_length).
  { rewrite Lsg, !len_app. subst self4 self3. attrs. rewrite G2, N2 in *.
    destruct (sent1_tokens_tags self) as [tags|] eqn:Etags.
    - destruct (no_srl self) eqn:En.
      + destruct (Hnosrl eq_refl) as [?| ->]; [discriminate|].
        unfold len in *. cbn [length]. lia.
      + unfold len in *. cbn [length]. lia.
    - unfold len in *. cbn [length]. lia. }
  assert (Hck : check_constraints (set_segment sg self4) = Ok tt).
  { apply (check_constraints_pass _ dense_length
             (p ++ [bos_token_id tokenizer] ++ s) lab sg);
      try reflexivity; try assumption.
    subst self4 self3. attrs. now rewrite C2. }
  rewrite Hck. cbn [mbind result_bind].
  exists (set_segment sg self4), g2, (p ++ [bos_token_id tokenizer] ++ s), lab, sg.
  repeat split; assumption.
Qed.

Lemma preprocess_check_constraints_witness :
  exists self' g' s l sg,
    preprocess demo_tokenizer tagged_reverse_instance high_draws = Ok (self', g') /\
    sentence self' = Some s /\ label self' = Some l /\ segment self' = Some sg /\
    len s = len l - 2 /\ len s = len sg - 2 /\
    check_constraints self' = Ok tt.
Proof.
  apply (preprocess_check_constraints demo_tokenizer tagged_reverse_instance
           high_draws 2 3 2).
  - reflexivity.
  - reflexivity.
  - lia.
  - lia.
  - reflexivity.
  - lia.
  - simpl. lia.
  - intros tags [= <-]. vm_compute. discriminate.
  - intros H. vm_compute in H. discriminate H.
  - intros _. split; [vm_compute; discriminate|].
    right. vm_compute. discriminate.
Defined.

(** The arrays of that run. *)
Example preprocess_tagged_reverse :
  (fun r => (sentence r.1, label r.1, segment r.1, position r.2))
    <$> preprocess demo_tokenizer tagged_reverse_instance high_draws
  = Ok (Some [21; 22; 1; 11; 12; 2; 0],
        Some [-1; -1; -1; -1; -1; 11; 12; 2; -1],
        Some [3; 3; 101; 102; 4; 4; 4; 4; 4], O).
Proof. vm_compute. reflexivity. Qed.

(** In no-SRL mode, tags and a prefix limit that [update_config] has not set
    to 0 make the second assertion fail. *)
Example check_constraints_needs_update_config :
  preprocess demo_tokenizer
    {| args := {| context_input_type := "x_no_srl_input";
                  global_dense_feature_list := "a,b";
                  content_aggregation := 1000; upper_length := "eos" |};
       config := demo_config; truncated := false;
       sent1_tokens := []; sent1_tokens_tags := Some ["x"; "yy"];
       sent2_tokens := [21; 22]; init_context_size := 3;
       sent_prefix := None; sent_suffix := None; sentence := None;
       label_suffix := None; label := None; segment := None |} high_draws
  = Raise AssertionError.
Proof. vm_compute. reflexivity. Qed.

(** ** Inversion of the pipeline *)

Lemma truncate_inv (self self1 : Instance) :
  truncate self = Ok self1 ->
  exists max_prefix_length max_suffix_length,
    config self !! "max_prefix_length" = Some max_prefix_length /\
    config self !! "max_suffix_length" = Some max_suffix_length /\
    sent1_tokens self1 =
      (if len (sent1_tokens self) >? max_prefix_length
       then slice_to (sent1_tokens self) max_prefix_length else sent1_tokens self) /\
    sent2_tokens self1 =
      (if len (sent2_tokens self) >? max_suffix_length
       then slice_to (sent2_tokens self) max_suffix_length else sent2_tokens self) /\
    args self1 = args self /\ config self1 = config self /\
    sent1_tokens_tags self1 = sent1_tokens_tags self /\
    init_context_size self1 = init_context_size self.
Proof.
  intros H. pose proof H as H'. unfold truncate in H'.
  bind_inv H'. bind_inv H'. apply getitem_Ok in E, E0.
  destruct (truncate_fields self x x0 E E0)
    as (self1' & Hrun & T1 & T2 & _ & Ta & Tc & Tt & Ti).
  rewrite H in Hrun. injection Hrun as <-.
  exists x, x0. repeat split; assumption.
Qed.

Lemma build_sentence_inv (tokenizer : Tokenizer) (self self' : Instance) :
  build_sentence tokenizer self = Ok self' ->
  exists p s,
    self' = set_sentence p s (p ++ [bos_token_id tokenizer] ++ s) self /\
    (if no_srl self then p = []
     else exists max_prefix_length,
         config self !! "max_prefix_length" = Some max_prefix_length /\
         len p = max_prefix_length /\ len (sent1_tokens self) <= max_prefix_length) /\
    exists max_suffix_length,
      config self !! "max_suffix_length" = Some max_suffix_length /\
      len s = max_suffix_length + 1 /\ len (sent2_tokens self) <= max_suffix_length.
Proof.
  unfold build_sentence, no_srl. intros H.
  bind_inv H. bind_inv H. bind_inv H. injection H as <-.
  exists x, x1. split; [reflexivity|]. split.
  - destruct (endswith "_no_srl_input" _).
    + now injection E as <-.
    + bind_inv E. apply getitem_Ok in E2. exists x2.
      split; [exact E2|]. split; [exact (left_padding_len _ _ _ _ E)|].
      now apply left_padding_Ok in E.
  - apply getitem_Ok in E0. exists x0. split; [exact E0|].
    split; [exact (right_padding_len _ _ _ _ E1)|].
    apply right_padding_Ok in E1 as [L _]. rewrite len_app in L.
    unfold len in L at 2. cbn [length] in L. lia.
Qed.

Lemma build_segment_fields (tokenizer : Tokenizer) (self self' : Instance) :
  build_segment tokenizer self = Ok self' ->
  exists sg, self' = set_segment sg self.
Proof.
  unfold build_segment. intros H. bind_inv H. bind_inv H.
  destruct x0 as [ps t]. bind_inv H. bind_inv H. injection H as <-.
  eexists. reflexivity.
Qed.

Lemma build_label_inv (tokenizer : Tokenizer) (self self' : Instance) :
  build_label tokenizer self = Ok self' ->
  exists ls l, self' = set_label ls l self.
Proof.
  unfold build_label. intros H. do 4 bind_inv H. injection H as <-.
  eexists _, _. reflexivity.
Qed.

(** A successful [preprocess] went through every step. *)
Lemma preprocess_inv (tokenizer : Tokenizer) (self self' : Instance)
    (g g' : RandomState) :
  preprocess tokenizer self g = Ok (self', g') ->
  exists self1 self2 p s ls l sg,
    truncate self = Ok self1 /\
    shuffle_prefix_suffix self1 g = (self2, g') /\
    build_sentence tokenizer self2
      = Ok (set_sentence p s (p ++ [bos_token_id tokenizer] ++ s) self2) /\
    (if no_srl self2 then p = []
     else exists max_prefix_length,
         config self2 !! "max_prefix_length" = Some max_prefix_length /\
         len p = max_prefix_length /\
         len (sent1_tokens self2) <= max_prefix_length) /\
    self' = set_segment sg (set_label ls l
              (set_sentence p s (p ++ [bos_token_id tokenizer] ++ s) self2)) /\
    check_constraints self' = Ok tt.
Proof.
  unfold preprocess. intros H. bind_inv H.
  destruct (shuffle_prefix_suffix x g) as [self2 g2] eqn:Hsh.
  do 4 bind_inv H. injection H as <- <-.
  pose proof E0 as Hbs.
  apply build_sentence_inv in E0 as (p & s & -> & Hp & _).
  apply build_label_inv in E1 as (ls & l & ->).
  apply build_segment_fields in E2 as (sg & ->).
  exists x, self2, p, s, ls, l, sg. destruct x3. repeat split; assumption.
Qed.

(** Steps 1 and 2 leave the arguments, the configuration, the tags and
    [init_context_size] alone. *)
Lemma truncate_shuffle_fields (self self1 self2 : Instance) (g g' : RandomState) :
  truncate self = Ok self1 ->
  shuffle_prefix_suffix self1 g = (self2, g') ->
  args self2 = args self /\ config self2 = config self /\
  sent1_tokens_tags self2 = sent1_tokens_tags self /\
  init_context_size self2 = init_context_size self /\
  (sent1_tokens self2 = sent1_tokens self1 \/ sent1_tokens self2 = sent2_tokens self1).
Proof.
  intros (mp & ms & _ & _ & _ & _ & Ta & Tc & Tt & Ti)%truncate_inv Hsh.
  pose proof (shuffle_prefix_suffix_cases self1 g) as Hc. rewrite Hsh in Hc.
  cbn [fst] in Hc. destruct Hc as [-> | ->]; attrs; repeat split; auto.
Qed.

(** The layout of the sentence a successful [preprocess] leaves. *)
Lemma preprocess_layout (tokenizer : Tokenizer) (self self' : Instance)
    (g g' : RandomState) :
  preprocess tokenizer self g = Ok (self', g') ->
  exists p s,
    sent_prefix self' = Some p /\ sent_suffix self' = Some s /\
    sentence self' = Some (p ++ [bos_token_id tokenizer] ++ s) /\
    init_context_size self' = init_context_size self /\
    (if no_srl self then p = []
     else exists max_prefix_length,
         config self !! "max_prefix_length" = Some max_prefix_length /\
         len p = max_prefix_length).
Proof.
  intros (self1 & self2 & p & s & ls & l & sg & Htr & Hsh & _ & Hp & -> & _)%preprocess_inv.
  destruct (truncate_shuffle_fields _ _ _ _ _ Htr Hsh) as (A2 & C2 & _ & I2 & _).
  exists p, s. attrs. repeat split; try assumption.
  unfold no_srl in *. rewrite A2, C2 in Hp.
  destruct (endswith _ _); [exact Hp|].
  destruct Hp as (mp & Hmp & Lp & _). now exists mp.
Qed.

(** Where the separator sits in [prefix ++ [bos] ++ suffix]. *)
Lemma separator_position (p s : list Z) (bos : Z) :
  (p ++ [bos] ++ s) !! Z.to_nat (len p + 1 - 1) = Some bos /\
  slice_from (p ++ [bos] ++ s) (len p + 1) = s.
Proof.
  pose proof (len_nonneg p) as Hp. split.
  - replace (Z.to_nat (len p + 1 - 1)) with (length p) by (unfold len; lia).
    now apply list_lookup_middle.
  - unfold slice_from. rewrite (proj2 (Z.leb_le 0 (len p + 1))) by lia.
    rewrite app_assoc. apply drop_app_length'.
    rewrite length_app. unfold len. cbn [length]. lia.
Qed.

(** [Instance.__init__] *)
Lemma Instance_init_fields (a : Args) (c : gmap string Z) (d : InstanceDict)
    (self : Instance) :
  Instance_init a c d = Ok self ->
  args self = a /\ config self = c /\ truncated self = false /\
  sent1_tokens self = d_sent1_tokens d /\
  sent2_tokens self = d_sent2_tokens d /\
  sent1_tokens_tags self = None /\
  exists max_prefix_length,
    c !! "max_prefix_length" = Some max_prefix_length /\
    init_context_size self = max_prefix_length + 1.
Proof.
  unfold Instance_init. intros H.
  bind_split H as sent1 H1. bind_split H as sent2 H2. bind_split H as mp Hmp.
  apply np_array_int32_Ok in H1 as [-> _], H2 as [-> _]. apply getitem_Ok in Hmp.
  injection H as <-. attrs. repeat split. now exists mp.
Qed.

(** C9.  For an [Instance] built by [__init__] on a configuration that went
    through [update_config], after a successful [preprocess] the sentence is
    [sent_prefix ++ [bos] ++ sent_suffix] with
    [len(sent_prefix) == init_context_size - 1]; so the bos id sits at index
    [init_context_size - 1] (which is [max_prefix_length], 0 in no-SRL mode)
    and the slice from [init_context_size] on is exactly [sent_suffix]. *)
Theorem sentence_bos_position (tokenizer : Tokenizer) (a : Args)
    (c0 c : gmap string Z) (d : InstanceDict) (self self' : Instance)
    (g g' : RandomState) :
  update_config a c0 = Ok c ->
  Instance_init a c d = Ok self ->
  preprocess tokenizer self g = Ok (self', g') ->
  exists p s,
    sent_prefix self' = Some p /\ sent_suffix self' = Some s /\
    sentence self' = Some (p ++ [bos_token_id tokenizer] ++ s) /\
    len p = init_context_size self' - 1 /\
    (p ++ [bos_token_id tokenizer] ++ s) !! Z.to_nat (init_context_size self' - 1)
      = Some (bos_token_id tokenizer) /\
    slice_from (p ++ [bos_token_id tokenizer] ++ s) (init_context_size self') = s /\
    c !! "max_prefix_length" = Some (init_context_size self' - 1) /\
    (endswith "_no_srl_input" (context_input_type a) = true ->
       init_context_size self' = 1 /\ p = []).
Proof.
  intros Hup Hinit Hpre.
  destruct (update_config_post a c0 c Hup) as (Hmode & _).
  destruct (Instance_init_fields a c d self Hinit)
    as (Ha & Hc & _ & _ & _ & _ & mp & Hmp & Hics).
  destruct (preprocess_layout tokenizer self self' g g' Hpre)
    as (p & s & Hp & Hs & Hsent & Hi & Hlen).
  assert (Lp : len p = mp).
  { unfold no_srl in Hlen. rewrite Ha, Hc in Hlen.
    destruct (endswith "_no_srl_input" (context_input_type a)) eqn:En.
    - subst p. rewrite Hmode in Hmp by reflexivity. now injection Hmp as <-.
    - destruct Hlen as (mp' & Hmp' & Lp). congruence. }
  assert (Hics' : init_context_size self' = len p + 1) by congruence.
  exists p, s. rewrite Hics'.
  destruct (separator_position p s (bos_token_id tokenizer)) as [Hbos Hslice].
  repeat split; try assumption.
  - lia.
  - rewrite Hmp, Lp. f_equal. lia.
  - rewrite Hmode in Hmp by assumption. injection Hmp as <-. lia.
  - unfold no_srl in Hlen. rewrite Ha in Hlen.
    match goal with H : endswith _ _ = true |- _ => rewrite H in Hlen end.
    exact Hlen.
Qed.

Lemma sentence_bos_position_witness :
  exists p s,
    sentence no_srl_preprocessed = Some (p ++ [1] ++ s) /\
    len p = init_context_size no_srl_preprocessed - 1 /\
    init_context_size no_srl_preprocessed = 1 /\ p = [] /\ s = [21; 22; 23; 2].
Proof.
  destruct (sentence_bos_position demo_tokenizer no_srl_args dataset_config
              no_srl_config_updated context_dict no_srl_instance
              no_srl_preprocessed high_draws high_draws)
    as (p & s & _ & Hs & Hsent & Hlen & _ & _ & _ & Hmode);
    [vm_compute; reflexivity | vm_compute; reflexivity | vm_compute; reflexivity |].
  destruct Hmode as [Hics ->]; [reflexivity|].
  exists [], s. repeat split; try assumption.
  cbn in Hs. now injection Hs as <-.
Defined.

(** ** Generation: post-processing *)

Lemma slice_to_len_le {A : Type} (l : list A) (n : Z) :
  0 <= n -> len (slice_to l n) <= n.
Proof. intros H. rewrite len_slice_to by exact H. lia. Qed.

(** What is kept in front of the first eos id holds no eos id. *)
Lemma cut_at_eos_no_eos (eos : Z) (l : list Z) :
  list_mem eos l = true -> list_mem eos (cut_at_eos eos l) = false.
Proof.
  intros H. unfold cut_at_eos. rewrite H.
  rewrite slice_to_nonneg by lia. rewrite Nat2Z.id. clear H.
  induction l as [|y l IH]; [reflexivity|].
  cbn [list_index]. destruct (Z.eqb_spec y eos) as [E|E]; [reflexivity|].
  cbn [take list_mem existsb]. rewrite Z.eqb_sym.
  rewrite (proj2 (Z.eqb_neq y eos) E). exact IH.
Qed.

Lemma cut_at_eos_length (eos : Z) (l : list Z) :
  (length (cut_at_eos eos l) <= length l)%nat.
Proof.
  unfold cut_at_eos. destruct (list_mem eos l); [apply slice_to_length_le | lia].
Qed.

(** The first eos id sits where the kept part ends. *)
Lemma drop_list_index (eos : Z) (l : list Z) :
  list_mem eos l = true -> head (drop (list_index eos l) l) = Some eos.
Proof.
  induction l as [|y l IH]; [discriminate|].
  cbn [list_index list_mem existsb]. rewrite Z.eqb_sym.
  destruct (Z.eqb_spec y eos) as [->|E]; [reflexivity|].
  cbn [orb drop]. exact IH.
Qed.

(** The cut at eos splits a list in its longest front part free of eos and
    a rest that is empty or starts with eos. *)
Lemma cut_at_eos_split (eos : Z) (l : list Z) :
  exists rest,
    l = cut_at_eos eos l ++ rest /\
    list_mem eos (cut_at_eos eos l) = false /\
    (rest = [] \/ head rest = Some eos).
Proof.
  destruct (list_mem eos l) eqn:Hm.
  - exists (drop (list_index eos l) l).
    split; [|split; [now apply cut_at_eos_no_eos | right; now apply drop_list_index]].
    unfold cut_at_eos. rewrite Hm, slice_to_nonneg, Nat2Z.id by lia.
    now rewrite take_drop.
  - exists []. unfold cut_at_eos. rewrite Hm, app_nil_r. auto.
Qed.

Lemma truncated_length_le {A : Type} (c : bool) (l : list A) (n : Z) :
  (length (if c then slice_to l n else l) <= length l)%nat.
Proof. destruct c; [apply slice_to_length_le | lia]. Qed.

(** Steps 3 to 6 do not touch the token arrays; steps 1 and 2 shorten and
    exchange them. *)
Lemma preprocess_sent1_length (tokenizer : Tokenizer) (self self' : Instance)
    (g g' : RandomState) :
  preprocess tokenizer self g = Ok (self', g') ->
  (length (sent1_tokens self') <= length (sent1_tokens self))%nat \/
  (length (sent1_tokens self') <= length (sent2_tokens self))%nat.
Proof.
  intros (self1 & self2 & p & s & ls & l & sg & Htr & Hsh & _ & _ & -> & _)%preprocess_inv.
  destruct (truncate_shuffle_fields _ _ _ _ _ Htr Hsh) as (_ & _ & _ & _ & Hs).
  apply truncate_inv in Htr as (mp & ms & _ & _ & T1 & T2 & _).
  attrs. destruct Hs as [-> | ->]; [left; rewrite T1 | right; rewrite T2];
    apply truncated_length_le.
Qed.

Section GenerateProperties.
Context {Selector : Type}.
Variable engine : list Instance -> list (option Selector) -> list (list Z).
Variable self : GPT2Generator.


(** Every instance of the batch comes from the pair at its position. *)
Lemma build_instances_lookup (pairs : list (string * option Selector))
    (g g' : RandomState) (instances : list Instance) (k : nat) (instance : Instance) :
  build_instances self pairs g = Ok (instances, g') ->
  instances !! k = Some instance ->
  exists context gdf self0 g1 g2,
    pairs !! k = Some (context, gdf) /\
    Instance_init (gen_args self) (gen_config self)
      {| d_sent1_tokens := string_to_ids context (gen_tokenizer self); d_sent2_tokens := string_to_ids context (gen_tokenizer self) |}
      = Ok self0 /\
    preprocess (gen_tokenizer self) self0 g1 = Ok (instance, g2).
Proof.
  revert g g' instances k.
  induction pairs as [|[context gdf] pairs IH]; intros g g' instances k H Hk.
  - injection H as <- <-. discriminate Hk.
  - cbn [build_instances] in H. bind_split H as self0 Hinit.
    bind_split H as r1 Hpre. destruct r1 as [inst g1].
    bind_split H as r2 Hrest. destruct r2 as [rest g2].
    injection H as <- <-. destruct k as [|k].
    + injection Hk as <-. exists context, gdf, self0, g, g1. auto.
    + destruct (IH _ _ _ _ Hrest Hk) as (c' & gd' & s0 & ga & gb & Hl & Hi & Hp).
      exists c', gd', s0, ga, gb. auto.
Qed.

(** Every decoded id list comes from the output row and the instance at
    its position. *)
Lemma postprocess_rows_lookup (instances : list Instance) (output outs : list (list Z))
    (n k : nat) (out : list Z) :
  postprocess_rows self instances n output = Ok outs ->
  outs !! k = Some out ->
  exists instance row,
    instances !! (n + k)%nat = Some instance /\
    output !! k = Some row /\
    postprocess_row self instance row = Ok out.
Proof.
  revert outs n k. induction output as [|row rows IH]; intros outs n k H Hk.
  - injection H as <-. discriminate Hk.
  - cbn [postprocess_rows] in H. bind_split H as inst Hinst.
    bind_split H as curr_out Hrow. bind_split H as rest Hrest. injection H as <-.
    unfold index_at in Hinst.
    destruct (instances !! n) as [inst'|] eqn:Hn; [|discriminate Hinst].
    injection Hinst as ->. destruct k as [|k].
    + injection Hk as <-. exists inst, row. rewrite Nat.add_0_r. auto.
    + destruct (IH _ _ _ Hrest Hk) as (i' & r' & Hi & Hr & Hp).
      exists i', r'. rewrite <- Nat.add_succ_comm. auto.
Qed.

(** The same-length policy on one row. *)
Lemma postprocess_row_same (instance : Instance) (row : list Z) (extra : Z) :
  startswith "same" (upper_length (gen_args self)) = true ->
  last_item (split_on "_"%char (upper_length (gen_args self))) ≫= py_int = Ok extra ->
  postprocess_row self instance row =
    Ok (slice_to
          (cut_at_eos (eos_token_id (gen_tokenizer self))
             (slice_from row (init_context_size instance)))
          (len (sent1_tokens instance) + extra)).
Proof.
  intros Hsame Hextra. unfold postprocess_row. rewrite Hsame.
  bind_split Hextra as piece Hpiece. rewrite Hpiece. cbn [mbind result_bind].
  rewrite Hextra. reflexivity.
Qed.

(** C4.  Under a policy [same_<N>] with [N] not negative, the id list
    [generate_batch] hands to the decoder at position [k] is made of row [k]
    of the output and of instance [k] of the batch: the row sliced from
    [init_context_size], cut in front of its first eos id, and then cut to
    its first [len(instance.sent1_tokens) + N] ids, which are at most the
    number of token ids of context [k] plus [N]. *)
Theorem generate_batch_same_length (contexts : list string)
    (global_dense_features : option (list (option Selector)))
    (g g' : RandomState) (outs : list (list Z)) (extra : Z)
    (k : nat) (context : string) (out : list Z) :
  startswith "same" (upper_length (gen_args self)) = true ->
  last_item (split_on "_"%char (upper_length (gen_args self))) ≫= py_int = Ok extra ->
  0 <= extra ->
  generate_batch_ids engine self contexts global_dense_features g = Ok (outs, g') ->
  contexts !! k = Some context ->
  outs !! k = Some out ->
  (exists instances selectors instance row kept rest,
     selectors = match global_dense_features with
                 | Some l => l
                 | None => map (fun _ => None) contexts
                 end /\
     build_instances self (zip contexts selectors) g = Ok (instances, g') /\
     instances !! k = Some instance /\
     engine instances selectors !! k = Some row /\
     slice_from row (init_context_size instance) = kept ++ rest /\
     list_mem (eos_token_id (gen_tokenizer self)) kept = false /\
     (rest = [] \/ head rest = Some (eos_token_id (gen_tokenizer self))) /\
     out = take (Z.to_nat (len (sent1_tokens instance) + extra)) kept /\
     len (sent1_tokens instance) <= len (string_to_ids context (gen_tokenizer self))) /\
  len out <= len (string_to_ids context (gen_tokenizer self)) + extra.
Proof.
  intros Hsame Hextra Hpos Hrun Hctx Hout.
  unfold generate_batch_ids in Hrun. bind_split Hrun as built Hbuild.
  destruct built as [instances g1]. bind_split Hrun as first Hfirst.
  bind_split Hrun as all_output Hrows. injection Hrun as <- <-.
  destruct (postprocess_rows_lookup _ _ _ _ _ _ Hrows Hout)
    as (instance & row & Hinst & Hrow & Hpost).
  cbn [Nat.add] in Hinst.
  destruct (build_instances_lookup _ _ _ _ _ _ Hbuild Hinst)
    as (context' & gdf & self0 & ga & gb & Hpair & Hinit & Hpre).
  apply lookup_zip_with_Some in Hpair as (c & gd & [= -> ->] & Hc & _).
  assert (c = context) by congruence. subst c.
  rewrite (postprocess_row_same instance row extra Hsame Hextra) in Hpost.
  injection Hpost as <-.
  assert (Hlen : len (sent1_tokens instance) <= len (string_to_ids context (gen_tokenizer self))).
  { apply Instance_init_fields in Hinit as (_ & _ & _ & H1 & H2 & _).
    cbn [d_sent1_tokens d_sent2_tokens] in H1, H2.
    pose proof (preprocess_sent1_length _ _ _ _ _ Hpre) as Hl.
    rewrite H1, H2 in Hl. unfold len in *. lia. }
  pose proof (len_nonneg (sent1_tokens instance)) as Hnn.
  split.
  - destruct (cut_at_eos_split (eos_token_id (gen_tokenizer self))
                (slice_from row (init_context_size instance)))
      as (rest & Hsplit & Hfree & Hrest).
    eexists instances, _, instance, row, _, rest.
    split; [reflexivity|]. split; [exact Hbuild|]. split; [exact Hinst|].
    split; [exact Hrow|]. split; [exact Hsplit|]. split; [exact Hfree|].
    split; [exact Hrest|]. split; [|exact Hlen].
    apply slice_to_nonneg. lia.
  - pose proof (slice_to_len_le
                  (cut_at_eos (eos_token_id (gen_tokenizer self))
                     (slice_from row (init_context_size instance)))
                  (len (sent1_tokens instance) + extra)).
    lia.
Qed.
End GenerateProperties.

(** A context of three tokens under [same_2]: the row holds seven ids in
    front of its first eos id, four of them reach the decoder (two kept
    prefix ids plus two), within the bound of five. *)
Lemma generate_batch_same_length_witness :
  (exists instances selectors instance row kept rest,
     selectors = map (fun _ => None) ["aa b ccc"] /\
     build_instances demo_generator (zip ["aa b ccc"] selectors) high_draws
       = Ok (instances, high_draws) /\
     instances !! 0%nat = Some instance /\
     demo_engine instances selectors !! 0%nat = Some row /\
     slice_from row (init_context_size instance) = kept ++ rest /\
     list_mem (eos_token_id (gen_tokenizer demo_generator)) kept = false /\
     (rest = [] \/ head rest = Some (eos_token_id (gen_tokenizer demo_generator))) /\
     [9; 9; 9; 9] = take (Z.to_nat (len (sent1_tokens instance) + 2)) kept /\
     len (sent1_tokens instance)
     <= len (string_to_ids "aa b ccc" (gen_tokenizer demo_generator))) /\
  len [9; 9; 9; 9] <= len (string_to_ids "aa b ccc" (gen_tokenizer demo_generator)) + 2.
Proof.
  apply (generate_batch_same_length demo_engine demo_generator ["aa b ccc"] None
           high_draws high_draws [[9; 9; 9; 9]] 2 0 "aa b ccc" [9; 9; 9; 9]).
  - reflexivity.
  - reflexivity.
  - lia.
  - vm_compute. reflexivity.
  - reflexivity.
  - reflexivity.
Defined.

Example generate_batch_same_2 :
  len (convert_tokens_to_ids demo_tokenizer (tokenize demo_tokenizer "aa b ccc")) = 3 /\
  fst <$> generate_batch_ids demo_engine demo_generator ["aa b ccc"] None high_draws
    = Ok [[9; 9; 9; 9]].
Proof. split; vm_compute; reflexivity. Qed.

(** ** Generation: the instances and the random generator *)

Lemma fmap_fst_cases {A B : Type} (r1 r2 : result (A * B)) :
  fst <$> r1 = fst <$> r2 ->
  (exists a b1 b2, r1 = Ok (a, b1) /\ r2 = Ok (a, b2)) \/
  (exists e, r1 = Raise e /\ r2 = Raise e).
Proof.
  destruct r1 as [[a1 b1]|e1], r2 as [[a2 b2]|e2]; cbn; intros H;
    try discriminate H; injection H as ->.
  - left. now exists a2, b1, b2.
  - right. now exists e2.
Qed.

(** When step 2 returns the same instance for every state of the generator,
    so does the whole pipeline. *)
Lemma preprocess_random_independent (tokenizer : Tokenizer) (self : Instance) :
  (forall self1 ga gb, truncate self = Ok self1 ->
     fst (shuffle_prefix_suffix self1 ga) = fst (shuffle_prefix_suffix self1 gb)) ->
  forall g1 g2,
    fst <$> preprocess tokenizer self g1 = fst <$> preprocess tokenizer self g2.
Proof.
  intros Hsame g1 g2. unfold preprocess.
  destruct (truncate self) as [self1|e]; [|reflexivity].
  cbn [mbind result_bind]. specialize (Hsame self1 g1 g2 eq_refl).
  destruct (shuffle_prefix_suffix self1 g1) as [a ga].
  destruct (shuffle_prefix_suffix self1 g2) as [b gb].
  cbn [fst] in Hsame. subst b.
  destruct (build_sentence tokenizer a) as [a1|e]; [|reflexivity].
  cbn [mbind result_bind].
  destruct (build_label tokenizer a1) as [a2|e]; [|reflexivity].
  cbn [mbind result_bind].
  destruct (build_segment tokenizer a2) as [a3|e]; [|reflexivity].
  cbn [mbind result_bind].
  destruct (check_constraints a3) as [u|e]; reflexivity.
Qed.

(** Equal arrays survive truncation when the context is within both limits
    or the limits coincide. *)
Lemma truncate_keeps_equal (self self1 : Instance) (max_prefix_length max_suffix_length : Z) :
  config self !! "max_prefix_length" = Some max_prefix_length ->
  config self !! "max_suffix_length" = Some max_suffix_length ->
  sent1_tokens self = sent2_tokens self ->
  (len (sent1_tokens self) <= max_prefix_length /\
   len (sent1_tokens self) <= max_suffix_length) \/
  max_prefix_length = max_suffix_length ->
  truncate self = Ok self1 ->
  sent1_tokens self1 = sent2_tokens self1.
Proof.
  intros Hmp Hms Heq Hfit Htr.
  apply truncate_inv in Htr as (mp & ms & Hmp' & Hms' & T1 & T2 & _).
  assert (mp = max_prefix_length) by congruence.
  assert (ms = max_suffix_length) by congruence. subst mp ms.
  rewrite T1, T2, <- Heq. destruct Hfit as [[L1 L2] | ->]; [|reflexivity].
  destruct (Z.gtb_spec (len (sent1_tokens self)) max_prefix_length);
    destruct (Z.gtb_spec (len (sent1_tokens self)) max_suffix_length);
    try lia; reflexivity.
Qed.

Section InstancesAndRandom.
Context {Selector : Type}.
Variable self : GPT2Generator.

(** When step 2 returns the same instance for every state of the generator
    on every instance of the batch, the batch is the same for every state. *)
Lemma build_instances_independent (pairs : list (string * option Selector)) :
  (forall context gdf self0 self1 ga gb,
     (context, gdf) ∈ pairs ->
     Instance_init (gen_args self) (gen_config self)
       {| d_sent1_tokens := string_to_ids context (gen_tokenizer self);
          d_sent2_tokens := string_to_ids context (gen_tokenizer self) |}
       = Ok self0 ->
     truncate self0 = Ok self1 ->
     fst (shuffle_prefix_suffix self1 ga) = fst (shuffle_prefix_suffix self1 gb)) ->
  forall g1 g2,
    fst <$> build_instances self pairs g1 = fst <$> build_instances self pairs g2.
Proof.
  induction pairs as [|[context gdf] rest IH]; intros Hsame g1 g2; [reflexivity|].
  cbn [build_instances]. fold (string_to_ids context (gen_tokenizer self)).
  destruct (Instance_init (gen_args self) (gen_config self)
              {| d_sent1_tokens := string_to_ids context (gen_tokenizer self);
                 d_sent2_tokens := string_to_ids context (gen_tokenizer self) |})
    as [self0|e] eqn:Hinit; [|reflexivity].
  cbn [mbind result_bind].
  assert (Hpre : fst <$> preprocess (gen_tokenizer self) self0 g1
                 = fst <$> preprocess (gen_tokenizer self) self0 g2).
  { apply preprocess_random_independent. intros self1 ga gb Htr.
    apply (Hsame context gdf self0 self1 ga gb); [left | exact Hinit | exact Htr]. }
  destruct (fmap_fst_cases _ _ Hpre)
    as [(inst & ga & gb & -> & ->) | (e & -> & ->)]; [|reflexivity].
  cbn [mbind result_bind].
  assert (Hrest : fst <$> build_instances self rest ga
                  = fst <$> build_instances self rest gb).
  { apply IH. intros c gd s0 s1 ha hb Hin. apply (Hsame c gd). now right. }
  destruct (fmap_fst_cases _ _ Hrest)
    as [(insts & ha & hb & -> & ->) | (e & -> & ->)]; reflexivity.
Qed.

(** The instance [generate_batch] builds for a context that truncates alike
    as prefix and as suffix keeps equal arrays through step 1, so step 2
    returns it as it is. *)
Lemma context_instance_swap (max_prefix_length max_suffix_length : Z)
    (context : string) (self0 self1 : Instance) (g : RandomState) :
  gen_config self !! "max_prefix_length" = Some max_prefix_length ->
  gen_config self !! "max_suffix_length" = Some max_suffix_length ->
  same_truncation (gen_tokenizer self) max_prefix_length max_suffix_length context ->
  Instance_init (gen_args self) (gen_config self)
    {| d_sent1_tokens := string_to_ids context (gen_tokenizer self);
       d_sent2_tokens := string_to_ids context (gen_tokenizer self) |}
    = Ok self0 ->
  truncate self0 = Ok self1 ->
  swap_tokens self1 = self1 /\
  fst (shuffle_prefix_suffix self1 g) = self1.
Proof.
  intros Hprefix Hsuffix Hfit Hinit Htr.
  destruct (Instance_init_fields _ _ _ _ Hinit) as (_ & Hc & _ & H1 & H2 & _).
  cbn [d_sent1_tokens d_sent2_tokens] in H1, H2.
  assert (Hswap : swap_tokens self1 = self1).
  { apply swap_tokens_same.
    apply (truncate_keeps_equal self0 self1 max_prefix_length max_suffix_length);
      try assumption; try (rewrite Hc; assumption); [congruence|].
    rewrite H1. exact Hfit. }
  split; [exact Hswap|].
  destruct (shuffle_prefix_suffix_cases self1 g) as [E|E]; congruence.
Qed.

(** C10 (amended).  [generate_batch] builds every instance with
    [sent1_tokens] and [sent2_tokens] both equal to the ids of the context.
    Step 2 draws from the generator only under the shuffle marker; there,
    for a batch each context of which has at most [max_prefix_length] and at
    most [max_suffix_length] ids (or when the two limits coincide), the
    exchange leaves the truncated arrays as they are.  So without the
    shuffle marker, and with it for such a batch, the instances built are
    the same for every two states of the random generator. *)
Theorem build_instances_random_independent
    (pairs : list (string * option Selector)) (g1 g2 : RandomState) :
  (contains "_shuffle_" (context_input_type (gen_args self)) = true ->
   exists max_prefix_length max_suffix_length,
     gen_config self !! "max_prefix_length" = Some max_prefix_length /\
     gen_config self !! "max_suffix_length" = Some max_suffix_length /\
     forall context gdf,
       (context, gdf) ∈ pairs ->
       same_truncation (gen_tokenizer self) max_prefix_length max_suffix_length
         context) ->
  (forall context gdf self0,
     (context, gdf) ∈ pairs ->
     Instance_init (gen_args self) (gen_config self)
       {| d_sent1_tokens := string_to_ids context (gen_tokenizer self);
          d_sent2_tokens := string_to_ids context (gen_tokenizer self) |}
       = Ok self0 ->
     sent1_tokens self0 = string_to_ids context (gen_tokenizer self) /\
     sent2_tokens self0 = string_to_ids context (gen_tokenizer self)) /\
  (forall context gdf self0 self1 g,
     (context, gdf) ∈ pairs ->
     Instance_init (gen_args self) (gen_config self)
       {| d_sent1_tokens := string_to_ids context (gen_tokenizer self);
          d_sent2_tokens := string_to_ids context (gen_tokenizer self) |}
       = Ok self0 ->
     truncate self0 = Ok self1 ->
     if contains "_shuffle_" (context_input_type (gen_args self))
     then swap_tokens self1 = self1 /\
          shuffle_prefix_suffix self1 g = (self1, snd (random g))
     else snd (shuffle_prefix_suffix self1 g) = g /\
          forall g2, fst (shuffle_prefix_suffix self1 g2)
                     = fst (shuffle_prefix_suffix self1 g)) /\
  fst <$> build_instances self pairs g1 = fst <$> build_instances self pairs g2.
Proof.
  intros Hfit.
  assert (Hmode : forall context gdf self0 self1,
            (context, gdf) ∈ pairs ->
            Instance_init (gen_args self) (gen_config self)
              {| d_sent1_tokens := string_to_ids context (gen_tokenizer self);
                 d_sent2_tokens := string_to_ids context (gen_tokenizer self) |}
              = Ok self0 ->
            truncate self0 = Ok self1 ->
            context_input_type (args self1) = context_input_type (gen_args self)).
  { intros context gdf self0 self1 _ Hinit Htr.
    apply truncate_inv in Htr as (mp & ms & _ & _ & _ & _ & Ta & _).
    apply Instance_init_fields in Hinit as (Ha & _). now rewrite Ta, Ha. }
  assert (Hstep : forall context gdf self0 self1 g,
            (context, gdf) ∈ pairs ->
            Instance_init (gen_args self) (gen_config self)
              {| d_sent1_tokens := string_to_ids context (gen_tokenizer self);
                 d_sent2_tokens := string_to_ids context (gen_tokenizer self) |}
              = Ok self0 ->
            truncate self0 = Ok self1 ->
            if contains "_shuffle_" (context_input_type (gen_args self))
            then swap_tokens self1 = self1 /\
                 shuffle_prefix_suffix self1 g = (self1, snd (random g))
            else snd (shuffle_prefix_suffix self1 g) = g /\
                 forall g2, fst (shuffle_prefix_suffix self1 g2)
                            = fst (shuffle_prefix_suffix self1 g)).
  { intros context gdf self0 self1 g Hin Hinit Htr.
    pose proof (Hmode context gdf self0 self1 Hin Hinit Htr) as Hm.
    destruct (contains "_shuffle_" (context_input_type (gen_args self))) eqn:Hsh.
    - destruct (Hfit eq_refl) as (mp & ms & Hmp & Hms & Hall).
      destruct (context_instance_swap mp ms context self0 self1 g Hmp Hms
                  (Hall context gdf Hin) Hinit Htr) as [Hswap _].
      split; [exact Hswap|].
      unfold shuffle_prefix_suffix. rewrite Hm, Hsh.
      destruct (random g) as [x g0]. cbn [snd]. rewrite Hswap.
      now destruct (Qle_bool x (1 # 2)).
    - apply shuffle_prefix_suffix_no_draw. now rewrite Hm. }
  split; [|split; [exact Hstep|]].
  - intros context gdf self0 _ Hinit.
    apply Instance_init_fields in Hinit as (_ & _ & _ & H1 & H2 & _).
    now split.
  - apply build_instances_independent. intros context gdf self0 self1 ga gb Hin Hinit Htr.
    pose proof (Hstep context gdf self0 self1 ga Hin Hinit Htr) as Ha.
    pose proof (Hstep context gdf self0 self1 gb Hin Hinit Htr) as Hb.
    destruct (contains "_shuffle_" (context_input_type (gen_args self))).
    + destruct Ha as [_ ->], Hb as [_ ->]. reflexivity.
    + destruct Hb as [_ Hb]. apply Hb.
Qed.
End InstancesAndRandom.

(** Under the shuffle marker, with the limits 2 and 3 and contexts of one
    and two tokens: both runs draw twice, the second one exchanges the
    arrays both times, and the instances are the same. *)
Lemma build_instances_random_independent_witness :
  (((fun r => position r.2) <$> build_instances shuffle_srl_generator two_contexts high_draws
    = Ok 2%nat) /\
   ((fun r => position r.2) <$> build_instances shuffle_srl_generator two_contexts low_draws
    = Ok 2%nat)) /\
  fst <$> build_instances shuffle_srl_generator two_contexts high_draws
  = fst <$> build_instances shuffle_srl_generator two_contexts low_draws.
Proof.
  split; [split; vm_compute; reflexivity|].
  apply (build_instances_random_independent shuffle_srl_generator two_contexts
           high_draws low_draws).
  intros _. exists 2, 3. split; [reflexivity|]. split; [reflexivity|].
  intros context gdf Hin. left. unfold two_contexts in Hin.
  apply elem_of_cons in Hin as [[= -> ->] | Hin];
    [vm_compute; split; discriminate|].
  apply elem_of_cons in Hin as [[= -> ->] | Hin];
    [vm_compute; split; discriminate|].
  apply elem_of_nil in Hin. destruct Hin.
Defined.

(** X28.  Without the shuffle marker step 2 never draws: the instances do not
    depend on the generator, whatever the contexts. *)
Lemma build_instances_no_shuffle {Selector : Type} (self : GPT2Generator)
    (pairs : list (string * option Selector)) (g1 g2 : RandomState) :
  contains "_shuffle_" (context_input_type (gen_args self)) = false ->
  fst <$> build_instances self pairs g1 = fst <$> build_instances self pairs g2.
Proof.
  intros Hmode. revert g1 g2.
  induction pairs as [|[context gdf] rest IH]; intros g1 g2; [reflexivity|].
  cbn [build_instances].
  destruct (Instance_init _ _ _) as [self0|e] eqn:Hinit; [|reflexivity].
  cbn [mbind result_bind].
  assert (Hpre : fst <$> preprocess (gen_tokenizer self) self0 g1
                 = fst <$> preprocess (gen_tokenizer self) self0 g2).
  { apply preprocess_random_independent. intros self1 ga gb Htr.
    apply truncate_inv in Htr as (mp & ms & _ & _ & _ & _ & Ta & _).
    apply Instance_init_fields in Hinit as (Ha & _).
    assert (Hm : contains "_shuffle_" (context_input_type (args self1)) = false)
      by (rewrite Ta, Ha; exact Hmode).
    destruct (shuffle_prefix_suffix_no_draw self1 gb Hm) as [_ Hfst].
    now rewrite (Hfst ga). }
  destruct (fmap_fst_cases _ _ Hpre)
    as [(inst & ga & gb & -> & ->) | (e & -> & ->)]; [|reflexivity].
  cbn [mbind result_bind].
  destruct (fmap_fst_cases _ _ (IH ga gb))
    as [(insts & ha & hb & -> & ->) | (e & -> & ->)]; reflexivity.
Qed.

(** C10 as stated fails under the shuffle marker.  In no-SRL mode the prefix
    limit is 0, so truncation empties [sent1_tokens] and keeps
    [sent2_tokens]; whether step 2 exchanges them depends on the draw, and
    the sentences built differ. *)
Lemma build_instances_random_counterexample :
  GPT2Generator_init shuffle_no_srl_args dataset_config demo_tokenizer "eos"
    = Ok shuffle_generator /\
  (fun r => map sentence r.1) <$> build_instances shuffle_generator one_context high_draws
    = Ok [Some [1; 102; 101; 2; 0]] /\
  (fun r => map sentence r.1) <$> build_instances shuffle_generator one_context low_draws
    = Ok [Some [1; 2; 0; 0; 0]] /\
  fst <$> build_instances shuffle_generator one_context high_draws
    <> fst <$> build_instances shuffle_generator one_context low_draws.
Proof.
  split; [vm_compute; reflexivity|].
  split; [vm_compute; reflexivity|].
  split; [vm_compute; reflexivity|].
  vm_compute. discriminate.
Qed.

(** ** The assertion of the pipeline is only reached when it holds *)

Example padding_examples :
  left_padding [1; 2] 0 5 = Ok [0; 0; 0; 1; 2] /\
  right_padding [1; 2] 0 5 = Ok [1; 2; 0; 0; 0] /\
  left_padding [1; 2; 3] 0 2 = Raise ValueError /\
  right_padding [1; 2; 3] 0 2 = Raise ValueError.
Proof. repeat split; reflexivity. Qed.

(** Destructs every test and every intermediate result of a step. *)
Ltac all_cases :=
  cbn [mbind result_bind fmap result_fmap];
  repeat (case_match; cbn [mbind result_bind fmap result_fmap] in *);
  try discriminate.

Lemma truncate_no_assertion (self : Instance) :
  truncate self <> Raise AssertionError.
Proof. unfold truncate, getitem. all_cases. Qed.

Lemma build_sentence_no_assertion (tokenizer : Tokenizer) (self : Instance) :
  build_sentence tokenizer self <> Raise AssertionError.
Proof.
  unfold build_sentence, left_padding, right_padding, np_pad, getitem. all_cases.
Qed.

Lemma build_label_no_assertion (tokenizer : Tokenizer) (self : Instance) :
  build_label tokenizer self <> Raise AssertionError.
Proof.
  unfold build_label, dense_length_of, right_padding, np_pad, getitem, getattr.
  all_cases.
Qed.

Lemma build_segment_no_assertion (tokenizer : Tokenizer) (self : Instance) :
  build_segment tokenizer self <> Raise AssertionError.
Proof.
  unfold build_segment, dense_length_of, comprehension, left_padding, np_pad,
    index_at, getitem, getattr.
  all_cases.
Qed.

Lemma build_label_len (tokenizer : Tokenizer) (self self' : Instance) :
  build_label tokenizer self = Ok self' ->
  exists dense_length max_suffix_length p ls l,
    dense_length_of (config self) = Ok dense_length /\
    config self !! "max_suffix_length" = Some max_suffix_length /\
    sent_prefix self = Some p /\
    self' = set_label ls l self /\
    len ls = max_suffix_length + 1 /\
    len l = Z.of_nat (Z.to_nat dense_length) + len p + 1 + len ls.
Proof.
  unfold build_label. intros H.
  bind_split H as dense Hd. bind_split H as ms Hms. bind_split H as ls Hls.
  bind_split H as p Hp. injection H as <-.
  apply getitem_Ok in Hms. destruct (sent_prefix self) as [p'|]; [|discriminate Hp].
  injection Hp as ->.
  eexists dense, ms, p, ls, _.
  split; [exact Hd|]. split; [exact Hms|]. split; [reflexivity|].
  split; [reflexivity|]. split.
  - exact (right_padding_len _ _ _ _ Hls).
  - rewrite !len_app, !len_replicate. unfold len. cbn [length]. lia.
Qed.

Lemma build_segment_len (tokenizer : Tokenizer) (self self' : Instance) :
  build_segment tokenizer self = Ok self' ->
  exists dense_length s sg n,
    dense_length_of (config self) = Ok dense_length /\
    sent_suffix self = Some s /\
    self' = set_segment sg self /\
    len sg = Z.of_nat (Z.to_nat dense_length) + n + 1 + len s /\
    match sent1_tokens_tags self with
    | Some _ => config self !! "max_prefix_length" = Some n
    | None => exists p, sent_prefix self = Some p /\ n = len p
    end.
Proof.
  unfold build_segment. intros H.
  bind_split H as dense Hd. bind_split H as pt Hpt. destruct pt as [ps t].
  bind_split H as ds Hds. bind_split H as s Hs. injection H as <-.
  destruct (sent_suffix self) as [s'|]; [|discriminate Hs]. injection Hs as ->.
  apply comprehension_len in Hds.
  assert (Hsg : forall n, len ps = n ->
            len (ds ++ ps ++ [t] ++ replicate (length s) t)
            = Z.of_nat (Z.to_nat dense) + n + 1 + len s).
  { intros n <-. rewrite !len_app, len_replicate. unfold len.
    rewrite Hds. cbn [length]. lia. }
  destruct (sent1_tokens_tags self) as [tags|].
  - bind_split Hpt as mp Hmp. bind_split Hpt as ps' Hps. bind_split Hpt as t' Ht.
    injection Hpt as -> ->. apply getitem_Ok in Hmp.
    eexists dense, s, _, mp.
    split; [exact Hd|]. split; [reflexivity|]. split; [reflexivity|].
    split; [|exact Hmp].
    apply Hsg. exact (left_padding_len _ _ _ _ Hps).
  - bind_split Hpt as p Hp. bind_split Hpt as ps' Hps. bind_split Hpt as t' Ht.
    injection Hpt as -> ->.
    destruct (sent_prefix self) as [p'|]; [|discriminate Hp]. injection Hp as ->.
    apply comprehension_len in Hps.
    eexists dense, s, _, (len p).
    split; [exact Hd|]. split; [reflexivity|]. split; [reflexivity|].
    split; [|now exists p].
    apply Hsg. unfold len. now rewrite Hps.
Qed.

(** X27.  Whatever the token arrays and the limits, [preprocess] never raises
    [AssertionError], that is, it never fails in [check_constraints], when
    the dense length is not negative and, in no-SRL mode, there are no tags
    or the prefix limit is 0. *)
Lemma preprocess_assertion_unreachable (tokenizer : Tokenizer) (self : Instance)
    (g : RandomState) :
  (forall dense_length, dense_length_of (config self) = Ok dense_length ->
                        0 <= dense_length) ->
  (no_srl self = true ->
     sent1_tokens_tags self = None \/ config self !! "max_prefix_length" = Some 0) ->
  preprocess tokenizer self g <> Raise AssertionError.
Proof.
  intros Hdense Hmode. unfold preprocess.
  destruct (truncate self) as [self1|e] eqn:Htr;
    [|intros [= ->]; exact (truncate_no_assertion self Htr)].
  cbn [mbind result_bind].
  destruct (shuffle_prefix_suffix self1 g) as [self2 g2] eqn:Hsh.
  destruct (truncate_shuffle_fields _ _ _ _ _ Htr Hsh) as (A2 & C2 & G2 & _).
  destruct (build_sentence tokenizer self2) as [self3|e] eqn:Hbs;
    [|intros [= ->]; exact (build_sentence_no_assertion _ _ Hbs)].
  cbn [mbind result_bind].
  destruct (build_label tokenizer self3) as [self4|e] eqn:Hbl;
    [|intros [= ->]; exact (build_label_no_assertion _ _ Hbl)].
  cbn [mbind result_bind].
  destruct (build_segment tokenizer self4) as [self5|e] eqn:Hsg;
    [|intros [= ->]; exact (build_segment_no_assertion _ _ Hsg)].
  cbn [mbind result_bind].
  apply build_sentence_inv in Hbs as (p & s & -> & Hp & ms & Hms & Ls & _).
  apply build_label_len in Hbl
    as (dense & ms' & p' & ls & l & Hd & Hms' & Hp' & -> & Lls & Ll).
  apply build_segment_len in Hsg as (dense' & s' & sg & n & Hd' & Hs' & -> & Lsg & Hn).
  attrs. injection Hp' as <-. injection Hs' as <-.
  rewrite C2 in *. assert (dense' = dense) by congruence. subst dense'.
  assert (ms' = ms) by congruence. subst ms'.
  pose proof (Hdense dense Hd) as Hd0.
  assert (Hck : check_constraints
                  (set_segment sg (set_label ls l
                     (set_sentence p s (p ++ [bos_token_id tokenizer] ++ s) self2)))
                = Ok tt).
  { apply (check_constraints_pass _ dense (p ++ [bos_token_id tokenizer] ++ s) l sg);
      attrs; try reflexivity; try (rewrite C2; exact Hd).
    - rewrite Ll, !len_app. unfold len in *. cbn [length]. lia.
    - rewrite Lsg, !len_app. unfold no_srl in *. rewrite A2 in Hp. rewrite G2 in Hn.
      assert (n = len p); [|unfold len in *; cbn [length]; lia].
      destruct (sent1_tokens_tags self) as [tags|].
      + destruct (endswith "_no_srl_input" (context_input_type (args self))).
        * subst p. destruct (Hmode eq_refl) as [?|H0]; [discriminate|].
          rewrite H0 in Hn. now injection Hn as <-.
        * destruct Hp as (mp & Hmp & Lp & _). congruence.
      + destruct Hn as (p'' & [= <-] & ->). reflexivity. }
  rewrite Hck. discriminate.
Qed.

(** ** HPInstance construction *)

(** X26.  [HPInstance.__init__] leaves tags only outside no-SRL mode, sets
    [init_context_size] from the prefix limit, and stores a secondary
    encoding of length 502. *)
Lemma HPInstance_init_fields (a : Args) (c : gmap string Z) (d : HPInstanceDict)
    (hp : HPInstance) :
  HPInstance_init a c d = Ok hp ->
  args (base hp) = a /\ config (base hp) = c /\ truncated (base hp) = false /\
  (no_srl (base hp) = true -> sent1_tokens_tags (base hp) = None) /\
  (exists max_prefix_length,
     c !! "max_prefix_length" = Some max_prefix_length /\
     init_context_size (base hp) = max_prefix_length + 1) /\
  len (roberta_sentence hp) = 502.
Proof.
  unfold HPInstance_init. intros H.
  bind_split H as mp Hmp. bind_split H as st Hst. destruct st as [s1 tags].
  bind_split H as s2 Hs2. bind_split H as rs Hrs. injection H as <-.
  apply getitem_Ok in Hmp.
  cbn [base roberta_sentence]. attrs. unfold no_srl. attrs.
  split; [reflexivity|]. split; [reflexivity|]. split; [reflexivity|].
  split; [|split; [now exists mp|]].
  - intros Hmode. unfold decide_sent1_tokens in Hst. rewrite Hmode in Hst.
    now injection Hst as _ <-.
  - destruct (roberta_array (d_roberta_sentence d)) as [ids|e] eqn:Hids.
    + destruct (roberta_normalise ids) as (out & Hn & Hlen & _).
      unfold preprocess_roberta in Hrs. rewrite Hids in Hrs.
      cbn [mbind result_bind] in Hrs. rewrite Hn in Hrs.
      cbn [mbind result_bind] in Hrs. rewrite Hlen, Z.eqb_refl in Hrs.
      cbn [mbind result_bind py_assert] in Hrs. injection Hrs as <-. exact Hlen.
    + unfold preprocess_roberta in Hrs. rewrite Hids in Hrs. discriminate Hrs.
Qed.

(** * Further properties *)

(** ** Padding *)

(** X1.  [left_padding] and [right_padding] return exactly when the data is
    no longer than the total length; the result then has the total length,
    holds the data at its end (resp. start) and the pad value everywhere
    else.  Longer data raises [ValueError]. *)
Theorem padding_outcome (data : list Z) (pad total : Z) :
  (len data <= total ->
     exists l r,
       left_padding data pad total = Ok l /\ right_padding data pad total = Ok r /\
       len l = total /\ len r = total /\
       drop (Z.to_nat (total - len data)) l = data /\
       take (length data) r = data /\
       (forall i, (i < Z.to_nat (total - len data))%nat -> l !! i = Some pad) /\
       (forall i, (length data <= i < Z.to_nat total)%nat -> r !! i = Some pad)) /\
  (total < len data ->
     left_padding data pad total = Raise ValueError /\
     right_padding data pad total = Raise ValueError).
Proof.
  split.
  - intros Hfit.
    exists (replicate (Z.to_nat (total - len data)) pad ++ data),
           (data ++ replicate (Z.to_nat (total - len data)) pad).
    assert (El : left_padding data pad total
                 = Ok (replicate (Z.to_nat (total - len data)) pad ++ data))
      by (apply left_padding_Ok; auto).
    assert (Er : right_padding data pad total
                 = Ok (data ++ replicate (Z.to_nat (total - len data)) pad))
      by (apply right_padding_Ok; auto).
    split; [exact El|]. split; [exact Er|].
    split; [exact (left_padding_len _ _ _ _ El)|].
    split; [exact (right_padding_len _ _ _ _ Er)|].
    split; [apply drop_app_length'; now rewrite length_replicate|].
    split; [now rewrite take_app_length|]. split.
    + intros i Hi. rewrite lookup_app_l by (now rewrite length_replicate).
      now apply lookup_replicate_2.
    + intros i Hi. rewrite lookup_app_r by lia.
      apply lookup_replicate_2. unfold len in *. lia.
  - intros Hlong. unfold left_padding, right_padding, np_pad.
    rewrite (proj2 (Z.ltb_lt (total - len data) 0)) by lia.
    rewrite orb_true_r. split; reflexivity.
Qed.

(** ** Truncation, once more *)

Lemma truncated_take {A : Type} (l : list A) (limit : Z) :
  0 <= limit ->
  (if len l >? limit then slice_to l limit else l) = take (Z.to_nat limit) l.
Proof.
  intros H. rewrite slice_to_nonneg by exact H.
  destruct (Z.gtb_spec (len l) limit) as [L|L]; [reflexivity|].
  symmetry. apply take_ge. unfold len in L. lia.
Qed.

(** X2.  With limits that are not negative, [truncate] leaves both arrays
    within their limits, and truncating the result again changes nothing. *)
Theorem truncate_idempotent (self self1 : Instance)
    (max_prefix_length max_suffix_length : Z) :
  config self !! "max_prefix_length" = Some max_prefix_length ->
  config self !! "max_suffix_length" = Some max_suffix_length ->
  0 <= max_prefix_length ->
  0 <= max_suffix_length ->
  truncate self = Ok self1 ->
  len (sent1_tokens self1) <= max_prefix_length /\
  len (sent2_tokens self1) <= max_suffix_length /\
  truncate self1 = Ok self1.
Proof.
  intros Hmp Hms Hmp0 Hms0 Htr.
  apply truncate_inv in Htr as (mp & ms & Hmp' & Hms' & T1 & T2 & _ & Tc & _).
  assert (mp = max_prefix_length) by congruence.
  assert (ms = max_suffix_length) by congruence. subst mp ms.
  assert (L1 : len (sent1_tokens self1) <= max_prefix_length)
    by (rewrite T1, len_truncated by assumption; lia).
  assert (L2 : len (sent2_tokens self1) <= max_suffix_length)
    by (rewrite T2, len_truncated by assumption; lia).
  split; [exact L1|]. split; [exact L2|].
  unfold truncate, getitem. rewrite Tc, Hmp, Hms. cbn [mbind result_bind].
  destruct (Z.gtb_spec (len (sent1_tokens self1)) max_prefix_length); [lia|].
  destruct (Z.gtb_spec (len (sent2_tokens self1)) max_suffix_length); [lia|].
  reflexivity.
Qed.

Lemma truncate_idempotent_witness :
  exists self1,
    truncate demo_instance = Ok self1 /\
    len (sent1_tokens self1) <= 2 /\ len (sent2_tokens self1) <= 3 /\
    truncate self1 = Ok self1.
Proof.
  destruct (truncate demo_instance) as [self1|e] eqn:Htr;
    [|vm_compute in Htr; discriminate Htr].
  exists self1. split; [reflexivity|].
  apply (truncate_idempotent demo_instance self1 2 3);
    [reflexivity | reflexivity | lia | lia | exact Htr].
Defined.

(** ** The arrays [preprocess] builds *)

(** What [build_sentence] stores, in terms of the arrays it reads. *)
Lemma build_sentence_content (tokenizer : Tokenizer) (self self' : Instance) :
  build_sentence tokenizer self = Ok self' ->
  exists p max_suffix_length,
    config self !! "max_suffix_length" = Some max_suffix_length /\
    len (sent2_tokens self) <= max_suffix_length /\
    (if no_srl self then p = []
     else exists max_prefix_length,
         config self !! "max_prefix_length" = Some max_prefix_length /\
         len (sent1_tokens self) <= max_prefix_length /\
         p = replicate (Z.to_nat (max_prefix_length - len (sent1_tokens self)))
               (pad_token_id tokenizer) ++ sent1_tokens self) /\
    self' = set_sentence p
              ((sent2_tokens self ++ [eos_token_id tokenizer])
                 ++ replicate (Z.to_nat (max_suffix_length - len (sent2_tokens self)))
                      (pad_token_id tokenizer))
              (p ++ [bos_token_id tokenizer]
                 ++ (sent2_tokens self ++ [eos_token_id tokenizer])
                 ++ replicate (Z.to_nat (max_suffix_length - len (sent2_tokens self)))
                      (pad_token_id tokenizer))
              self.
Proof.
  unfold build_sentence, no_srl. intros H.
  bind_split H as p Hp. bind_split H as ms Hms. bind_split H as s Hs.
  injection H as <-. apply getitem_Ok in Hms.
  apply right_padding_Ok in Hs as [Ls ->].
  rewrite len_app in Ls. unfold len in Ls at 2. cbn [length] in Ls.
  assert (Hk : Z.to_nat (ms + 1 - len (sent2_tokens self ++ [eos_token_id tokenizer]))
               = Z.to_nat (ms - len (sent2_tokens self))).
  { rewrite len_app. unfold len at 2. cbn [length]. lia. }
  rewrite Hk. exists p, ms. split; [exact Hms|]. split; [lia|].
  split; [|reflexivity].
  destruct (endswith "_no_srl_input" _).
  - now injection Hp as <-.
  - bind_split Hp as mp Hmp. apply getitem_Ok in Hmp.
    apply left_padding_Ok in Hp as [Lp ->]. exists mp. auto.
Qed.

(** What [build_label] stores. *)
Lemma build_label_content (tokenizer : Tokenizer) (self self' : Instance) :
  build_label tokenizer self = Ok self' ->
  exists dense_length max_suffix_length p,
    dense_length_of (config self) = Ok dense_length /\
    config self !! "max_suffix_length" = Some max_suffix_length /\
    sent_prefix self = Some p /\
    len (sent2_tokens self) <= max_suffix_length /\
    label self' =
      Some (replicate (Z.to_nat dense_length + length p + 1) (-1)
              ++ (sent2_tokens self ++ [eos_token_id tokenizer])
              ++ replicate (Z.to_nat (max_suffix_length - len (sent2_tokens self))) (-1)) /\
    sentence self' = sentence self /\ segment self' = segment self /\
    config self' = config self.
Proof.
  unfold build_label. intros H.
  bind_split H as dense Hd. bind_split H as ms Hms. bind_split H as ls Hls.
  bind_split H as p Hp. injection H as <-. apply getitem_Ok in Hms.
  destruct (sent_prefix self) as [p'|]; [|discriminate Hp]. injection Hp as ->.
  apply right_padding_Ok in Hls as [Ls ->].
  rewrite len_app in Ls. unfold len in Ls at 2. cbn [length] in Ls.
  assert (Hk : Z.to_nat (ms + 1 - len (sent2_tokens self ++ [eos_token_id tokenizer]))
               = Z.to_nat (ms - len (sent2_tokens self))).
  { rewrite len_app. unfold len at 2. cbn [length]. lia. }
  exists dense, ms, p. attrs.
  split; [exact Hd|]. split; [exact Hms|]. split; [reflexivity|]. split; [lia|].
  split; [|auto]. rewrite Hk. f_equal. cbn [app].
  apply label_layout.
Qed.

(** X3.  In a mode with neither marker and with a prefix, a successful
    [preprocess] draws nothing from the generator and leaves as sentence the
    pad ids, the first [max_prefix_length] ids of [sent1_tokens], the bos id,
    the first [max_suffix_length] ids of [sent2_tokens], the eos id, and pad
    ids up to the fixed length. *)
Theorem preprocess_sentence_content (tokenizer : Tokenizer) (self self' : Instance)
    (g g' : RandomState) (max_prefix_length max_suffix_length : Z) :
  config self !! "max_prefix_length" = Some max_prefix_length ->
  config self !! "max_suffix_length" = Some max_suffix_length ->
  may_swap self = false ->
  no_srl self = false ->
  preprocess tokenizer self g = Ok (self', g') ->
  g' = g /\
  0 <= max_prefix_length /\ 0 <= max_suffix_length /\
  sent1_tokens self' = take (Z.to_nat max_prefix_length) (sent1_tokens self) /\
  sent2_tokens self' = take (Z.to_nat max_suffix_length) (sent2_tokens self) /\
  sentence self' =
    Some (replicate (Z.to_nat (max_prefix_length - len (sent1_tokens self')))
            (pad_token_id tokenizer)
          ++ sent1_tokens self' ++ [bos_token_id tokenizer]
          ++ sent2_tokens self' ++ [eos_token_id tokenizer]
          ++ replicate (Z.to_nat (max_suffix_length - len (sent2_tokens self')))
               (pad_token_id tokenizer)).
Proof.
  intros Hmp Hms Hswap Hmode Hpre.
  apply preprocess_inv in Hpre
    as (self1 & self2 & p & s & ls & l & sg & Htr & Hsh & Hbs & _ & -> & _).
  pose proof Htr as Htr'.
  apply truncate_inv in Htr' as (mp & ms & Hmp' & Hms' & T1 & T2 & Ta & Tc & _).
  assert (mp = max_prefix_length) by congruence.
  assert (ms = max_suffix_length) by congruence. subst mp ms.
  assert (Hno : self2 = self1 /\ g' = g).
  { unfold may_swap in Hswap. apply orb_false_iff in Hswap as [Hs Hr].
    unfold shuffle_prefix_suffix in Hsh. rewrite Ta, Hs, Hr in Hsh.
    now injection Hsh as <- <-. }
  destruct Hno as [-> ->].
  apply build_sentence_content in Hbs
    as (p' & ms & Hms2 & Ls2 & Hp' & Heq).
  unfold no_srl in Hp', Hmode. rewrite Ta, Hmode in Hp'.
  destruct Hp' as (mp & Hmp2 & Ls1 & ->).
  rewrite Tc in Hmp2, Hms2.
  assert (mp = max_prefix_length) by congruence.
  assert (ms = max_suffix_length) by congruence. subst mp ms.
  pose proof (len_nonneg (sent1_tokens self1)).
  pose proof (len_nonneg (sent2_tokens self1)).
  assert (Hmp0 : 0 <= max_prefix_length) by lia.
  assert (Hms0 : 0 <= max_suffix_length) by lia.
  rewrite truncated_take in T1, T2 by assumption.
  attrs. split; [reflexivity|]. split; [exact Hmp0|]. split; [exact Hms0|].
  split; [exact T1|]. split; [exact T2|].
  apply (f_equal sentence) in Heq. attrs. rewrite Heq.
  rewrite <- !app_assoc. reflexivity.
Qed.

Lemma preprocess_sentence_content_witness :
  exists self',
    preprocess demo_tokenizer demo_instance high_draws = Ok (self', high_draws) /\
    sentence self' = Some [11; 12; 1; 21; 22; 2; 0].
Proof.
  destruct (preprocess demo_tokenizer demo_instance high_draws)
    as [[self' g']|e] eqn:Hpre; [|vm_compute in Hpre; discriminate Hpre].
  destruct (preprocess_sentence_content demo_tokenizer demo_instance self'
              high_draws g' 2 3) as (-> & _ & _ & T1 & T2 & Hs);
    [reflexivity | reflexivity | reflexivity | reflexivity | exact Hpre |].
  exists self'. split; [reflexivity|].
  rewrite Hs, T1, T2. reflexivity.
Defined.

(** Every step of a successful [preprocess], with the instance it returned. *)
Lemma preprocess_steps (tokenizer : Tokenizer) (self self' : Instance)
    (g g' : RandomState) :
  preprocess tokenizer self g = Ok (self', g') ->
  exists self1 self2 self3 self4,
    truncate self = Ok self1 /\
    shuffle_prefix_suffix self1 g = (self2, g') /\
    build_sentence tokenizer self2 = Ok self3 /\
    build_label tokenizer self3 = Ok self4 /\
    build_segment tokenizer self4 = Ok self' /\
    check_constraints self' = Ok tt.
Proof.
  unfold preprocess. intros H. bind_split H as self1 Htr.
  destruct (shuffle_prefix_suffix self1 g) as [self2 g2] eqn:Hsh.
  bind_split H as self3 Hbs. bind_split H as self4 Hbl.
  bind_split H as self5 Hsg. bind_split H as u Hck. injection H as <- <-.
  destruct u. exists self1, self2, self3, self4. repeat split; assumption.
Qed.

(** X4.  After a successful [preprocess] the label, read past its dense
    slots, agrees with the sentence at every position it does not mask: a
    label entry other than -1 is the sentence id at the same position, and
    the dense slots are all -1. *)
Theorem label_matches_sentence (tokenizer : Tokenizer) (self self' : Instance)
    (g g' : RandomState) :
  preprocess tokenizer self g = Ok (self', g') ->
  exists dense_length s l,
    dense_length_of (config self) = Ok dense_length /\
    sentence self' = Some s /\ label self' = Some l /\
    (forall i, (i < Z.to_nat dense_length)%nat -> l !! i = Some (-1)) /\
    (forall i v, l !! (Z.to_nat dense_length + i)%nat = Some v -> v <> -1 ->
                 s !! i = Some v).
Proof.
  intros (self1 & self2 & self3 & self4 & Htr & Hsh & Hbs & Hbl & Hsg & _)%preprocess_steps.
  destruct (truncate_shuffle_fields _ _ _ _ _ Htr Hsh) as (_ & C2 & _).
  apply build_sentence_content in Hbs as (p & ms & Hms & Ls & _ & ->).
  apply build_label_content in Hbl
    as (dense & ms' & p' & Hd & Hms' & Hp' & _ & Hl & Hs & _).
  apply build_segment_fields in Hsg as (sg & ->).
  attrs. injection Hp' as <-. assert (ms' = ms) by congruence. subst ms'.
  rewrite C2 in Hd. eexists dense, _, _.
  split; [exact Hd|]. split; [exact Hs|]. split; [exact Hl|]. split.
  - intros i Hi. rewrite lookup_app_l by (rewrite length_replicate; lia).
    apply lookup_replicate_2. lia.
  - intros i v Hv Hne.
    destruct (Nat.lt_ge_cases i (length p + 1)) as [Hi|Hi].
    + rewrite lookup_app_l in Hv by (rewrite length_replicate; lia).
      apply lookup_replicate_1 in Hv as [-> _]. contradiction.
    + rewrite lookup_app_r in Hv by (rewrite length_replicate; lia).
      rewrite length_replicate in Hv.
      replace (Z.to_nat dense + i - (Z.to_nat dense + length p + 1))%nat
        with (i - (length p + 1))%nat in Hv by lia.
      rewrite app_assoc, lookup_app_r by (rewrite length_app; cbn [length]; lia).
      rewrite length_app. cbn [length].
      set (j := (i - (length p + 1))%nat) in *.
      set (body := sent2_tokens self2 ++ [eos_token_id tokenizer]) in *.
      destruct (Nat.lt_ge_cases j (length body)) as [Hj|Hj].
      * rewrite lookup_app_l in Hv by exact Hj. rewrite lookup_app_l by exact Hj.
        exact Hv.
      * rewrite lookup_app_r in Hv by exact Hj.
        apply lookup_replicate_1 in Hv as [-> _]. contradiction.
Qed.

Lemma label_matches_sentence_witness :
  exists s l,
    (fun r => (sentence r.1, label r.1))
      <$> preprocess demo_tokenizer demo_instance high_draws = Ok (Some s, Some l) /\
    (forall i v, l !! (2 + i)%nat = Some v -> v <> -1 -> s !! i = Some v).
Proof.
  destruct (preprocess demo_tokenizer demo_instance high_draws)
    as [[self' g']|e] eqn:Hpre; [|vm_compute in Hpre; discriminate Hpre].
  destruct (label_matches_sentence demo_tokenizer demo_instance self'
              high_draws g' Hpre) as (dense & s & l & Hd & Hs & Hl & _ & Hal).
  vm_compute in Hd. injection Hd as <-.
  exists s, l. cbn [fmap result_fmap fst]. rewrite Hs, Hl.
  split; [reflexivity | exact Hal].
Defined.

Lemma comprehension_content {A : Type} (n : nat) (e : result A) (r : list A) :
  comprehension n e = Ok r ->
  length r = n /\ Forall (fun x => e = Ok x) r.
Proof.
  destruct n; cbn [comprehension].
  - intros [= <-]. split; [reflexivity | constructor].
  - intros H. bind_split H as v Hv. injection H as <-.
    split; [apply (length_replicate (S n))|].
    rewrite Hv. apply (Forall_replicate _ (S n)). reflexivity.
Qed.

Lemma index_at_lookup {A : Type} (l : list A) (i : nat) (v : A) :
  index_at l i = Ok v <-> l !! i = Some v.
Proof. unfold index_at. destruct (l !! i); split; congruence. Qed.

(** X5.  The segment [build_segment] stores is: one first special id per
    dense slot; then, without tags, one second special id per prefix
    position and the third special id for the separator and every suffix
    position; with tags, the tag ids left-padded to [max_prefix_length] and
    the second special id for the separator and every suffix position. *)
Theorem build_segment_layout (tokenizer : Tokenizer) (self self' : Instance) :
  build_segment tokenizer self = Ok self' ->
  exists dense_length dense_part prefix_part tag s,
    dense_length_of (config self) = Ok dense_length /\
    sent_suffix self = Some s /\
    segment self' =
      Some (dense_part ++ prefix_part ++ replicate (length s + 1) tag) /\
    length dense_part = Z.to_nat dense_length /\
    Forall (fun x => additional_special_tokens_ids tokenizer !! 0%nat = Some x)
      dense_part /\
    match sent1_tokens_tags self with
    | Some tags =>
        exists max_prefix_length,
          config self !! "max_prefix_length" = Some max_prefix_length /\
          prefix_part =
            replicate (Z.to_nat (max_prefix_length - len tags)) (pad_token_id tokenizer)
              ++ convert_tokens_to_ids tokenizer tags /\
          additional_special_tokens_ids tokenizer !! 1%nat = Some tag
    | None =>
        exists p,
          sent_prefix self = Some p /\ length prefix_part = length p /\
          Forall (fun x => additional_special_tokens_ids tokenizer !! 1%nat = Some x)
            prefix_part /\
          additional_special_tokens_ids tokenizer !! 2%nat = Some tag
    end.
Proof.
  unfold build_segment. intros H.
  bind_split H as dense Hd. bind_split H as pt Hpt. destruct pt as [ps t].
  bind_split H as ds Hds. bind_split H as s Hs. injection H as <-.
  destruct (sent_suffix self) as [s'|]; [|discriminate Hs]. injection Hs as ->.
  apply comprehension_content in Hds as [Lds Fds].
  exists dense, ds, ps, t, s. attrs.
  split; [exact Hd|]. split; [reflexivity|]. split.
  { do 3 f_equal. rewrite Nat.add_1_r. reflexivity. }
  split; [exact Lds|]. split.
  { eapply Forall_impl; [exact Fds|]. intros x Hx. now apply index_at_lookup. }
  destruct (sent1_tokens_tags self) as [tags|].
  - bind_split Hpt as mp Hmp. bind_split Hpt as ps' Hps. bind_split Hpt as t' Ht.
    injection Hpt as -> ->. apply getitem_Ok in Hmp.
    apply left_padding_Ok in Hps as [_ ->]. apply index_at_lookup in Ht.
    exists mp. split; [exact Hmp|]. split; [|exact Ht].
    unfold convert_tokens_to_ids, len. now rewrite length_map.
  - bind_split Hpt as p Hp. bind_split Hpt as ps' Hps. bind_split Hpt as t' Ht.
    injection Hpt as -> ->.
    destruct (sent_prefix self) as [p'|]; [|discriminate Hp]. injection Hp as ->.
    apply comprehension_content in Hps as [Lps Fps]. apply index_at_lookup in Ht.
    exists p. split; [reflexivity|]. split; [exact Lps|]. split; [|exact Ht].
    eapply Forall_impl; [exact Fps|]. intros x Hx. now apply index_at_lookup.
Qed.

Lemma build_segment_layout_witness :
  exists self',
    build_segment demo_tokenizer sentence_built = Ok self' /\
    segment self' = Some ([3; 3] ++ [4; 4] ++ replicate 5 5).
Proof.
  destruct (build_segment demo_tokenizer sentence_built) as [self'|e] eqn:Hsg;
    [|vm_compute in Hsg; discriminate Hsg].
  destruct (build_segment_layout demo_tokenizer sentence_built self' Hsg)
    as (dense & dp & pp & tag & s & Hd & Hs & Hseg & Ldp & Fdp & Hrest).
  exists self'. split; [reflexivity|]. rewrite Hseg.
  vm_compute in Hd. injection Hd as <-. injection Hs as <-.
  cbn [sentence_built sent1_tokens_tags] in Hrest.
  destruct Hrest as (p & [= <-] & Lpp & Fpp & Htag).
  injection Htag as <-.
  destruct dp as [|a [|b [|c dp]]]; try discriminate Ldp.
  destruct pp as [|a' [|b' [|c' pp]]]; try discriminate Lpp.
  apply Forall_cons in Fdp as [[= <-] Fdp]. apply Forall_cons in Fdp as [[= <-] _].
  apply Forall_cons in Fpp as [[= <-] Fpp]. apply Forall_cons in Fpp as [[= <-] _].
  reflexivity.
Defined.

(** ** Failures of [preprocess] *)

(** X6.  Under the reverse marker (no shuffle marker, a prefix in use, limits
    not negative) [preprocess] raises [ValueError] from [np.pad] whenever a
    truncated array does not fit the other array's limit. *)
Theorem preprocess_reverse_limits (tokenizer : Tokenizer) (self : Instance)
    (g : RandomState) (max_prefix_length max_suffix_length : Z) :
  config self !! "max_prefix_length" = Some max_prefix_length ->
  config self !! "max_suffix_length" = Some max_suffix_length ->
  0 <= max_prefix_length ->
  0 <= max_suffix_length ->
  contains "_reverse_" (context_input_type (args self)) = true ->
  contains "_shuffle_" (context_input_type (args self)) = false ->
  no_srl self = false ->
  max_prefix_length < Z.min (len (sent2_tokens self)) max_suffix_length \/
  max_suffix_length < Z.min (len (sent1_tokens self)) max_prefix_length ->
  preprocess tokenizer self g = Raise ValueError.
Proof.
  intros Hmp Hms Hmp0 Hms0 Hrev Hshuf Hmode Hbad.
  destruct (truncate_fields self _ _ Hmp Hms)
    as (self1 & Htr & T1 & T2 & _ & Ta & Tc & _).
  pose proof (len_truncated (sent1_tokens self) _ Hmp0) as L1.
  pose proof (len_truncated (sent2_tokens self) _ Hms0) as L2.
  rewrite <- T1 in L1. rewrite <- T2 in L2.
  unfold preprocess. rewrite Htr. cbn [mbind result_bind].
  unfold shuffle_prefix_suffix. rewrite Ta, Hshuf, Hrev.
  unfold build_sentence. attrs. unfold no_srl in Hmode. rewrite Ta, Hmode, Tc.
  unfold getitem. rewrite Hmp, Hms. cbn [mbind result_bind].
  destruct (left_padding (sent2_tokens self1) (pad_token_id tokenizer)
              max_prefix_length) as [p|e] eqn:Hp.
  - apply left_padding_Ok in Hp as [Lp _]. cbn [mbind result_bind].
    destruct (right_padding (sent1_tokens self1 ++ [eos_token_id tokenizer])
                (pad_token_id tokenizer) (max_suffix_length + 1)) as [s|e] eqn:Hs.
    + apply right_padding_Ok in Hs as [Ls _]. rewrite len_app in Ls.
      unfold len in Ls at 2. cbn [length] in Ls. lia.
    + unfold right_padding, np_pad in Hs.
      destruct (_ || _); [injection Hs as <-; reflexivity | discriminate Hs].
  - unfold left_padding, np_pad in Hp.
    destruct (_ || _); [injection Hp as <-; reflexivity | discriminate Hp].
Qed.

Lemma preprocess_reverse_limits_witness :
  preprocess demo_tokenizer
    {| args := {| context_input_type := "srl_reverse_input";
                  global_dense_feature_list := "a,b";
                  content_aggregation := 1000; upper_length := "eos" |};
       config := demo_config; truncated := false;
       sent1_tokens := [11]; sent1_tokens_tags := None;
       sent2_tokens := [21; 22; 23]; init_context_size := 3;
       sent_prefix := None; sent_suffix := None; sentence := None;
       label_suffix := None; label := None; segment := None |} high_draws
  = Raise ValueError.
Proof.
  apply (preprocess_reverse_limits _ _ _ 2 3);
    [reflexivity | reflexivity | lia | lia | reflexivity | reflexivity
    | reflexivity | left; vm_compute; reflexivity].
Defined.

(** X7.  On a configuration that lacks one of the two dense lengths, which
    [update_config] writes, [preprocess] never returns. *)
Theorem preprocess_needs_update_config (tokenizer : Tokenizer) (self : Instance)
    (g : RandomState) :
  config self !! "global_dense_length" = None \/
  config self !! "roberta_dense_length" = None ->
  forall out, preprocess tokenizer self g <> Ok out.
Proof.
  intros Hmissing [self' g'] Hpre.
  apply preprocess_steps in Hpre
    as (self1 & self2 & self3 & self4 & Htr & Hsh & Hbs & Hbl & _).
  destruct (truncate_shuffle_fields _ _ _ _ _ Htr Hsh) as (_ & C2 & _).
  apply build_sentence_content in Hbs as (p & ms & _ & _ & _ & ->).
  apply build_label_content in Hbl as (dense & _ & _ & Hd & _).
  attrs. rewrite C2 in Hd. unfold dense_length_of, getitem in Hd.
  destruct Hmissing as [H|H]; rewrite H in Hd.
  - discriminate Hd.
  - destruct (config self !! "global_dense_length"); discriminate Hd.
Qed.

Lemma preprocess_needs_update_config_witness :
  preprocess demo_tokenizer
    {| args := demo_args; config := dataset_config; truncated := false;
       sent1_tokens := [11]; sent1_tokens_tags := None;
       sent2_tokens := [21]; init_context_size := 3;
       sent_prefix := None; sent_suffix := None; sentence := None;
       label_suffix := None; label := None; segment := None |} high_draws
  <> Ok (demo_instance, high_draws).
Proof.
  apply preprocess_needs_update_config. left. reflexivity.
Defined.

(** ** update_config, once more *)

(** A successful [update_config], read backwards. *)
Lemma update_config_inv (a : Args) (c c' : gmap string Z) :
  update_config a c = Ok c' ->
  content_aggregation a <> 0 /\
  exists max_dense_length,
    c !! "max_dense_length" = Some max_dense_length /\
    global_dense_length_of a <= max_dense_length /\
    c' = <["roberta_dense_length" :=
             if content_aggregation a >? 502 then 0
             else multiples_upto_500 (content_aggregation a)]>
           (<["global_dense_length" := global_dense_length_of a]>
              (no_srl_config a c)).
Proof.
  intros H.
  destruct (Z.eq_dec (content_aggregation a) 0) as [Z0|NZ].
  { rewrite update_config_zero_stride in H by exact Z0. discriminate H. }
  split; [exact NZ|].
  destruct (c !! "max_dense_length") as [m|] eqn:Hm.
  2:{ unfold update_config in H. bind_split H as r Hr. bind_split H as m Hm'.
      apply getitem_Ok in Hm'. fold (no_srl_config a c) in Hm'.
      rewrite no_srl_config_dense, Hm in Hm'. discriminate Hm'. }
  rewrite (update_config_outcome a c m NZ Hm) in H.
  destruct (Z.leb_spec (global_dense_length_of a) m) as [L|L]; [|discriminate H].
  injection H as <-. exists m. auto.
Qed.

(** X8.  [update_config] is idempotent: run on its own result it returns that
    result again.  It changes no key but the two dense lengths and, in no-SRL
    mode, the prefix limit. *)
Theorem update_config_idempotent (a : Args) (c c' : gmap string Z) :
  update_config a c = Ok c' ->
  update_config a c' = Ok c' /\
  (forall k, k <> "global_dense_length" -> k <> "roberta_dense_length" ->
             k <> "max_prefix_length" -> c' !! k = c !! k) /\
  (endswith "_no_srl_input" (context_input_type a) = false ->
     c' !! "max_prefix_length" = c !! "max_prefix_length").
Proof.
  intros H. apply update_config_inv in H as (NZ & m & Hm & Hle & ->).
  set (r := if content_aggregation a >? 502 then 0
            else multiples_upto_500 (content_aggregation a)).
  split; [|split].
  - rewrite (update_config_outcome a _ m NZ).
    + rewrite (proj2 (Z.leb_le _ _) Hle). f_equal. fold r.
      apply map_eq. intros k. unfold no_srl_config.
      destruct (endswith "_no_srl_input" (context_input_type a));
        rewrite ?lookup_insert; repeat case_decide; reflexivity.
    + rewrite !lookup_insert_ne by key_ne. now rewrite no_srl_config_dense.
  - intros k H1 H2 H3. rewrite !lookup_insert_ne by congruence.
    unfold no_srl_config. destruct (endswith _ _); [|reflexivity].
    now rewrite lookup_insert_ne by congruence.
  - intros Hmode. rewrite !lookup_insert_ne by key_ne.
    unfold no_srl_config. now rewrite Hmode.
Qed.

Lemma update_config_idempotent_witness :
  update_config no_srl_args no_srl_config_updated = Ok no_srl_config_updated.
Proof.
  apply (update_config_idempotent no_srl_args dataset_config).
  rewrite (update_config_outcome _ _ 2); [reflexivity | discriminate | reflexivity].
Defined.

Lemma py_range_seqZ (n : Z) : py_range n = seqZ 0 n.
Proof.
  unfold py_range, seqZ. apply map_ext. intros i. lia.
Qed.

(** The multiples of a positive stride below [n] are the first
    [ceil(n / stride)] multiples. *)
Lemma multiples_below (stride : Z) (n : nat) :
  0 < stride ->
  filter (fun i => i mod stride = 0) (seqZ 0 (Z.of_nat n)) =
  (fun j => j * stride) <$> seqZ 0 ((Z.of_nat n + stride - 1) / stride).
Proof.
  intros Hs. induction n as [|n IH].
  - cbn [Z.of_nat]. rewrite Z.div_small by lia. reflexivity.
  - rewrite seqZ_S, filter_app, IH. clear IH.
    rewrite Z.add_0_l, filter_cons, filter_nil.
    pose proof (Z.div_mod (Z.of_nat n) stride ltac:(lia)) as Hdm.
    pose proof (Z.mod_pos_bound (Z.of_nat n) stride Hs) as Hb.
    assert (Hk : 0 <= Z.of_nat n / stride) by (apply Z.div_pos; lia).
    set (k := Z.of_nat n / stride) in *. set (r := Z.of_nat n mod stride) in *.
    clearbody k r.
    assert (Hq' : (Z.of_nat (S n) + stride - 1) / stride = k + 1).
    { symmetry. apply (Z.div_unique _ _ _ r); lia. }
    rewrite Hq'. destruct (decide (r = 0)) as [Hr|Hr].
    + assert (Hq : (Z.of_nat n + stride - 1) / stride = k).
      { symmetry. apply (Z.div_unique _ _ _ (stride - 1)); lia. }
      rewrite Hq. rewrite (seqZ_app 0 k 1) by lia. rewrite fmap_app. f_equal.
      rewrite Z.add_0_l, seqZ_cons, seqZ_nil by lia.
      cbn [fmap list_fmap]. f_equal. lia.
    + assert (Hq : (Z.of_nat n + stride - 1) / stride = k + 1).
      { symmetry. apply (Z.div_unique _ _ _ (r - 1)); lia. }
      rewrite Hq, app_nil_r. reflexivity.
Qed.

Lemma multiples_upto_500_closed (stride : Z) :
  0 < stride -> multiples_upto_500 stride = 500 / stride + 1.
Proof.
  intros Hs. unfold multiples_upto_500.
  change 501 with (Z.of_nat 501). rewrite (multiples_below stride 501 Hs).
  unfold len. rewrite length_fmap, length_seqZ.
  replace (Z.of_nat 501 + stride - 1) with (500 + 1 * stride) by lia.
  rewrite Z.div_add by lia.
  assert (0 <= 500 / stride) by (apply Z.div_pos; lia). lia.
Qed.

(** X9.  For a positive stride of at most 502 the [roberta_dense_length] that
    [update_config] stores is [500 // stride + 1]. *)
Theorem roberta_dense_length_closed_form (a : Args) (c c' : gmap string Z) :
  0 < content_aggregation a <= 502 ->
  update_config a c = Ok c' ->
  c' !! "roberta_dense_length" = Some (500 / content_aggregation a + 1).
Proof.
  intros Hs H. apply update_config_inv in H as (_ & m & _ & _ & ->).
  rewrite lookup_insert_eq. f_equal.
  destruct (Z.gtb_spec (content_aggregation a) 502) as [G|G]; [lia|].
  apply multiples_upto_500_closed. lia.
Qed.

Lemma roberta_dense_length_closed_form_witness :
  <["roberta_dense_length" := multiples_upto_500 7]>
    (<["global_dense_length" := 2]> dataset_config) !! "roberta_dense_length"
  = Some 72.
Proof.
  apply (roberta_dense_length_closed_form stride_7_args dataset_config).
  - cbn. lia.
  - rewrite (update_config_outcome _ _ 2); [reflexivity | discriminate | reflexivity].
Defined.

(** ** Content aggregation *)

Lemma py_index_inrange {A : Type} (l : list A) (i : Z) :
  0 <= i < len l ->
  exists v, py_index l i = Ok v /\ l !! Z.to_nat i = Some v.
Proof.
  intros Hi. unfold py_index.
  rewrite (proj2 (Z.ltb_ge i (- len l))) by lia.
  rewrite (proj2 (Z.leb_gt (len l) i)) by lia.
  rewrite (proj2 (Z.ltb_ge i 0)) by lia. cbn [orb].
  destruct (lookup_lt_is_Some_2 l (Z.to_nat i)) as (v & Hv);
    [unfold len in Hi; lia|].
  rewrite Hv. now exists v.
Qed.

(** Reading a row at indices that are all in range. *)
Lemma map_result_py_index {A : Type} (row : list A) (indices : list Z) :
  Forall (fun i => 0 <= i < len row) indices ->
  exists selected,
    map_result (py_index row) indices = Ok selected /\
    length selected = length indices /\
    forall j i, indices !! j = Some i -> selected !! j = row !! Z.to_nat i.
Proof.
  induction 1 as [|i indices Hi _ IH].
  - exists []. repeat split. intros j i Hj. discriminate Hj.
  - destruct IH as (sel & Hsel & Lsel & Hlook).
    destruct (py_index_inrange row i Hi) as (v & Hv & Hrow).
    exists (v :: sel). cbn [map_result]. rewrite Hv. cbn [mbind result_bind].
    rewrite Hsel. cbn [mbind result_bind]. split; [reflexivity|].
    split; [cbn [length]; now rewrite Lsel|].
    intros [|j] i' Hj.
    + injection Hj as <-. now rewrite Hrow.
    + apply (Hlook j i' Hj).
Qed.

Lemma map_result_rows {A B : Type} (f : A -> result B) (P : A -> B -> Prop)
    (l : list A) :
  Forall (fun x => exists y, f x = Ok y /\ P x y) l ->
  exists r, map_result f l = Ok r /\ Forall2 P l r.
Proof.
  induction 1 as [|x l (y & Hy & Py) _ (r & Hr & Pr)].
  - exists []. split; [reflexivity | constructor].
  - exists (y :: r). cbn [map_result]. rewrite Hy. cbn [mbind result_bind].
    rewrite Hr. split; [reflexivity | now constructor].
Qed.

(** The indices [aggregate_content_information] selects. *)
Lemma aggregate_indices (seq_len : nat) (stride : Z) :
  0 < stride ->
  filter_result (fun i => r ← py_mod i stride; Ok (r =? 0)) (py_range (Z.of_nat seq_len))
  = Ok ((fun j => j * stride) <$> seqZ 0 ((Z.of_nat seq_len + stride - 1) / stride)).
Proof.
  intros Hs. rewrite filter_result_mod by lia.
  now rewrite py_range_seqZ, (multiples_below stride seq_len Hs).
Qed.

(** What the selection keeps of one row. *)
Lemma aggregate_row {V : Type} (row : list V) (stride : Z) :
  0 < stride ->
  exists selected,
    map_result (py_index row)
      ((fun j => j * stride) <$> seqZ 0 ((Z.of_nat (length row) + stride - 1) / stride))
      = Ok selected /\
    len selected = (Z.of_nat (length row) + stride - 1) / stride /\
    forall j, (j < length selected)%nat ->
              selected !! j = row !! (j * Z.to_nat stride)%nat.
Proof.
  intros Hs.
  set (q := (Z.of_nat (length row) + stride - 1) / stride).
  assert (Hq0 : 0 <= q) by (apply Z.div_pos; lia).
  assert (Hq : q * stride <= Z.of_nat (length row) + stride - 1).
  { rewrite Z.mul_comm. apply Z.mul_div_le. exact Hs. }
  destruct (map_result_py_index row ((fun j => j * stride) <$> seqZ 0 q))
    as (sel & Hsel & Lsel & Hlook).
  { apply Forall_fmap, Forall_forall. intros j Hj%elem_of_seqZ. cbn.
    unfold len. nia. }
  exists sel. split; [exact Hsel|].
  rewrite length_fmap, length_seqZ in Lsel. split.
  - unfold len. lia.
  - intros j Hj.
    rewrite (Hlook j (Z.of_nat j * stride)).
    + f_equal. rewrite Z2Nat.inj_mul by lia. now rewrite Nat2Z.id.
    + rewrite list_lookup_fmap, lookup_seqZ_lt by lia. cbn. f_equal; lia.
Qed.

(** X10.  For a positive stride, [aggregate_content_information] keeps from
    every row of [seq_len] vectors the vectors at the indices 0, stride,
    2 * stride, ...: [ceil(seq_len / stride)] of them, in order. *)
Theorem aggregate_content_information_selects {V : Type} (seq_len : nat)
    (content_vectors : list (list V)) (stride : Z) :
  0 < stride ->
  Forall (fun row => length row = seq_len) content_vectors ->
  exists out,
    aggregate_content_information (Z.of_nat seq_len) content_vectors stride = Ok out /\
    Forall2
      (fun row selected =>
         len selected = (Z.of_nat seq_len + stride - 1) / stride /\
         forall j, (j < length selected)%nat ->
                   selected !! j = row !! (j * Z.to_nat stride)%nat)
      content_vectors out.
Proof.
  intros Hs Hrows. unfold aggregate_content_information.
  rewrite (aggregate_indices seq_len stride Hs). cbn [mbind result_bind].
  apply map_result_rows.
  eapply Forall_impl; [exact Hrows|]. intros row Hrow. cbn beta in Hrow.
  subst seq_len. exact (aggregate_row row stride Hs).
Qed.

Lemma aggregate_content_information_selects_witness :
  exists out,
    aggregate_content_information 5 [["a"; "b"; "c"; "d"; "e"]] 2 = Ok out /\
    Forall2 (fun row selected =>
               len selected = 3 /\
               forall j, (j < length selected)%nat ->
                         selected !! j = row !! (j * 2)%nat)
      [["a"; "b"; "c"; "d"; "e"]] out.
Proof.
  apply (aggregate_content_information_selects 5 [["a"; "b"; "c"; "d"; "e"]] 2).
  - lia.
  - repeat constructor.
Defined.

(** X11.  On rows of 501 vectors and a positive stride, every aggregated row
    holds [500 // stride + 1] vectors.  The [roberta_dense_length] of
    [update_config] is that number up to a stride of 502, and 0 beyond,
    where one vector (index 0) is still selected. *)
Theorem aggregate_matches_roberta_dense_length {V : Type} (a : Args)
    (c c' : gmap string Z) (content_vectors : list (list V)) :
  0 < content_aggregation a ->
  update_config a c = Ok c' ->
  Forall (fun row => length row = 501%nat) content_vectors ->
  exists out,
    aggregate_content_information 501 content_vectors (content_aggregation a) = Ok out /\
    Forall (fun selected => len selected = 500 / content_aggregation a + 1) out /\
    c' !! "roberta_dense_length" =
      Some (if content_aggregation a >? 502 then 0
            else 500 / content_aggregation a + 1) /\
    (502 < content_aggregation a -> Forall (fun selected => len selected = 1) out).
Proof.
  intros Hs Hup Hrows.
  assert (Hagg : exists out,
             aggregate_content_information (Z.of_nat 501) content_vectors
               (content_aggregation a) = Ok out /\
             Forall2 (fun (row selected : list V) =>
                        len selected
                        = (Z.of_nat 501 + content_aggregation a - 1)
                          / content_aggregation a)
               content_vectors out).
  { unfold aggregate_content_information.
    rewrite (aggregate_indices 501 (content_aggregation a) Hs).
    cbn [mbind result_bind]. apply map_result_rows.
    eapply Forall_impl; [exact Hrows|]. intros row Hrow. cbn beta in Hrow.
    destruct (aggregate_row row (content_aggregation a) Hs) as (sel & Hsel & L & _).
    rewrite Hrow in Hsel, L. now exists sel. }
  destruct Hagg as (out & Hout & Hsel).
  assert (Hq : (Z.of_nat 501 + content_aggregation a - 1) / content_aggregation a
               = 500 / content_aggregation a + 1).
  { replace (Z.of_nat 501 + content_aggregation a - 1)
      with (500 + 1 * content_aggregation a) by lia.
    apply Z.div_add. lia. }
  assert (Hlen : Forall (fun selected => len selected = 500 / content_aggregation a + 1)
                   out).
  { apply Forall2_Forall_r with (1 := Hsel). apply Forall_true.
    intros row selected L. now rewrite L. }
  exists out. split; [exact Hout|]. split; [exact Hlen|]. split.
  - apply update_config_inv in Hup as (_ & m & _ & _ & ->).
    rewrite lookup_insert_eq. f_equal.
    destruct (content_aggregation a >? 502); [reflexivity|].
    now apply multiples_upto_500_closed.
  - intros Hbig. eapply Forall_impl; [exact Hlen|]. intros selected ->.
    rewrite Z.div_small by lia. reflexivity.
Qed.

Lemma aggregate_matches_roberta_dense_length_witness :
  exists out,
    aggregate_content_information 501 [replicate 501 tt] 7 = Ok out /\
    Forall (fun selected => len selected = 72) out.
Proof.
  destruct (aggregate_matches_roberta_dense_length stride_7_args dataset_config
              (<["roberta_dense_length" := multiples_upto_500 7]>
                 (<["global_dense_length" := 2]> dataset_config))
              [replicate 501 tt]) as (out & Hout & Hlen & _).
  - cbn. lia.
  - rewrite (update_config_outcome _ _ 2); [reflexivity | discriminate | reflexivity].
  - constructor; [apply length_replicate | constructor].
  - exists out. split; [exact Hout | exact Hlen].
Defined.

(** ** The number of dense features *)

Lemma split_on_length (sep : ascii) (s : string) :
  length (split_on sep s) = S (count_char sep s).
Proof.
  induction s as [|c s IH]; [reflexivity|].
  cbn [split_on count_char]. destruct (Ascii.eqb c sep).
  - cbn [length]. now rewrite IH.
  - destruct (split_on sep s) as [|w ws]; [discriminate IH | exact IH].
Qed.

(** X12.  The [global_dense_length] that [update_config] stores is 0 for the
    feature list ["none"] and otherwise one more than the number of commas in
    the list; so an empty list string counts as one feature. *)
Theorem global_dense_length_counts_commas (a : Args) (c c' : gmap string Z) :
  update_config a c = Ok c' ->
  c' !! "global_dense_length" =
    Some (if String.eqb (global_dense_feature_list a) "none" then 0
          else Z.of_nat (count_char ","%char (global_dense_feature_list a)) + 1) /\
  (global_dense_feature_list a = "" -> c' !! "global_dense_length" = Some 1).
Proof.
  intros H. apply update_config_inv in H as (_ & m & _ & _ & ->).
  rewrite lookup_insert_ne by key_ne. rewrite lookup_insert_eq.
  assert (E : global_dense_length_of a =
              if String.eqb (global_dense_feature_list a) "none" then 0
              else Z.of_nat (count_char ","%char (global_dense_feature_list a)) + 1).
  { unfold global_dense_length_of.
    destruct (String.eqb (global_dense_feature_list a) "none"); [reflexivity|].
    cbn [negb]. unfold len. rewrite split_on_length. lia. }
  split; [now rewrite E|].
  intros Hempty. rewrite E, Hempty. reflexivity.
Qed.

Lemma global_dense_length_counts_commas_witness :
  <["roberta_dense_length" := multiples_upto_500 7]>
    (<["global_dense_length" := 2]> dataset_config) !! "global_dense_length"
  = Some 2.
Proof.
  apply (global_dense_length_counts_commas stride_7_args dataset_config).
  rewrite (update_config_outcome _ _ 2); [reflexivity | discriminate | reflexivity].
Defined.

(** ** Dataset filters *)

Lemma slice_to_prefix {A : Type} (l : list A) (n : Z) : slice_to l n `prefix_of` l.
Proof. unfold slice_to. destruct (0 <=? n); apply prefix_take. Qed.

(** X13.  [limit_dataset_size] returns a prefix of the dataset: the whole of
    it for [None] and for 0, its first [n] examples (all, when there are
    fewer) for a positive [n], and all but the last [-n] for a negative
    [n]. *)
Theorem limit_dataset_size_prefix {A : Type} (dataset : list A)
    (limit_examples : option Z) :
  limit_dataset_size dataset limit_examples `prefix_of` dataset /\
  (limit_examples = None \/ limit_examples = Some 0 ->
     limit_dataset_size dataset limit_examples = dataset) /\
  (forall n, limit_examples = Some n -> 0 < n ->
     limit_dataset_size dataset limit_examples = take (Z.to_nat n) dataset /\
     len (limit_dataset_size dataset limit_examples) = Z.min n (len dataset)) /\
  (forall n, limit_examples = Some n -> n < 0 ->
     len (limit_dataset_size dataset limit_examples) = Z.max 0 (len dataset + n)).
Proof.
  unfold limit_dataset_size. split; [|split; [|split]].
  - destruct limit_examples as [n|]; [|reflexivity].
    destruct (n =? 0); [reflexivity | apply slice_to_prefix].
  - intros [-> | ->]; reflexivity.
  - intros n -> Hn. rewrite (proj2 (Z.eqb_neq n 0)) by lia.
    rewrite slice_to_nonneg by lia. split; [reflexivity|].
    unfold len. rewrite length_take. lia.
  - intros n -> Hn. rewrite (proj2 (Z.eqb_neq n 0)) by lia.
    unfold slice_to. rewrite (proj2 (Z.leb_gt 0 n)) by lia.
    unfold len. rewrite length_take. lia.
Qed.



(** X15.  When the filter applies (split ["train"] or ["test"], -1 not
    requested), a requested author without a name in
    [reverse_author_target_dict] makes [limit_authors] raise [KeyError],
    although the names are only logged. *)
Theorem limit_authors_unnamed_author (dataset : list HPInstanceDict)
    (specific_author_train split : string) (reverse_author_target_dict : gmap Z string)
    (authors : list Z) (author : Z) :
  map_result py_int (split_on ","%char specific_author_train) = Ok authors ->
  split = "train" \/ split = "test" ->
  -1 ∉ authors ->
  author ∈ authors ->
  reverse_author_target_dict !! author = None ->
  limit_authors dataset specific_author_train split reverse_author_target_dict
    = Raise KeyError.
Proof.
  intros Hauthors Hsplit Hno Hin Hmissing. unfold limit_authors.
  rewrite Hauthors. cbn [mbind result_bind].
  assert (Hs : (String.eqb split "train" || String.eqb split "test") = true).
  { destruct Hsplit as [-> | ->]; reflexivity. }
  assert (Hn : list_mem (-1) authors = false).
  { apply not_true_is_false. intros Hm. apply Hno.
    unfold list_mem in Hm. apply existsb_exists in Hm as (y & Hy & ->%Z.eqb_eq).
    now apply list_elem_of_In. }
  rewrite Hs, Hn. cbn [andb negb].
  assert (Hnames : map_result
            (fun x => match reverse_author_target_dict !! x with
                      | Some name => Ok name
                      | None => Raise KeyError
                      end) authors = Raise KeyError).
  { clear -Hin Hmissing. induction authors as [|x authors IH].
    - apply elem_of_nil in Hin. destruct Hin.
    - cbn [map_result]. destruct (reverse_author_target_dict !! x) eqn:Hx.
      + cbn [mbind result_bind]. apply elem_of_cons in Hin as [-> | Hin];
          [congruence|]. rewrite (IH Hin). reflexivity.
      + reflexivity. }
  rewrite Hnames. reflexivity.
Qed.

Lemma limit_authors_unnamed_author_witness :
  limit_authors raw_dataset "0,2" "test" author_names = Raise KeyError.
Proof.
  apply (limit_authors_unnamed_author raw_dataset "0,2" "test" author_names [0; 2] 2).
  - reflexivity.
  - right. reflexivity.
  - intros Hin. apply elem_of_cons in Hin as [H|Hin]; [discriminate H|].
    apply elem_of_cons in Hin as [H|Hin]; [discriminate H|].
    apply elem_of_nil in Hin. exact Hin.
  - right. left.
  - reflexivity.
Defined.

(** ** get_config *)

Lemma filter_singleton {A : Type} (P : A -> Prop) `{!forall x, Decision (P x)}
    (l : list A) (x : A) :
  filter P l = [x] <->
  exists l1 l2, l = l1 ++ x :: l2 /\ P x /\ Forall (fun y => ~ P y) (l1 ++ l2).
Proof.
  split.
  - revert x. induction l as [|y l IH]; intros x Hf; [discriminate Hf|].
    rewrite filter_cons in Hf. destruct (decide (P y)) as [Hy|Hy].
    + injection Hf as -> Hnil. exists [], l. split; [reflexivity|].
      split; [exact Hy|]. cbn [app]. apply Forall_forall. intros z Hz Pz.
      assert (Hin : z ∈ filter P l) by (apply list_elem_of_filter; auto).
      rewrite Hnil in Hin. apply elem_of_nil in Hin. exact Hin.
    + destruct (IH x Hf) as (l1 & l2 & -> & Px & Hall).
      exists (y :: l1), l2. split; [reflexivity|]. split; [exact Px|].
      cbn [app]. now constructor.
  - intros (l1 & l2 & -> & Px & Hall). apply Forall_app in Hall as [H1 H2].
    rewrite filter_app, filter_cons.
    destruct (decide (P x)); [|contradiction].
    assert (Hnil : forall k, Forall (fun y => ~ P y) k -> filter P k = []).
    { intros k Hk. induction Hk as [|z k Hz _ IHk]; [reflexivity|].
      rewrite filter_cons. destruct (decide (P z)); [contradiction | exact IHk]. }
    now rewrite (Hnil l1 H1), (Hnil l2 H2).
Qed.

(** X16.  [get_config] returns a configuration exactly when one single key
    of the table is a suffix of the data directory, and then the
    configuration under that key; with no such key, or with more than one,
    it fails its assertion. *)
Theorem get_config_unique {V : Type} (DATASET_CONFIG : list (string * V))
    (data_dir : string) :
  (forall v,
     get_config DATASET_CONFIG data_dir = Ok v <->
     exists l1 k l2,
       DATASET_CONFIG = l1 ++ (k, v) :: l2 /\
       endswith k data_dir = true /\
       Forall (fun kv => endswith (fst kv) data_dir <> true) (l1 ++ l2)) /\
  ((forall v, get_config DATASET_CONFIG data_dir <> Ok v) ->
   get_config DATASET_CONFIG data_dir = Raise AssertionError).
Proof.
  unfold get_config.
  set (valid := filter (fun kv => endswith (fst kv) data_dir = true) DATASET_CONFIG).
  split.
  - intros v. split.
    + intros H. bind_split H as u Hu. apply py_assert_Ok, Z.eqb_eq in Hu.
      apply index_at_lookup in H.
      destruct valid as [|[k v'] [|kv valid']] eqn:Hvalid;
        try (unfold len in Hu; cbn in Hu; lia).
      injection H as <-.
      apply filter_singleton in Hvalid as (l1 & l2 & -> & Hk & Hall).
      exists l1, k, l2. auto.
    + intros (l1 & k & l2 & Ht & Hk & Hall).
      assert (Hvalid : valid = [(k, v)]).
      { apply filter_singleton. exists l1, l2. auto. }
      rewrite Hvalid. reflexivity.
  - intros Hnone.
    destruct valid as [|[k v] [|kv valid']] eqn:Hvalid; try reflexivity.
    + exfalso. apply (Hnone v). reflexivity.
    + unfold len. cbn [length map].
      destruct (Z.eqb_spec (Z.of_nat (S (S (length (map snd valid'))))) 1) as [E|E];
        [lia | reflexivity].
Qed.

(** ** datum_to_dict *)

Lemma str_app_assoc (a b c : string) : (a +:+ b) +:+ c = a +:+ (b +:+ c).
Proof.
  induction a as [|x a IH]; [reflexivity|].
  change (String x ((a +:+ b) +:+ c) = String x (a +:+ (b +:+ c))).
  f_equal. exact IH.
Qed.

Lemma str_app_nil_r (a : string) : a +:+ "" = a.
Proof.
  induction a as [|x a IH]; [reflexivity|].
  change (String x (a +:+ "") = String x a). f_equal. exact IH.
Qed.

Lemma str_length_app (a b : string) :
  String.length (a +:+ b) = (String.length a + String.length b)%nat.
Proof.
  induction a as [|x a IH]; [reflexivity|].
  change (S (String.length (a +:+ b)) = S (String.length a + String.length b)).
  f_equal. exact IH.
Qed.

Lemma str_take_app (a b : string) : str_take (String.length a) (a +:+ b) = a.
Proof.
  induction a as [|x a IH].
  - destruct b; reflexivity.
  - change (String x (str_take (String.length a) (a +:+ b)) = String x a).
    f_equal. exact IH.
Qed.

(** The accumulated metadata text: every entry followed by [", "]. *)
Lemma terminated_join (entries : list string) :
  entries <> [] ->
  fold_right (fun e r => e +:+ ", " +:+ r) "" entries = join ", " entries +:+ ", ".
Proof.
  induction entries as [|e entries IH]; [congruence|]. intros _.
  destruct entries as [|e' entries]; [reflexivity|].
  change (e +:+ ", " +:+ fold_right (fun e r => e +:+ ", " +:+ r) "" (e' :: entries)
          = (e +:+ ", " +:+ join ", " (e' :: entries)) +:+ ", ").
  rewrite IH by discriminate. now rewrite !str_app_assoc.
Qed.

Lemma slice_terminated (entries : list string) :
  str_slice_to (fold_right (fun e r => e +:+ ", " +:+ r) "" entries) (-2)
  = join ", " entries.
Proof.
  destruct entries as [|e entries]; [reflexivity|].
  rewrite terminated_join by discriminate.
  unfold str_slice_to. cbn [Z.leb Z.compare].
  rewrite str_length_app. cbn [String.length].
  replace (Z.to_nat (Z.of_nat (String.length (join ", " (e :: entries)) + 2) + -2))
    with (String.length (join ", " (e :: entries))) by lia.
  apply str_take_app.
Qed.

Lemma metadata_entry_split (key element_value rest : string) :
  metadata_entry key element_value +:+ rest
  = (key +:+ " = " +:+ element_value) +:+ ", " +:+ rest.
Proof. unfold metadata_entry. now rewrite !str_app_assoc. Qed.

(** The loop of [datum_to_dict], from any dictionary whose metadata is text. *)
Lemma datum_to_dict_keys_spec (tokenizer : Tokenizer) (datum : list string)
    (keys : list KeySpec) (d0 d : gmap string Value) (acc : string) :
  Forall (fun key => ks_key key <> "metadata") keys ->
  d0 !! "metadata" = Some (VStr acc) ->
  datum_to_dict_keys tokenizer datum keys d0 = Ok d ->
  exists values,
    Forall2 (fun key v => py_index datum (ks_position key) = Ok v) keys values /\
    d !! "metadata" =
      Some (VStr (acc +:+ fold_right (fun e r => e +:+ ", " +:+ r) ""
                            (metadata_entries keys values))) /\
    (forall name, name <> "metadata" -> name ∉ map ks_key keys ->
                  d !! name = d0 !! name) /\
    (NoDup (map ks_key keys) ->
     forall i key v, keys !! i = Some key -> values !! i = Some v ->
                     d !! ks_key key = Some (stored_value tokenizer key v)).
Proof.
  intros Hnames. revert d0 acc.
  induction Hnames as [|key keys Hkey _ IH]; intros d0 acc Hmeta Hrun.
  - injection Hrun as <-. exists []. split; [constructor|].
    split; [now rewrite str_app_nil_r|]. split; [reflexivity|].
    intros _ i key v Hi. discriminate Hi.
  - cbn [datum_to_dict_keys] in Hrun. bind_split Hrun as v Hv.
    fold (stored_value tokenizer key v) in Hrun.
    set (d1 := <[ks_key key := stored_value tokenizer key v]> d0) in *.
    assert (Hmeta1 : d1 !! "metadata" = Some (VStr acc))
      by (unfold d1; now rewrite lookup_insert_ne).
    bind_split Hrun as d2 Hd2.
    assert (Hd2' : exists acc2,
               d2 !! "metadata" = Some (VStr acc2) /\
               (forall rest, acc2 +:+ rest
                             = acc +:+ (if ks_metadata key
                                        then (ks_key key +:+ " = " +:+ v) +:+ ", " +:+ rest
                                        else rest)) /\
               (forall name, name <> "metadata" -> d2 !! name = d1 !! name)).
    { destruct (ks_metadata key).
      - rewrite Hmeta1 in Hd2. injection Hd2 as <-.
        exists (acc +:+ metadata_entry (ks_key key) v).
        split; [apply lookup_insert_eq|]. split.
        + intros rest. now rewrite str_app_assoc, metadata_entry_split.
        + intros name Hname. now rewrite lookup_insert_ne.
      - injection Hd2 as <-. exists acc. auto. }
    destruct Hd2' as (acc2 & Hmeta2 & Hacc2 & Hframe2).
    destruct (IH d2 acc2 Hmeta2 Hrun) as (values & Hvals & Hm & Hframe & Hstored).
    exists (v :: values). split; [now constructor|]. split; [|split].
    + rewrite Hm. do 2 f_equal. rewrite Hacc2. cbn [metadata_entries].
      destruct (ks_metadata key); reflexivity.
    + intros name Hname Hnotin. cbn [map] in Hnotin.
      apply not_elem_of_cons in Hnotin as [Hne Hnotin].
      rewrite (Hframe name Hname Hnotin), (Hframe2 name Hname).
      unfold d1. now rewrite lookup_insert_ne.
    + intros Hnodup [|i] key' v' Hi Hvi.
      * injection Hi as <-. injection Hvi as <-.
        apply NoDup_cons in Hnodup as [Hnotin _].
        rewrite (Hframe _ Hkey Hnotin), (Hframe2 _ Hkey).
        unfold d1. apply lookup_insert_eq.
      * apply NoDup_cons in Hnodup as [_ Hnodup].
        apply (Hstored Hnodup i key' v' Hi Hvi).
Qed.

(** X17.  When no key is itself named ["metadata"], the dictionary
    [datum_to_dict] returns holds under ["metadata"] the texts
    [key = value] of the keys flagged as metadata, in order and joined by
    [", "] (the empty text when there is none); and, when the key names are
    distinct, under every key the element read at its position, tokenized
    or not as the key says. *)
Theorem datum_to_dict_contents (keys : list KeySpec) (datum : list string)
    (tokenizer : Tokenizer) (d : gmap string Value) :
  Forall (fun key => ks_key key <> "metadata") keys ->
  datum_to_dict keys datum tokenizer = Ok d ->
  exists values,
    Forall2 (fun key v => py_index datum (ks_position key) = Ok v) keys values /\
    d !! "metadata" = Some (VStr (join ", " (metadata_entries keys values))) /\
    (NoDup (map ks_key keys) ->
     forall i key v, keys !! i = Some key -> values !! i = Some v ->
                     d !! ks_key key = Some (stored_value tokenizer key v)).
Proof.
  intros Hnames Hrun. unfold datum_to_dict in Hrun. bind_split Hrun as d1 Hd1.
  destruct (datum_to_dict_keys_spec tokenizer datum keys _ d1 "" Hnames
              (lookup_insert_eq _ _ _) Hd1) as (values & Hvals & Hm & _ & Hstored).
  change ("" +:+ ?t) with t in Hm.
  rewrite Hm in Hrun. injection Hrun as <-.
  exists values. split; [exact Hvals|]. split.
  - rewrite lookup_insert_eq. cbn [value_slice_to].
    now rewrite slice_terminated.
  - intros Hnodup i key v Hi Hvi.
    assert (Hne : ks_key key <> "metadata").
    { rewrite Forall_forall in Hnames. apply Hnames.
      apply list_elem_of_lookup. eauto. }
    rewrite lookup_insert_ne by congruence.
    apply (Hstored Hnodup i key v Hi Hvi).
Qed.

Lemma datum_to_dict_contents_witness :
  exists d,
    datum_to_dict demo_keys ["austen"; "x"; "hello world"] demo_tokenizer = Ok d /\
    d !! "metadata" = Some (VStr "author = austen, sent2_tokens = hello world") /\
    d !! "sent2_tokens" = Some (VList [IInt 105; IInt 105]).
Proof.
  assert (Hok : is_ok (datum_to_dict demo_keys ["austen"; "x"; "hello world"]
                         demo_tokenizer) = true) by (vm_compute; reflexivity).
  destruct (datum_to_dict demo_keys ["austen"; "x"; "hello world"] demo_tokenizer)
    as [d|e] eqn:Hd; [|discriminate Hok].
  destruct (datum_to_dict_contents demo_keys ["austen"; "x"; "hello world"]
              demo_tokenizer d) as (values & Hvals & Hm & Hstored).
  - repeat constructor; discriminate.
  - exact Hd.
  - apply Forall2_cons_inv_l in Hvals as (v1 & values1 & Hv1 & Hvals & ->).
    apply Forall2_cons_inv_l in Hvals as (v2 & values2 & Hv2 & Hvals & ->).
    apply Forall2_nil_inv_l in Hvals as ->.
    injection Hv1 as <-. injection Hv2 as <-.
    exists d. split; [reflexivity|]. split; [exact Hm|].
    assert (Hnd : NoDup (map ks_key demo_keys)).
    { apply NoDup_cons. split; [|apply NoDup_singleton].
      intros Hin. apply list_elem_of_singleton in Hin. discriminate Hin. }
    apply (Hstored Hnd 1%nat
             {| ks_key := "sent2_tokens"; ks_position := -1; ks_tokenize := true;
                ks_metadata := true |} "hello world" eq_refl eq_refl).
Defined.

Lemma py_index_cases {A : Type} (l : list A) (i : Z) :
  (- len l <= i < len l /\ exists v, py_index l i = Ok v) \/
  (~ (- len l <= i < len l) /\ py_index l i = Raise IndexError).
Proof.
  unfold py_index.
  destruct (Z.ltb_spec i (- len l)) as [L1|L1]; [right; split; [lia | reflexivity]|].
  destruct (Z.leb_spec (len l) i) as [L2|L2]; [right; split; [lia | reflexivity]|].
  left. split; [lia|]. cbn [orb].
  destruct (lookup_lt_is_Some_2 l (Z.to_nat (if i <? 0 then i + len l else i)))
    as (v & ->); [|now exists v].
  unfold len in *. destruct (Z.ltb_spec i 0); lia.
Qed.

(** The loop keeps ["metadata"] in the dictionary and fails only on a
    position outside the datum. *)
Lemma datum_to_dict_keys_outcome (tokenizer : Tokenizer) (datum : list string)
    (keys : list KeySpec) (d0 : gmap string Value) :
  is_Some (d0 !! "metadata") ->
  match datum_to_dict_keys tokenizer datum keys d0 with
  | Ok d =>
      is_Some (d !! "metadata") /\
      Forall (fun key => - len datum <= ks_position key < len datum) keys
  | Raise e =>
      e = IndexError /\
      Exists (fun key => ~ (- len datum <= ks_position key < len datum)) keys
  end.
Proof.
  revert d0. induction keys as [|key keys IH]; intros d0 Hmeta.
  - cbn [datum_to_dict_keys]. split; [exact Hmeta | constructor].
  - cbn [datum_to_dict_keys].
    destruct (py_index_cases datum (ks_position key)) as [[Hin (v & ->)] | [Hout ->]].
    2:{ cbn [mbind result_bind]. split; [reflexivity | now left]. }
    cbn [mbind result_bind].
    set (d1 := <[ks_key key := _]> d0).
    assert (Hmeta1 : is_Some (d1 !! "metadata")).
    { unfold d1. destruct (decide (ks_key key = "metadata")) as [->|Hne].
      - rewrite lookup_insert_eq. eauto.
      - now rewrite lookup_insert_ne. }
    assert (Hstep : exists d2,
               (if ks_metadata key
                then match d1 !! "metadata" with
                     | Some m =>
                         Ok (<["metadata" :=
                                 value_iadd m (metadata_entry (ks_key key) v)]> d1)
                     | None => Raise KeyError
                     end
                else Ok d1) = Ok d2 /\ is_Some (d2 !! "metadata")).
    { destruct (ks_metadata key); [|eauto].
      destruct Hmeta1 as (m & ->). eexists. split; [reflexivity|].
      rewrite lookup_insert_eq. eauto. }
    destruct Hstep as (d2 & -> & Hmeta2). cbn [mbind result_bind].
    specialize (IH d2 Hmeta2).
    destruct (datum_to_dict_keys tokenizer datum keys d2) as [d|e].
    + destruct IH as [Hm Hall]. split; [exact Hm | now constructor].
    + destruct IH as [He Hex]. split; [exact He | now right].
Qed.

(** X18.  [datum_to_dict] returns exactly when every key's position lies
    within the datum (negative positions counting from its end); otherwise
    it raises [IndexError], whatever the key names. *)
Theorem datum_to_dict_positions (keys : list KeySpec) (datum : list string)
    (tokenizer : Tokenizer) :
  (Forall (fun key => - len datum <= ks_position key < len datum) keys <->
   exists d, datum_to_dict keys datum tokenizer = Ok d) /\
  (Exists (fun key => ~ (- len datum <= ks_position key < len datum)) keys <->
   datum_to_dict keys datum tokenizer = Raise IndexError) /\
  (forall e, datum_to_dict keys datum tokenizer = Raise e -> e = IndexError).
Proof.
  pose proof (datum_to_dict_keys_outcome tokenizer datum keys
                {["metadata" := VStr ""]}) as H.
  specialize (H ltac:(rewrite lookup_singleton_eq; eauto)).
  unfold datum_to_dict.
  destruct (datum_to_dict_keys tokenizer datum keys _) as [d|e].
  - destruct H as [(m & Hm) Hall]. cbn [mbind result_bind]. rewrite Hm.
    split; [|split].
    + split; [eauto | intros _; exact Hall].
    + split; [|discriminate]. intros Hex. exfalso.
      apply Exists_exists in Hex as (key & Hin & Hbad).
      rewrite Forall_forall in Hall. exact (Hbad (Hall key Hin)).
    + discriminate.
  - destruct H as [-> Hex]. cbn [mbind result_bind]. split; [|split].
    + split; [|intros (d & Hd); discriminate Hd]. intros Hall. exfalso.
      apply Exists_exists in Hex as (key & Hin & Hbad).
      rewrite Forall_forall in Hall. exact (Hbad (Hall key Hin)).
    + split; [reflexivity | intros _; exact Hex].
    + now intros e [= <-].
Qed.

(** ** The author dictionary of the generator *)

(** The comprehension gives every name the number of its (last) line: the
    values stay below the number of lines read and no two names share one. *)
Lemma author_targets_from_inj (lines : list string) (i : nat) (d0 d : gmap string Z) :
  author_targets_from i lines d0 = Ok d ->
  (forall k v, d0 !! k = Some v -> 0 <= v < Z.of_nat i) ->
  (forall k1 k2 v, d0 !! k1 = Some v -> d0 !! k2 = Some v -> k1 = k2) ->
  (forall k v, d !! k = Some v -> 0 <= v < Z.of_nat (i + length lines)) /\
  (forall k1 k2 v, d !! k1 = Some v -> d !! k2 = Some v -> k1 = k2).
Proof.
  revert i d0. induction lines as [|x lines IH]; intros i d0 Hrun Hbound Hinj.
  - injection Hrun as <-. split; [|exact Hinj].
    intros k v Hk. specialize (Hbound k v Hk). cbn [length]. lia.
  - cbn [author_targets_from] in Hrun.
    assert (Hshift : forall j, (S i + j = i + S j)%nat) by (intros; lia).
    cbn [length]. rewrite <- Hshift.
    destruct (startswith "madeupword" x).
    + apply (IH (S i) d0 Hrun); [|exact Hinj].
      intros k v Hk. specialize (Hbound k v Hk). lia.
    + bind_split Hrun as name Hname. apply (IH (S i) _ Hrun).
      * intros k v Hk. apply lookup_insert_Some in Hk as [[_ <-] | [_ Hk]]; [lia|].
        specialize (Hbound k v Hk). lia.
      * intros k1 k2 v H1 H2.
        apply lookup_insert_Some in H1 as [[<- <-] | [Hne1 H1]];
          apply lookup_insert_Some in H2 as [[<- E2] | [Hne2 H2]];
          try reflexivity.
        -- specialize (Hbound k2 _ H2). lia.
        -- subst v. specialize (Hbound k1 _ H1). lia.
        -- exact (Hinj k1 k2 v H1 H2).
Qed.

Lemma reverse_dict_lookup (d : gmap string Z) :
  (forall k1 k2 v, d !! k1 = Some v -> d !! k2 = Some v -> k1 = k2) ->
  forall k v, reverse_dict d !! v = Some k <-> d !! k = Some v.
Proof.
  intros Hinj k v. unfold reverse_dict.
  assert (Hmem : forall v' k',
            (v', k') ∈ map (fun kv => (snd kv, fst kv)) (map_to_list d)
            <-> d !! k' = Some v').
  { intros v' k'. rewrite list_elem_of_In, in_map_iff. split.
    - intros ([k0 v0] & [= <- <-] & Hin%list_elem_of_In).
      now apply elem_of_map_to_list.
    - intros Hk. exists (k', v'). split; [reflexivity|].
      now apply list_elem_of_In, elem_of_map_to_list. }
  rewrite <- Hmem. symmetry. apply elem_of_list_to_map'.
  intros k' H1 H2. apply Hmem in H1, H2. exact (Hinj k k' v H1 H2).
Qed.

(** X19.  The author dictionary read from [dict.txt] gives every name a line
    number of the file, no two names the same one, and the reversed
    dictionary inverts it: [reverse[v] == k] exactly when [dict[k] == v]. *)
Theorem read_author_target_dict_reverse (content : string) (d : gmap string Z) :
  read_author_target_dict content = Ok d ->
  (forall k v, reverse_dict d !! v = Some k <-> d !! k = Some v) /\
  (forall k v, d !! k = Some v ->
     0 <= v < len (split_on (ascii_of_nat 10) (rstrip (lstrip content)))) /\
  (forall k1 k2 v, d !! k1 = Some v -> d !! k2 = Some v -> k1 = k2).
Proof.
  unfold read_author_target_dict. intros Hrun.
  destruct (author_targets_from_inj _ 0 ∅ d Hrun) as [Hbound Hinj].
  - intros k v Hk. rewrite lookup_empty in Hk. discriminate Hk.
  - intros k1 k2 v Hk. rewrite lookup_empty in Hk. discriminate Hk.
  - split; [now apply reverse_dict_lookup|]. split; [|exact Hinj].
    intros k v Hk. specialize (Hbound k v Hk). unfold len.
    cbn [Nat.add] in Hbound. exact Hbound.
Qed.

Lemma read_author_target_dict_reverse_witness :
  exists d,
    read_author_target_dict dict_txt = Ok d /\
    d !! "joyce" = Some 1 /\ reverse_dict d !! 1 = Some "joyce".
Proof.
  assert (Hok : is_ok (read_author_target_dict dict_txt) = true)
    by (vm_compute; reflexivity).
  destruct (read_author_target_dict dict_txt) as [d|e] eqn:Hd; [|discriminate Hok].
  destruct (read_author_target_dict_reverse dict_txt d Hd) as (Hrev & _ & _).
  assert (Hj : (d' ← read_author_target_dict dict_txt; getitem d' "joyce") = Ok 1)
    by (vm_compute; reflexivity).
  rewrite Hd in Hj. cbn [mbind result_bind] in Hj. apply getitem_Ok in Hj.
  exists d. split; [reflexivity|]. split; [exact Hj|]. now apply Hrev.
Defined.

(** The comprehension fails only on a line that is not a filler and has no
    field. *)
Lemma author_targets_from_outcome (lines : list string) (i : nat) (d0 : gmap string Z) :
  match author_targets_from i lines d0 with
  | Ok _ =>
      Forall (fun x => startswith "madeupword" x = true \/ split_ws x <> []) lines
  | Raise e =>
      e = IndexError /\
      Exists (fun x => startswith "madeupword" x = false /\ split_ws x = []) lines
  end.
Proof.
  revert i d0. induction lines as [|x lines IH]; intros i d0.
  - cbn [author_targets_from]. constructor.
  - cbn [author_targets_from]. destruct (startswith "madeupword" x) eqn:Hx.
    + specialize (IH (S i) d0).
      destruct (author_targets_from (S i) lines d0).
      * constructor; auto.
      * destruct IH as [-> Hex]. split; [reflexivity | now right].
    + unfold index_at. destruct (split_ws x) as [|name fields] eqn:Hf.
      * cbn. split; [reflexivity|]. left. auto.
      * cbn [lookup list_lookup mbind result_bind].
        specialize (IH (S i) (<[name := Z.of_nat i]> d0)).
        destruct (author_targets_from (S i) lines _).
        -- constructor; [right; rewrite Hf; discriminate | exact IH].
        -- destruct IH as [-> Hex]. split; [reflexivity | now right].
Qed.

(** X20.  Reading the author dictionary fails exactly when the stripped text
    of [dict.txt] has a line that is not a [madeupword] filler and has no
    field (a blank line, or an empty file); the error is then
    [IndexError]. *)
Theorem read_author_target_dict_blank_line (content : string) :
  (Exists (fun x => startswith "madeupword" x = false /\ split_ws x = [])
     (split_on (ascii_of_nat 10) (rstrip (lstrip content))) <->
   read_author_target_dict content = Raise IndexError) /\
  (forall e, read_author_target_dict content = Raise e -> e = IndexError) /\
  (content = "" -> read_author_target_dict content = Raise IndexError).
Proof.
  unfold read_author_target_dict.
  pose proof (author_targets_from_outcome
                (split_on (ascii_of_nat 10) (rstrip (lstrip content))) 0 ∅) as H.
  split; [|split].
  - destruct (author_targets_from 0 _ ∅) as [d|e].
    + split; [|discriminate]. intros Hex. exfalso.
      apply Exists_exists in Hex as (x & Hin & Hm & Hf).
      rewrite Forall_forall in H. destruct (H x Hin); congruence.
    + destruct H as [-> Hex]. split; [reflexivity | intros _; exact Hex].
  - intros e He. rewrite He in H. apply H.
  - intros ->. reflexivity.
Qed.

(** ** Generation, once more *)

Lemma check_constraints_inv (self : Instance) (u : unit) :
  check_constraints self = Ok u ->
  exists dense_length s l sg,
    dense_length_of (config self) = Ok dense_length /\
    sentence self = Some s /\ label self = Some l /\ segment self = Some sg /\
    len s = len l - dense_length /\ len s = len sg - dense_length.
Proof.
  unfold check_constraints. intros H.
  bind_split H as dense Hd. bind_split H as s Hs. bind_split H as l Hl.
  bind_split H as u1 H1. bind_split H as sg Hsg.
  apply py_assert_Ok, Z.eqb_eq in H1, H.
  destruct (sentence self); [|discriminate Hs]. injection Hs as ->.
  destruct (label self); [|discriminate Hl]. injection Hl as ->.
  destruct (segment self); [|discriminate Hsg]. injection Hsg as ->.
  exists dense, s, l, sg. repeat split; assumption.
Qed.

Section GeneratorFurther.
Context {Selector : Type}.
Variable engine : list Instance -> list (option Selector) -> list (list Z).
Variable self : GPT2Generator.

Lemma build_instances_length (pairs : list (string * option Selector))
    (g g' : RandomState) (instances : list Instance) :
  build_instances self pairs g = Ok (instances, g') ->
  length instances = length pairs.
Proof.
  revert g g' instances.
  induction pairs as [|[context gdf] pairs IH]; intros g g' instances H.
  - now injection H as <- <-.
  - cbn [build_instances] in H. bind_split H as self0 Hinit.
    bind_split H as r1 Hpre. destruct r1 as [inst g1].
    bind_split H as r2 Hrest. destruct r2 as [rest g2].
    injection H as <- <-. cbn [length]. f_equal. exact (IH _ _ _ Hrest).
Qed.

Lemma postprocess_rows_length (instances : list Instance) (output outs : list (list Z))
    (n : nat) :
  postprocess_rows self instances n output = Ok outs ->
  length outs = length output /\
  (output = [] \/ (n + length output <= length instances)%nat).
Proof.
  revert outs n. induction output as [|row rows IH]; intros outs n H.
  - injection H as <-. auto.
  - cbn [postprocess_rows] in H. bind_split H as inst Hinst.
    bind_split H as curr_out Hrow. bind_split H as rest Hrest. injection H as <-.
    destruct (IH _ _ Hrest) as [Hlen Hfit]. cbn [length].
    split; [now rewrite Hlen|]. right.
    apply index_at_lookup, lookup_lt_Some in Hinst.
    destruct Hfit as [-> | Hfit]; cbn [length]; lia.
Qed.

(** X21.  [generate_batch] on an empty batch (no context, or an empty list of
    selectors) raises [IndexError]: it reads [instances[0]]. *)
Theorem generate_batch_empty_batch (contexts : list string)
    (global_dense_features : option (list (option Selector))) (g : RandomState) :
  contexts = [] \/ global_dense_features = Some [] ->
  generate_batch engine self contexts global_dense_features g = Raise IndexError.
Proof.
  intros Hempty. unfold generate_batch, generate_batch_ids.
  assert (Hzip : zip contexts
                   (match global_dense_features with
                    | Some l => l
                    | None => map (fun _ => None) contexts
                    end) = []).
  { destruct Hempty as [-> | ->]; [reflexivity|]. now destruct contexts. }
  rewrite Hzip. reflexivity.
Qed.

(** X22.  Under a policy that does not start with ["same"] (such as
    ["eos"]), the id list [generate_batch] decodes at position [k] is row
    [k] of the output, sliced from the [init_context_size] of instance [k]
    and cut in front of its first eos id: it holds no eos id, and what
    follows it in the sliced row is nothing or starts with the eos id. *)
Theorem generate_batch_eos_policy (contexts : list string)
    (global_dense_features : option (list (option Selector)))
    (g g' : RandomState) (outs : list (list Z)) (k : nat) (out : list Z) :
  startswith "same" (upper_length (gen_args self)) = false ->
  generate_batch_ids engine self contexts global_dense_features g = Ok (outs, g') ->
  outs !! k = Some out ->
  exists instances selectors instance row rest,
    selectors = match global_dense_features with
                | Some l => l
                | None => map (fun _ => None) contexts
                end /\
    build_instances self (zip contexts selectors) g = Ok (instances, g') /\
    instances !! k = Some instance /\
    engine instances selectors !! k = Some row /\
    slice_from row (init_context_size instance) = out ++ rest /\
    list_mem (eos_token_id (gen_tokenizer self)) out = false /\
    (rest = [] \/ head rest = Some (eos_token_id (gen_tokenizer self))).
Proof.
  intros Hpolicy Hrun Hout. unfold generate_batch_ids in Hrun.
  bind_split Hrun as built Hbuild. destruct built as [instances g1].
  bind_split Hrun as first Hfirst. bind_split Hrun as all_output Hrows.
  injection Hrun as <- <-.
  destruct (postprocess_rows_lookup _ _ _ _ _ _ _ Hrows Hout)
    as (instance & row & Hinst & Hrow & Hpost).
  cbn [Nat.add] in Hinst.
  unfold postprocess_row in Hpost. rewrite Hpolicy in Hpost. injection Hpost as <-.
  destruct (cut_at_eos_split (eos_token_id (gen_tokenizer self))
              (slice_from row (init_context_size instance)))
    as (rest & Hsplit & Hfree & Hrest).
  eexists instances, _, instance, row, rest.
  split; [reflexivity|]. split; [exact Hbuild|]. split; [exact Hinst|].
  split; [exact Hrow|]. split; [exact Hsplit|]. split; [exact Hfree | exact Hrest].
Qed.

(** X23.  When [generate_batch] returns, it returns one text per row of the
    engine's output, the engine returned no more rows than there are
    instances, and there is one instance per context paired with a selector
    ([zip] stops at the shorter list). *)
Theorem generate_batch_counts (contexts : list string)
    (global_dense_features : option (list (option Selector)))
    (g g' : RandomState) (texts : list string) :
  generate_batch engine self contexts global_dense_features g = Ok (texts, g') ->
  exists instances selectors,
    selectors = match global_dense_features with
                | Some l => l
                | None => map (fun _ => None) contexts
                end /\
    build_instances self (zip contexts selectors) g = Ok (instances, g') /\
    length instances = Nat.min (length contexts) (length selectors) /\
    (0 < length instances)%nat /\
    length texts = length (engine instances selectors) /\
    (length texts <= length instances)%nat.
Proof.
  unfold generate_batch, generate_batch_ids. intros H.
  bind_split H as r Hr. destruct r as [ids g1]. injection H as <- <-.
  bind_split Hr as built Hbuild. destruct built as [instances g2].
  bind_split Hr as first Hfirst. bind_split Hr as all_output Hrows.
  injection Hr as <- <-.
  eexists instances, _. split; [reflexivity|]. split; [exact Hbuild|].
  apply build_instances_length in Hbuild. rewrite length_zip_with in Hbuild.
  split; [exact Hbuild|].
  apply index_at_lookup, lookup_lt_Some in Hfirst. split; [exact Hfirst|].
  apply postprocess_rows_length in Hrows as [Hlen Hfit].
  rewrite length_map, Hlen. split; [reflexivity|].
  destruct Hfit as [-> | Hfit]; cbn [length]; lia.
Qed.

(** X24.  [generate] returns only when the engine answers the single
    instance with exactly one row; the text is that row, post-processed and
    decoded. *)
Theorem generate_single_row (context : string) (global_dense_features : option Selector)
    (g g' : RandomState) (text : string) :
  generate engine self context global_dense_features g = Ok (text, g') ->
  exists instance row ids,
    build_instances self [(context, global_dense_features)] g = Ok ([instance], g') /\
    engine [instance] [global_dense_features] = [row] /\
    postprocess_row self instance row = Ok ids /\
    text = decode (gen_tokenizer self) ids.
Proof.
  unfold generate, generate_batch, generate_batch_ids. intros H.
  bind_split H as r Hr. destruct r as [texts g1].
  bind_split H as out Hout. injection H as <- <-.
  bind_split Hr as r2 Hr2. destruct r2 as [ids g2]. injection Hr as <- <-.
  bind_split Hr2 as built Hbuild. destruct built as [instances g3].
  bind_split Hr2 as first Hfirst. bind_split Hr2 as all_output Hrows.
  injection Hr2 as <- <-.
  pose proof (build_instances_length _ _ _ _ Hbuild) as Hlen. cbn in Hlen.
  destruct instances as [|instance [|i2 instances]]; try discriminate Hlen.
  pose proof (postprocess_rows_length _ _ _ _ Hrows) as [Hl Hfit].
  apply index_at_lookup in Hout. rewrite list_lookup_fmap in Hout.
  destruct all_output as [|ids0 rest]; [discriminate Hout|].
  cbn in Hout. injection Hout as <-.
  destruct (engine [instance] [global_dense_features]) as [|row [|row2 rows]] eqn:He.
  - discriminate Hl.
  - cbn [postprocess_rows] in Hrows. bind_split Hrows as inst Hinst.
    bind_split Hrows as curr_out Hrow. injection Hinst as <-.
    injection Hrows as <- <-.
    exists instance, row, curr_out.
    split; [exact Hbuild|]. split; [exact He|]. split; [exact Hrow | reflexivity].
  - destruct Hfit as [Hnil | Hfit]; [discriminate Hnil|]. cbn [length] in Hfit. lia.
Qed.
End GeneratorFurther.

Lemma generate_batch_empty_batch_witness :
  generate_batch demo_engine demo_generator [] None high_draws = Raise IndexError.
Proof. apply generate_batch_empty_batch. left. reflexivity. Defined.

Lemma generate_batch_eos_policy_witness :
  exists instances selectors instance row rest,
    selectors = map (fun _ => None) ["aa b"] /\
    build_instances shuffle_generator (zip ["aa b"] selectors) high_draws
      = Ok (instances, {| stream := stream high_draws; position := 1 |}) /\
    instances !! 0%nat = Some instance /\
    demo_engine instances selectors !! 0%nat = Some row /\
    slice_from row (init_context_size instance) = [0; 1; 9; 9; 9; 9; 9; 9; 9] ++ rest /\
    list_mem (eos_token_id (gen_tokenizer shuffle_generator)) [0; 1; 9; 9; 9; 9; 9; 9; 9]
      = false /\
    (rest = [] \/ head rest = Some (eos_token_id (gen_tokenizer shuffle_generator))).
Proof.
  apply (generate_batch_eos_policy demo_engine shuffle_generator ["aa b"] None
           high_draws {| stream := stream high_draws; position := 1 |}
           [[0; 1; 9; 9; 9; 9; 9; 9; 9]] 0).
  - reflexivity.
  - vm_compute. reflexivity.
  - reflexivity.
Defined.

Lemma generate_batch_counts_witness :
  exists instances selectors,
    selectors = map (fun _ => None) ["aa b ccc"] /\
    build_instances demo_generator (zip ["aa b ccc"] selectors) high_draws
      = Ok (instances, high_draws) /\
    length instances = Nat.min (length ["aa b ccc"]) (length selectors) /\
    (0 < length instances)%nat /\
    length [""] = length (demo_engine instances selectors) /\
    (length [""] <= length instances)%nat.
Proof.
  apply (generate_batch_counts demo_engine demo_generator ["aa b ccc"] None
           high_draws high_draws [""]).
  vm_compute. reflexivity.
Defined.

Lemma generate_single_row_witness :
  exists instance row ids,
    build_instances demo_generator [("aa b ccc", None : option nat)] high_draws
      = Ok ([instance], high_draws) /\
    demo_engine [instance] [None] = [row] /\
    postprocess_row demo_generator instance row = Ok ids /\
    "" = decode (gen_tokenizer demo_generator) ids.
Proof.
  apply (generate_single_row demo_engine demo_generator "aa b ccc" None
           high_draws high_draws "").
  vm_compute. reflexivity.
Defined.

(** X25.  The instances [generate_batch] builds form a rectangular batch:
    every one has a sentence of [max_prefix_length + max_suffix_length + 2]
    ids (the prefix is empty when the mode ends with the no-SRL marker), a
    label and a segment longer by the dense length, and
    [init_context_size = max_prefix_length + 1], whatever the contexts and
    the random draws are. *)
Theorem build_instances_rectangular {Selector : Type} (self : GPT2Generator)
    (pairs : list (string * option Selector)) (g g' : RandomState)
    (instances : list Instance) (instance : Instance) :
  build_instances self pairs g = Ok (instances, g') ->
  instance ∈ instances ->
  exists max_prefix_length max_suffix_length dense_length s l sg,
    gen_config self !! "max_prefix_length" = Some max_prefix_length /\
    gen_config self !! "max_suffix_length" = Some max_suffix_length /\
    dense_length_of (gen_config self) = Ok dense_length /\
    sentence instance = Some s /\ label instance = Some l /\
    segment instance = Some sg /\
    len s = (if endswith "_no_srl_input" (context_input_type (gen_args self))
             then 0 else max_prefix_length) + max_suffix_length + 2 /\
    len l = len s + dense_length /\ len sg = len s + dense_length /\
    init_context_size instance = max_prefix_length + 1.
Proof.
  intros Hbuild [k Hk]%list_elem_of_lookup.
  destruct (build_instances_lookup _ _ _ _ _ _ _ Hbuild Hk)
    as (context & gdf & self0 & g1 & g2 & _ & Hinit & Hpre).
  apply Instance_init_fields in Hinit
    as (A0 & C0 & _ & _ & _ & _ & mp & Hmp & I0).
  pose proof Hpre as (self1 & self2 & self3 & self4 & Htr & Hsh & Hbs & Hbl & Hsg & Hck)%preprocess_steps.
  destruct (truncate_shuffle_fields _ _ _ _ _ Htr Hsh) as (A2 & C2 & _ & I2 & _).
  apply build_sentence_inv in Hbs as (p & s & -> & Hp & ms & Hms & Ls & _).
  apply build_label_inv in Hbl as (ls & l & ->).
  apply build_segment_fields in Hsg as (sg & ->).
  apply check_constraints_inv in Hck as (dense & s' & l' & sg' & Hd & Es & El & Esg & L1 & L2).
  attrs. injection Es as <-. injection El as <-. injection Esg as <-.
  rewrite C2, C0 in *. rewrite I2, I0.
  exists mp, ms, dense, (p ++ bos_token_id (gen_tokenizer self) :: s), l, sg.
  repeat split; try assumption; try lia.
  rewrite !len_app. unfold no_srl in Hp. rewrite A2, A0 in Hp.
  destruct (endswith _ _).
  - subst p. unfold len in *. cbn [length]. lia.
  - destruct Hp as (mp' & Hmp' & Lp & _). rewrite Hmp in Hmp'. injection Hmp' as <-.
    unfold len in *. cbn [length]. lia.
Qed.

Lemma build_instances_rectangular_witness :
  exists max_prefix_length max_suffix_length dense_length s l sg,
    gen_config shuffle_generator !! "max_prefix_length" = Some max_prefix_length /\
    gen_config shuffle_generator !! "max_suffix_length" = Some max_suffix_length /\
    dense_length_of (gen_config shuffle_generator) = Ok dense_length /\
    sentence shuffle_preprocessed = Some s /\ label shuffle_preprocessed = Some l /\
    segment shuffle_preprocessed = Some sg /\
    len s = (if endswith "_no_srl_input"
                  (context_input_type (gen_args shuffle_generator))
             then 0 else max_prefix_length) + max_suffix_length + 2 /\
    len l = len s + dense_length /\ len sg = len s + dense_length /\
    init_context_size shuffle_preprocessed = max_prefix_length + 1.
Proof.
  apply (build_instances_rectangular shuffle_generator one_context high_draws
           {| stream := stream high_draws; position := 1 |}
           [shuffle_preprocessed]).
  - vm_compute. reflexivity.
  - apply list_elem_of_singleton. reflexivity.
Defined.

(** ** Instances of the dataset *)

Lemma HPInstance_init_fields_witness :
  exists hp,
    HPInstance_init demo_args demo_config (raw_example 0) = Ok hp /\
    args (base hp) = demo_args /\ config (base hp) = demo_config /\
    truncated (base hp) = false /\
    (no_srl (base hp) = true -> sent1_tokens_tags (base hp) = None) /\
    (exists max_prefix_length,
       demo_config !! "max_prefix_length" = Some max_prefix_length /\
       init_context_size (base hp) = max_prefix_length + 1) /\
    len (roberta_sentence hp) = 502.
Proof.
  assert (Hok : is_ok (HPInstance_init demo_args demo_config (raw_example 0)) = true)
    by (vm_compute; reflexivity).
  destruct (HPInstance_init demo_args demo_config (raw_example 0)) as [hp|e] eqn:Hd;
    [|discriminate Hok].
  exists hp. split; [reflexivity|].
  exact (HPInstance_init_fields demo_args demo_config (raw_example 0) hp Hd).
Defined.

Lemma preprocess_assertion_unreachable_witness :
  preprocess demo_tokenizer demo_instance high_draws <> Raise AssertionError.
Proof.
  apply preprocess_assertion_unreachable.
  - intros dense_length H. vm_compute in H. injection H as <-. lia.
  - intros H. vm_compute in H. discriminate H.
Defined.

Lemma build_instances_no_shuffle_witness :
  fst <$> build_instances demo_generator one_context high_draws
  = fst <$> build_instances demo_generator one_context low_draws.
Proof. apply build_instances_no_shuffle. reflexivity. Defined.

(** The padding / truncation step of [preprocess_roberta], in closed form. *)
Lemma roberta_normalise_closed (ids : list Z) :
  (if len ids <? MAX_ROBERTA_LENGTH
   then right_padding ids 1 MAX_ROBERTA_LENGTH
   else Ok (slice_to ids MAX_ROBERTA_LENGTH))
  = Ok (take 502 ids ++ replicate (502 - length ids) 1).
Proof.
  destruct (roberta_normalise ids) as (out & -> & _ & Hlt & Hge). f_equal.
  destruct (Z_lt_le_dec (len ids) 502) as [L|L].
  - rewrite (Hlt L). unfold len in *. rewrite take_ge by lia.
    f_equal. f_equal. lia.
  - rewrite (Hge L). unfold len in *.
    replace (502 - length ids)%nat with 0%nat by lia. now rewrite app_nil_r.
Qed.

Lemma preprocess_roberta_of_array (rs : RobertaSentence) (ids : list Z) :
  roberta_array rs = Ok ids ->
  preprocess_roberta rs = Ok (take 502 ids ++ replicate (502 - length ids) 1).
Proof.
  intros Hids. unfold preprocess_roberta. rewrite Hids. cbn [mbind result_bind].
  rewrite roberta_normalise_closed. cbn [mbind result_bind].
  destruct (roberta_normalise ids) as (out & Hn & Hlen & _).
  rewrite roberta_normalise_closed in Hn. injection Hn as <-.
  rewrite Hlen, Z.eqb_refl. reflexivity.
Qed.

(** X29.  The secondary encoding [preprocess_roberta] stores is the array of
    the input's ids cut to its first 502 entries and filled up to 502 with
    the pad id 1; when the ids cannot be read, it raises what reading them
    raised. *)
Theorem preprocess_roberta_content (rs : RobertaSentence) :
  (forall ids, roberta_array rs = Ok ids ->
     preprocess_roberta rs = Ok (take 502 ids ++ replicate (502 - length ids) 1)) /\
  (forall e, roberta_array rs = Raise e -> preprocess_roberta rs = Raise e).
Proof.
  split.
  - apply preprocess_roberta_of_array.
  - intros e He. unfold preprocess_roberta. now rewrite He.
Qed.

(** X30.  In a mode that ends with ["_roberta_input"] (and not with the
    no-SRL marker) [HPInstance.__init__] needs the secondary sentence as
    text, leaves no tags, and the secondary encoding it stores is
    [sent1_tokens] cut to 502 ids and filled up with the pad id 1. *)
Theorem HPInstance_init_roberta_mode (a : Args) (c : gmap string Z) (d : HPInstanceDict)
    (hp : HPInstance) :
  endswith "_no_srl_input" (context_input_type a) = false ->
  endswith "_roberta_input" (context_input_type a) = true ->
  HPInstance_init a c d = Ok hp ->
  (exists s, d_roberta_sentence d = RobertaStr s) /\
  sent1_tokens_tags (base hp) = None /\
  roberta_sentence hp
    = take 502 (sent1_tokens (base hp))
      ++ replicate (502 - length (sent1_tokens (base hp))) 1.
Proof.
  intros Hn Hr H. unfold HPInstance_init in H.
  bind_split H as mp Hmp. bind_split H as st Hst. destruct st as [s1 tags].
  bind_split H as s2 Hs2. bind_split H as rs Hrs. injection H as <-.
  cbn [base roberta_sentence]. attrs.
  unfold decide_sent1_tokens in Hst. rewrite Hn, Hr in Hst.
  destruct (d_roberta_sentence d) as [s|t] eqn:Hd; [|discriminate Hst].
  bind_split Hst as ids Hids. bind_split Hst as sent1 Harr. injection Hst as <- <-.
  split; [now exists s|]. split; [reflexivity|].
  rewrite (preprocess_roberta_of_array (RobertaStr s) sent1) in Hrs.
  - now injection Hrs as <-.
  - cbn [roberta_array]. rewrite Hids. exact Harr.
Qed.

Lemma HPInstance_init_roberta_mode_witness :
  exists hp,
    HPInstance_init roberta_mode_args demo_config (raw_example 0) = Ok hp /\
    (exists s, d_roberta_sentence (raw_example 0) = RobertaStr s) /\
    sent1_tokens_tags (base hp) = None /\
    roberta_sentence hp
      = take 502 (sent1_tokens (base hp))
        ++ replicate (502 - length (sent1_tokens (base hp))) 1.
Proof.
  assert (Hok : is_ok (HPInstance_init roberta_mode_args demo_config (raw_example 0))
                = true) by (vm_compute; reflexivity).
  destruct (HPInstance_init roberta_mode_args demo_config (raw_example 0))
    as [hp|e] eqn:Hd; [|discriminate Hok].
  exists hp. split; [reflexivity|].
  apply (HPInstance_init_roberta_mode roberta_mode_args demo_config (raw_example 0) hp).
  - reflexivity.
  - reflexivity.
  - exact Hd.
Defined.
